(** * SMS-system: the in-memory record store of [models.py]

    A shallow embedding of the four model classes ([Student], [Course],
    [Enrollment], [Grade]), of the global [DataStore] they share and of
    the POST handlers of [routes.py] that call them, followed by the
    properties of the store stated in the specification and by further
    properties of the store and of the handlers.

    Conventions of the embedding.
    - A Python [dict] keyed by integers is an association list in insertion
      order: iteration order is observable in [models.py] (first match in
      [Enrollment.create] and [Grade.create], order of the float summation
      in [Student.calculate_gpa], order of [Student.search] results).
    - Python [int] is [Z]; Python [float] is the primitive binary64 [float].
    - The global [data_store] is passed explicitly: an operation that
      mutates it returns the new store next to its result.
    - [datetime.now().isoformat()] is an input of the operation: one string
      argument per call of [datetime.now()] in the source.
    - An operation that can raise returns a [result]. *)

From Stdlib Require Import ZArith List String Ascii Bool Floats Lia.
From Stdlib Require Import Relations.Relation_Operators.
Import ListNotations.

Set Warnings "-inexact-float".
Local Open Scope string_scope.
Local Open Scope list_scope.
Local Open Scope Z_scope.

(** ** Python built-ins used by [models.py] *)

Module Py.

(** Exceptions the modelled code can raise. *)
Inductive exn : Type := KeyError | OverflowError.

Inductive result (A : Type) : Type :=
| Ok (a : A)
| Raise (e : exn).
Arguments Ok {A} a.
Arguments Raise {A} e.

Definition bind {A B : Type} (m : result A) (k : A -> result B) : result B :=
  match m with
  | Ok a => k a
  | Raise e => Raise e
  end.

(** *** Dictionaries keyed by integers, in insertion order *)

Definition dict (V : Type) : Type := list (Z * V).

Section Dict.
Context {V : Type}.

Definition keys (d : dict V) : list Z := map fst d.
Definition values (d : dict V) : list V := map snd d.
Definition items (d : dict V) : list (Z * V) := d.

(** [k in d] *)
Definition contains (k : Z) (d : dict V) : bool :=
  existsb (fun kv => fst kv =? k) d.

(** [d.get(k)] *)
Fixpoint get (k : Z) (d : dict V) : option V :=
  match d with
  | [] => None
  | (k', v) :: tl => if k' =? k then Some v else get k tl
  end.

(** [d[k] = v]: an existing key keeps its position, a new key goes
    last. *)
Fixpoint set (k : Z) (v : V) (d : dict V) : dict V :=
  match d with
  | [] => [(k, v)]
  | (k', v') :: tl =>
      if k' =? k then (k, v) :: tl else (k', v') :: set k v tl
  end.

(** [d[k]]: raises [KeyError] when the key is absent. *)
Definition getitem (k : Z) (d : dict V) : result V :=
  match get k d with
  | Some v => Ok v
  | None => Raise KeyError
  end.

(** [del d[k]]: raises [KeyError] when the key is absent. *)
Definition del (k : Z) (d : dict V) : result (dict V) :=
  if contains k d
  then Ok (filter (fun kv => negb (fst kv =? k)) d)
  else Raise KeyError.

(** [for k in ks: del d[k]] *)
Fixpoint del_all (ks : list Z) (d : dict V) : result (dict V) :=
  match ks with
  | [] => Ok d
  | k :: ks' => bind (del k d) (del_all ks')
  end.
End Dict.

(** *** Numbers *)

(** Conversion of an [int] operand to [float] in mixed arithmetic:
    correctly rounded (ties to even), [OverflowError] when the rounded
    value is out of range. *)
Definition int_to_float (z : Z) : result float :=
  match binary_normalize prec emax z 0 false with
  | S754_infinity _ => Raise OverflowError
  | f => Ok (SF2Prim f)
  end.

(** Truth value of a float: [x != 0.0]. *)
Definition float_bool (x : float) : bool := negb (PrimFloat.eqb x 0%float).

(** Nearest integer to [n / d], ties to even, for [0 <= n] and [0 < d]. *)
Definition round_half_even (n d : Z) : Z :=
  let q := n / d in
  match 2 * (n mod d) ?= d with
  | Lt => q
  | Gt => q + 1
  | Eq => if Z.even q then q else q + 1
  end.

(** [round(x, 2)]: the exact value of [x] is rounded to two decimals
    (ties to even) and the decimal [k / 100] obtained is converted back to
    the nearest float. Zeros, infinities and NaN, and every float that is
    an integer, round to themselves. *)
Definition round2 (x : float) : float :=
  match Prim2SF x with
  | S754_finite s m e =>
      if 0 <=? e then x
      else
        match round_half_even (Z.pos m * 100) (2 ^ (- e)) with
        | Z.pos k =>
            SF2Prim (SFdiv prec emax (S754_finite s k 0)
                                     (S754_finite false 100 0))
        | _ => SF2Prim (S754_zero s)
        end
  | _ => x
  end.

(** *** Strings *)

(** [c.lower()] on an ASCII character. *)
Definition lower_ascii (c : ascii) : ascii :=
  let n := nat_of_ascii c in
  if (Nat.leb 65 n && Nat.leb n 90)%bool then ascii_of_nat (n + 32) else c.

(** [s.lower()] on ASCII text. *)
Fixpoint ascii_lower (s : string) : string :=
  match s with
  | EmptyString => EmptyString
  | String c s' => String (lower_ascii c) (ascii_lower s')
  end.

(** [needle in hay] on strings. *)
Fixpoint str_in (needle hay : string) : bool :=
  if String.prefix needle hay then true
  else match hay with
       | EmptyString => false
       | String _ hay' => str_in needle hay'
       end.

End Py.

Import Py.

Notation "x <- m ;; k" := (Py.bind m (fun x => k))
  (at level 61, m at next level, right associativity).

(** ** Records *)

Record student : Type := mkStudent {
  s_id : Z;
  s_name : string;
  s_email : string;
  s_phone : string;
  s_address : string;
  s_created_at : string;
  s_updated_at : string
}.

Record course : Type := mkCourse {
  c_id : Z;
  c_code : string;
  c_name : string;
  c_description : string;
  c_credits : Z;
  c_created_at : string;
  c_updated_at : string
}.

Record enrollment : Type := mkEnrollment {
  e_id : Z;
  e_student_id : Z;
  e_course_id : Z;
  e_enrolled_at : string
}.

Record grade : Type := mkGrade {
  g_id : Z;
  g_student_id : Z;
  g_course_id : Z;
  g_letter_grade : string;
  g_points : float;
  g_created_at : string;
  g_updated_at : string
}.

(** ** The data store *)

Record DataStore : Type := mkDataStore {
  students : dict student;
  courses : dict course;
  enrollments : dict enrollment;
  grades : dict grade;
  next_student_id : Z;
  next_course_id : Z;
  next_enrollment_id : Z;
  next_grade_id : Z
}.

(** [DataStore.__init__] *)
Definition init : DataStore :=
  mkDataStore [] [] [] [] 1 1 1 1.

Definition with_students (st : DataStore) (d : dict student) (n : Z) : DataStore :=
  mkDataStore d st.(courses) st.(enrollments) st.(grades)
              n st.(next_course_id) st.(next_enrollment_id) st.(next_grade_id).

Definition with_courses (st : DataStore) (d : dict course) (n : Z) : DataStore :=
  mkDataStore st.(students) d st.(enrollments) st.(grades)
              st.(next_student_id) n st.(next_enrollment_id) st.(next_grade_id).

Definition with_enrollments (st : DataStore) (d : dict enrollment) (n : Z) : DataStore :=
  mkDataStore st.(students) st.(courses) d st.(grades)
              st.(next_student_id) st.(next_course_id) n st.(next_grade_id).

Definition with_grades (st : DataStore) (d : dict grade) (n : Z) : DataStore :=
  mkDataStore st.(students) st.(courses) st.(enrollments) d
              st.(next_student_id) st.(next_course_id) st.(next_enrollment_id) n.


(** ** [class Grade] *)

Module Grade.

Definition GRADE_POINTS : list (string * float) :=
  [ ("A+", 4.0%float); ("A", 4.0%float); ("A-", 3.7%float);
    ("B+", 3.3%float); ("B", 3.0%float); ("B-", 2.7%float);
    ("C+", 2.3%float); ("C", 2.0%float); ("C-", 1.7%float);
    ("D+", 1.3%float); ("D", 1.0%float); ("D-", 0.7%float);
    ("F", 0.0%float) ].

(** [GRADE_POINTS.get(letter_grade, 0.0)] *)
Definition letter_to_points (letter_grade : string) : float :=
  match find (fun kv => String.eqb (fst kv) letter_grade) GRADE_POINTS with
  | Some (_, p) => p
  | None => 0.0%float
  end.

(** [points or Grade.letter_to_points(letter_grade)]: [None] and a zero
    float are both falsy. *)
Definition points_or (points : option float) (letter_grade : string) : float :=
  match points with
  | Some p => if float_bool p then p else letter_to_points letter_grade
  | None => letter_to_points letter_grade
  end.

Definition same_pair (student_id course_id : Z) (g : grade) : bool :=
  (g.(g_student_id) =? student_id) && (g.(g_course_id) =? course_id).

(** [grade.update({'letter_grade': .., 'points': .., 'updated_at': ..})] *)
Definition regrade (g : grade) (letter_grade : string) (points : float)
    (now : string) : grade :=
  mkGrade g.(g_id) g.(g_student_id) g.(g_course_id)
          letter_grade points g.(g_created_at) now.

(** The scan of [create]: the first grade of the pair is updated in
    place and returned; [None] when the loop ends without a match. *)
Fixpoint update_existing (student_id course_id : Z) (letter_grade : string)
    (points : option float) (now : string) (d : dict grade)
    : option (grade * dict grade) :=
  match d with
  | [] => None
  | (grade_id, g) :: tl =>
      if same_pair student_id course_id g then
        let g' := regrade g letter_grade (points_or points letter_grade) now in
        Some (g', (grade_id, g') :: tl)
      else
        match update_existing student_id course_id letter_grade points now tl with
        | Some (r, tl') => Some (r, (grade_id, g) :: tl')
        | None => None
        end
  end.

(** [Grade.create]; [now1] and [now2] are the values of the first and
    second [datetime.now().isoformat()]. *)
Definition create (student_id course_id : Z) (letter_grade : string)
    (points : option float) (now1 now2 : string) (st : DataStore)
    : grade * DataStore :=
  match update_existing student_id course_id letter_grade points now1
                        (items st.(grades)) with
  | Some (g, d) => (g, with_grades st d st.(next_grade_id))
  | None =>
      let grade_id := st.(next_grade_id) in
      let g := mkGrade grade_id student_id course_id letter_grade
                       (points_or points letter_grade) now1 now2 in
      (g, with_grades st (set grade_id g st.(grades)) (grade_id + 1))
  end.

Definition get (grade_id : Z) (st : DataStore) : option grade :=
  Py.get grade_id st.(grades).

Definition get_all (st : DataStore) : list grade :=
  values st.(grades).

Definition get_by_student (student_id : Z) (st : DataStore) : list grade :=
  filter (fun g => g.(g_student_id) =? student_id) (values st.(grades)).

Definition get_by_course (course_id : Z) (st : DataStore) : list grade :=
  filter (fun g => g.(g_course_id) =? course_id) (values st.(grades)).

Definition get_by_student_course (student_id course_id : Z) (st : DataStore)
    : option grade :=
  find (same_pair student_id course_id) (values st.(grades)).

Definition delete (grade_id : Z) (st : DataStore) : result (bool * DataStore) :=
  if negb (contains grade_id st.(grades)) then Ok (false, st)
  else
    d <- del grade_id st.(grades) ;;
    Ok (true, with_grades st d st.(next_grade_id)).

Definition delete_by_student (student_id : Z) (st : DataStore) : result DataStore :=
  let to_delete :=
    map fst (filter (fun kv => (snd kv).(g_student_id) =? student_id)
                    (items st.(grades))) in
  d <- del_all to_delete st.(grades) ;;
  Ok (with_grades st d st.(next_grade_id)).

Definition delete_by_course (course_id : Z) (st : DataStore) : result DataStore :=
  let to_delete :=
    map fst (filter (fun kv => (snd kv).(g_course_id) =? course_id)
                    (items st.(grades))) in
  d <- del_all to_delete st.(grades) ;;
  Ok (with_grades st d st.(next_grade_id)).

Definition delete_by_student_course (student_id course_id : Z) (st : DataStore)
    : result DataStore :=
  let to_delete :=
    map fst (filter (fun kv => same_pair student_id course_id (snd kv))
                    (items st.(grades))) in
  d <- del_all to_delete st.(grades) ;;
  Ok (with_grades st d st.(next_grade_id)).

End Grade.

(** ** [class Enrollment] *)

Module Enrollment.

Definition same_pair (student_id course_id : Z) (e : enrollment) : bool :=
  (e.(e_student_id) =? student_id) && (e.(e_course_id) =? course_id).

(** [Enrollment.create]; [now] is the value of
    [datetime.now().isoformat()]. *)
Definition create (student_id course_id : Z) (now : string) (st : DataStore)
    : enrollment * DataStore :=
  match find (same_pair student_id course_id) (values st.(enrollments)) with
  | Some e => (e, st)
  | None =>
      let enrollment_id := st.(next_enrollment_id) in
      let e := mkEnrollment enrollment_id student_id course_id now in
      (e, with_enrollments st (set enrollment_id e st.(enrollments))
                           (enrollment_id + 1))
  end.

Definition get (enrollment_id : Z) (st : DataStore) : option enrollment :=
  Py.get enrollment_id st.(enrollments).

Definition get_all (st : DataStore) : list enrollment :=
  values st.(enrollments).

Definition get_by_student (student_id : Z) (st : DataStore) : list enrollment :=
  filter (fun e => e.(e_student_id) =? student_id) (values st.(enrollments)).

Definition get_by_course (course_id : Z) (st : DataStore) : list enrollment :=
  filter (fun e => e.(e_course_id) =? course_id) (values st.(enrollments)).

Definition delete (enrollment_id : Z) (st : DataStore) : result (bool * DataStore) :=
  if negb (contains enrollment_id st.(enrollments)) then Ok (false, st)
  else
    e <- getitem enrollment_id st.(enrollments) ;;
    st1 <- Grade.delete_by_student_course e.(e_student_id) e.(e_course_id) st ;;
    d <- del enrollment_id st1.(enrollments) ;;
    Ok (true, with_enrollments st1 d st1.(next_enrollment_id)).

Definition delete_by_student (student_id : Z) (st : DataStore) : result DataStore :=
  let to_delete :=
    map fst (filter (fun kv => (snd kv).(e_student_id) =? student_id)
                    (items st.(enrollments))) in
  d <- del_all to_delete st.(enrollments) ;;
  Ok (with_enrollments st d st.(next_enrollment_id)).

Definition delete_by_course (course_id : Z) (st : DataStore) : result DataStore :=
  let to_delete :=
    map fst (filter (fun kv => (snd kv).(e_course_id) =? course_id)
                    (items st.(enrollments))) in
  d <- del_all to_delete st.(enrollments) ;;
  Ok (with_enrollments st d st.(next_enrollment_id)).

End Enrollment.

(** ** [class Course] *)

Module Course.

(** [Course.create]; [now1] and [now2] are the values of the two calls of
    [datetime.now().isoformat()]. *)
Definition create (code name description : string) (credits : Z)
    (now1 now2 : string) (st : DataStore) : course * DataStore :=
  let course_id := st.(next_course_id) in
  let c := mkCourse course_id code name description credits now1 now2 in
  (c, with_courses st (set course_id c st.(courses)) (course_id + 1)).

Definition get (course_id : Z) (st : DataStore) : option course :=
  Py.get course_id st.(courses).

Definition get_all (st : DataStore) : list course :=
  values st.(courses).

Definition update (course_id : Z) (code name description : string) (credits : Z)
    (now : string) (st : DataStore) : result (option course * DataStore) :=
  if negb (contains course_id st.(courses)) then Ok (None, st)
  else
    c <- getitem course_id st.(courses) ;;
    let c' := mkCourse c.(c_id) code name description credits
                       c.(c_created_at) now in
    Ok (Some c', with_courses st (set course_id c' st.(courses))
                              st.(next_course_id)).

Definition delete (course_id : Z) (st : DataStore) : result (bool * DataStore) :=
  if negb (contains course_id st.(courses)) then Ok (false, st)
  else
    st1 <- Enrollment.delete_by_course course_id st ;;
    st2 <- Grade.delete_by_course course_id st1 ;;
    d <- del course_id st2.(courses) ;;
    Ok (true, with_courses st2 d st2.(next_course_id)).

End Course.

(** ** [class Student] *)

Module Student.

(** [Student.create]; [now1] and [now2] are the values of the two calls
    of [datetime.now().isoformat()]. *)
Definition create (name email phone address : string)
    (now1 now2 : string) (st : DataStore) : student * DataStore :=
  let student_id := st.(next_student_id) in
  let s := mkStudent student_id name email phone address now1 now2 in
  (s, with_students st (set student_id s st.(students)) (student_id + 1)).

Definition get (student_id : Z) (st : DataStore) : option student :=
  Py.get student_id st.(students).

Definition get_all (st : DataStore) : list student :=
  values st.(students).

Definition update (student_id : Z) (name email phone address : string)
    (now : string) (st : DataStore) : result (option student * DataStore) :=
  if negb (contains student_id st.(students)) then Ok (None, st)
  else
    s <- getitem student_id st.(students) ;;
    let s' := mkStudent s.(s_id) name email phone address
                        s.(s_created_at) now in
    Ok (Some s', with_students st (set student_id s' st.(students))
                               st.(next_student_id)).

Definition delete (student_id : Z) (st : DataStore) : result (bool * DataStore) :=
  if negb (contains student_id st.(students)) then Ok (false, st)
  else
    st1 <- Enrollment.delete_by_student student_id st ;;
    st2 <- Grade.delete_by_student student_id st1 ;;
    d <- del student_id st2.(students) ;;
    Ok (true, with_students st2 d st2.(next_student_id)).

Section Search.
(** [str.lower], a built-in of the language, is a parameter of [search]. *)
Variable lower : string -> string.

(** Body of the loop of [search]. *)
Definition search_step (query : string) (results : list student) (s : student)
    : list student :=
  if str_in query (lower s.(s_name)) || str_in query (lower s.(s_email))
  then results ++ [s]
  else results.

Definition search (query : string) (st : DataStore) : list student :=
  match query with
  | EmptyString => get_all st
  | _ =>
      let query := lower query in
      fold_left (search_step query) (values st.(students)) []
  end.
End Search.

(** Body of the loop of [calculate_gpa], on the accumulators
    [(total_points, total_credits)]. *)
Definition gpa_step (st : DataStore) (acc : float * Z) (g : grade)
    : result (float * Z) :=
  let '(total_points, total_credits) := acc in
  match Course.get g.(g_course_id) st with
  | Some c =>
      let grade_points := Grade.letter_to_points g.(g_letter_grade) in
      let credits := c.(c_credits) in
      fc <- int_to_float credits ;;
      Ok ((total_points + grade_points * fc)%float, total_credits + credits)
  | None => Ok acc
  end.

Fixpoint gpa_loop (st : DataStore) (gs : list grade) (acc : float * Z)
    : result (float * Z) :=
  match gs with
  | [] => Ok acc
  | g :: gs' => acc' <- gpa_step st acc g ;; gpa_loop st gs' acc'
  end.

(** [Student.calculate_gpa]. The accumulator [total_points] starts as the
    integer 0, which the first addition converts to the float 0.0. *)
Definition calculate_gpa (student_id : Z) (st : DataStore) : result float :=
  let student_grades := Grade.get_by_student student_id st in
  match student_grades with
  | [] => Ok 0.0%float
  | _ =>
      acc <- gpa_loop st student_grades (0.0%float, 0) ;;
      let '(total_points, total_credits) := acc in
      if total_credits =? 0 then Ok 0.0%float
      else
        d <- int_to_float total_credits ;;
        Ok (round2 (total_points / d)%float)
  end.

End Student.

(** ** Runs of the store *)

(** One mutating call of the interface of [models.py] that returns
    normally. *)
Inductive step (st : DataStore) : DataStore -> Prop :=
| step_student_create name email phone address now1 now2 :
    step st (snd (Student.create name email phone address now1 now2 st))
| step_student_update student_id name email phone address now r st' :
    Student.update student_id name email phone address now st = Ok (r, st') ->
    step st st'
| step_student_delete student_id r st' :
    Student.delete student_id st = Ok (r, st') -> step st st'
| step_course_create code name description credits now1 now2 :
    step st (snd (Course.create code name description credits now1 now2 st))
| step_course_update course_id code name description credits now r st' :
    Course.update course_id code name description credits now st = Ok (r, st') ->
    step st st'
| step_course_delete course_id r st' :
    Course.delete course_id st = Ok (r, st') -> step st st'
| step_enrollment_create student_id course_id now :
    step st (snd (Enrollment.create student_id course_id now st))
| step_enrollment_delete enrollment_id r st' :
    Enrollment.delete enrollment_id st = Ok (r, st') -> step st st'
| step_enrollment_delete_by_student student_id st' :
    Enrollment.delete_by_student student_id st = Ok st' -> step st st'
| step_enrollment_delete_by_course course_id st' :
    Enrollment.delete_by_course course_id st = Ok st' -> step st st'
| step_grade_create student_id course_id letter_grade points now1 now2 :
    step st (snd (Grade.create student_id course_id letter_grade points
                               now1 now2 st))
| step_grade_delete grade_id r st' :
    Grade.delete grade_id st = Ok (r, st') -> step st st'
| step_grade_delete_by_student student_id st' :
    Grade.delete_by_student student_id st = Ok st' -> step st st'
| step_grade_delete_by_course course_id st' :
    Grade.delete_by_course course_id st = Ok st' -> step st st'
| step_grade_delete_by_student_course student_id course_id st' :
    Grade.delete_by_student_course student_id course_id st = Ok st' ->
    step st st'.

(** The stores a run can produce from the store of [DataStore.__init__]. *)
Inductive reachable : DataStore -> Prop :=
| reachable_init : reachable init
| reachable_step st st' : reachable st -> step st st' -> reachable st'.

(** Any number of steps. *)
Inductive steps (st : DataStore) : DataStore -> Prop :=
| steps_refl : steps st st
| steps_cons st1 st2 : steps st st1 -> step st1 st2 -> steps st st2.

(** ** Invariants of the store *)

(** A table is a dictionary (no key occurs twice); every record is stored
    under its own [id], and every key was issued by the counter. *)
Definition table_ok {V : Type} (id : V -> Z) (d : dict V) (next : Z) : Prop :=
  NoDup (keys d) /\
  Forall (fun kv => id (snd kv) = fst kv /\ 1 <= fst kv < next) d.

Definition enrollment_pair (e : enrollment) : Z * Z :=
  (e.(e_student_id), e.(e_course_id)).

Definition grade_pair (g : grade) : Z * Z :=
  (g.(g_student_id), g.(g_course_id)).

Record store_inv (st : DataStore) : Prop := mkStoreInv {
  inv_students : table_ok s_id st.(students) st.(next_student_id);
  inv_courses : table_ok c_id st.(courses) st.(next_course_id);
  inv_enrollments : table_ok e_id st.(enrollments) st.(next_enrollment_id);
  inv_grades : table_ok g_id st.(grades) st.(next_grade_id);
  inv_enrollment_pairs : NoDup (map enrollment_pair (values st.(enrollments)));
  inv_grade_pairs : NoDup (map grade_pair (values st.(grades)));
  inv_counters : 1 <= st.(next_student_id) /\ 1 <= st.(next_course_id) /\
                 1 <= st.(next_enrollment_id) /\ 1 <= st.(next_grade_id)
}.

(** ** Declarative counterparts used in the statements *)

(** No counter of [st'] is below the same counter of [st]. *)
Definition counters_le (st st' : DataStore) : Prop :=
  st.(next_student_id) <= st'.(next_student_id) /\
  st.(next_course_id) <= st'.(next_course_id) /\
  st.(next_enrollment_id) <= st'.(next_enrollment_id) /\
  st.(next_grade_id) <= st'.(next_grade_id).

(** A store with two students; the first has an enrollment and a grade in
    a course, the second has an enrollment in it. *)
Definition two_students : DataStore :=
  let st := snd (Student.create "Ann" "ann@example.com" "1" "a" "t" "t" init) in
  let st := snd (Student.create "Bob" "bob@example.com" "2" "b" "t" "t" st) in
  let st := snd (Course.create "CS1" "Intro" "d" 3 "t" "t" st) in
  let st := snd (Enrollment.create 1 1 "t" st) in
  let st := snd (Enrollment.create 2 1 "t" st) in
  snd (Grade.create 1 1 "A" None "t" "t" st).

(** The grade records that count for the GPA of a student: the student's
    grades whose course still exists, each with that course. *)
Definition graded_courses (student_id : Z) (st : DataStore)
    : list (grade * course) :=
  flat_map (fun g => match Course.get g.(g_course_id) st with
                     | Some c => [(g, c)]
                     | None => []
                     end)
           (Grade.get_by_student student_id st).

(** D: the sum of the credits. *)
Definition credit_sum (l : list (grade * course)) : Z :=
  fold_right (fun gc acc => (snd gc).(c_credits) + acc) 0 l.

(** N: the sum of [letter_to_points(letter_grade) * credits], added from
    left to right starting from zero, in float arithmetic. *)
Fixpoint point_sum_from (acc : float) (l : list (grade * course)) : result float :=
  match l with
  | [] => Ok acc
  | (g, c) :: l' =>
      fc <- int_to_float c.(c_credits) ;;
      point_sum_from
        (acc + Grade.letter_to_points g.(g_letter_grade) * fc)%float l'
  end.

Definition point_sum (l : list (grade * course)) : result float :=
  point_sum_from 0.0%float l.

(** [round(N / D, 2)], or 0.0 when D is zero. *)
Definition gpa_spec (student_id : Z) (st : DataStore) : result float :=
  let l := graded_courses student_id st in
  n <- point_sum l ;;
  if credit_sum l =? 0 then Ok 0.0%float
  else
    d <- int_to_float (credit_sum l) ;;
    Ok (round2 (n / d)%float).

(** [needle] occurs in [hay]. *)
Definition substring (needle hay : string) : Prop :=
  exists pre post : string, hay = (pre ++ needle ++ post)%string.

(** Two grade records that agree on every field but [points]. *)
Definition same_but_points (g1 g2 : grade) : Prop :=
  g1.(g_id) = g2.(g_id) /\
  g1.(g_student_id) = g2.(g_student_id) /\
  g1.(g_course_id) = g2.(g_course_id) /\
  g1.(g_letter_grade) = g2.(g_letter_grade) /\
  g1.(g_created_at) = g2.(g_created_at) /\
  g1.(g_updated_at) = g2.(g_updated_at).

(** Two stores that differ at most in the [points] of their grades. *)
Definition same_store_but_points (st1 st2 : DataStore) : Prop :=
  st1.(students) = st2.(students) /\
  st1.(courses) = st2.(courses) /\
  st1.(enrollments) = st2.(enrollments) /\
  Forall2 (fun kv1 kv2 => fst kv1 = fst kv2 /\
                          same_but_points (snd kv1) (snd kv2))
          st1.(grades) st2.(grades) /\
  st1.(next_student_id) = st2.(next_student_id) /\
  st1.(next_course_id) = st2.(next_course_id) /\
  st1.(next_enrollment_id) = st2.(next_enrollment_id) /\
  st1.(next_grade_id) = st2.(next_grade_id).

(** Three students: one named John Smith, one whose e-mail address starts
    with josephine, one that has neither. *)
Definition john : student :=
  mkStudent 1 "John Smith" "smith@example.com" "555-0101" "1 Main St" "t1" "t1".

Definition josephine : student :=
  mkStudent 2 "Fina Ray" "josephine@example.com" "555-0102" "2 Main St" "t2" "t2".

Definition ann : student :=
  mkStudent 3 "Ann Lee" "ann@example.com" "555-0103" "3 Main St" "t3" "t3".

Definition search_example : DataStore :=
  let st := snd (Student.create "John Smith" "smith@example.com" "555-0101"
                                "1 Main St" "t1" "t1" init) in
  let st := snd (Student.create "Fina Ray" "josephine@example.com" "555-0102"
                                "2 Main St" "t2" "t2" st) in
  snd (Student.create "Ann Lee" "ann@example.com" "555-0103"
                      "3 Main St" "t3" "t3" st).

(** A student with the grades A and B in courses of 3 and 4 credits. *)
Definition gpa_example : DataStore :=
  let st := snd (Student.create "Ann" "ann@example.com" "1" "a" "t" "t" init) in
  let st := snd (Course.create "CS1" "Intro" "d" 3 "t" "t" st) in
  let st := snd (Course.create "MA1" "Calculus" "d" 4 "t" "t" st) in
  let st := snd (Grade.create 1 1 "A" None "t" "t" st) in
  snd (Grade.create 1 2 "B" None "t" "t" st).

(** What the GPA reads of a graded course: the letter and the credits. *)
Definition gpa_inputs (l : list (grade * course)) : list (string * Z) :=
  map (fun gc => ((fst gc).(g_letter_grade), (snd gc).(c_credits))) l.

(** [gpa_example] with the points of both grades overridden. *)
Definition gpa_example_overridden : DataStore :=
  let st := snd (Student.create "Ann" "ann@example.com" "1" "a" "t" "t" init) in
  let st := snd (Course.create "CS1" "Intro" "d" 3 "t" "t" st) in
  let st := snd (Course.create "MA1" "Calculus" "d" 4 "t" "t" st) in
  let st := snd (Grade.create 1 1 "A" (Some 1.5%float) "t" "t" st) in
  snd (Grade.create 1 2 "B" (Some 0.5%float) "t" "t" st).

(** ** The POST handlers of [routes.py]

    A handler is modelled from the point where the form fields have been
    read: its arguments are the fields after [.strip()] (and [.upper()] for
    a course code, [int(...)] for numbers). It returns the message and
    category it flashes, the endpoint it redirects to, and the store it
    leaves. [Raise] stands for the [except Exception] branch, taken when a
    store operation raises. The keys that the GET handlers add to the
    records they display ([gpa], [enrollment_count], ...) are read by no
    handler below and by no store operation, and are left out of the
    records. *)

Module Routes.

(** Targets of [redirect(url_for(...))]. *)
Inductive endpoint : Type :=
| url_students
| url_new_student
| url_edit_student (student_id : Z)
| url_courses
| url_new_course
| url_edit_course (course_id : Z)
| url_enrollments
| url_new_enrollment
| url_grades
| url_new_grade
| url_edit_grade (grade_id : Z).

Record response : Type := mkResponse {
  flash_message : string;
  flash_category : string;
  location : endpoint
}.

(** [flash(message, category)] followed by [return redirect(target)]. *)
Definition flash (message category : string) (target : endpoint) : response :=
  mkResponse message category target.

(** [all([...])] on strings: none is empty. *)
Definition all_nonempty (l : list string) : bool :=
  forallb (fun s => negb (String.eqb s "")) l.

Section Handlers.
(** [str.lower], as in [Student.search]. *)
Variable lower : string -> string.

Definition create_student (name email phone address : string)
    (now1 now2 : string) (st : DataStore) : result (response * DataStore) :=
  if negb (all_nonempty [name; email; phone; address]) then
    Ok (flash "All fields are required." "danger" url_new_student, st)
  else if existsb (fun student =>
                     String.eqb (lower student.(s_email)) (lower email))
                  (Student.get_all st) then
    Ok (flash "A student with this email already exists." "danger"
              url_new_student, st)
  else
    let '(student, st') := Student.create name email phone address now1 now2 st in
    Ok (flash ("Student " ++ name ++ " created successfully!")%string "success"
              url_students, st').

Definition update_student (student_id : Z) (name email phone address : string)
    (now : string) (st : DataStore) : result (response * DataStore) :=
  if negb (all_nonempty [name; email; phone; address]) then
    Ok (flash "All fields are required." "danger" (url_edit_student student_id), st)
  else if existsb (fun student =>
                     negb (student.(s_id) =? student_id)
                     && String.eqb (lower student.(s_email)) (lower email))
                  (Student.get_all st) then
    Ok (flash "A student with this email already exists." "danger"
              (url_edit_student student_id), st)
  else
    r <- Student.update student_id name email phone address now st ;;
    let '(student, st') := r in
    match student with
    | Some _ =>
        Ok (flash ("Student " ++ name ++ " updated successfully!")%string
                  "success" url_students, st')
    | None => Ok (flash "Student not found." "danger" url_students, st')
    end.

Definition delete_student (student_id : Z) (st : DataStore)
    : result (response * DataStore) :=
  match Student.get student_id st with
  | None => Ok (flash "Student not found." "danger" url_students, st)
  | Some student =>
      r <- Student.delete student_id st ;;
      let '(deleted, st') := r in
      if deleted then
        Ok (flash ("Student " ++ student.(s_name) ++ " deleted successfully!")%string
                  "success" url_students, st')
      else Ok (flash "Error deleting student." "danger" url_students, st')
  end.

Definition create_course (code name description : string) (credits : Z)
    (now1 now2 : string) (st : DataStore) : result (response * DataStore) :=
  if negb (all_nonempty [code; name; description]) || (credits <=? 0) then
    Ok (flash "All fields are required and credits must be positive." "danger"
              url_new_course, st)
  else if existsb (fun course => String.eqb course.(c_code) code)
                  (Course.get_all st) then
    Ok (flash "A course with this code already exists." "danger"
              url_new_course, st)
  else
    let '(course, st') :=
      Course.create code name description credits now1 now2 st in
    Ok (flash ("Course " ++ code ++ " created successfully!")%string "success"
              url_courses, st').

Definition update_course (course_id : Z) (code name description : string)
    (credits : Z) (now : string) (st : DataStore)
    : result (response * DataStore) :=
  if negb (all_nonempty [code; name; description]) || (credits <=? 0) then
    Ok (flash "All fields are required and credits must be positive." "danger"
              (url_edit_course course_id), st)
  else if existsb (fun course =>
                     negb (course.(c_id) =? course_id)
                     && String.eqb course.(c_code) code)
                  (Course.get_all st) then
    Ok (flash "A course with this code already exists." "danger"
              (url_edit_course course_id), st)
  else
    r <- Course.update course_id code name description credits now st ;;
    let '(course, st') := r in
    match course with
    | Some _ =>
        Ok (flash ("Course " ++ code ++ " updated successfully!")%string
                  "success" url_courses, st')
    | None => Ok (flash "Course not found." "danger" url_courses, st')
    end.

Definition delete_course (course_id : Z) (st : DataStore)
    : result (response * DataStore) :=
  match Course.get course_id st with
  | None => Ok (flash "Course not found." "danger" url_courses, st)
  | Some course =>
      r <- Course.delete course_id st ;;
      let '(deleted, st') := r in
      if deleted then
        Ok (flash ("Course " ++ course.(c_code) ++ " deleted successfully!")%string
                  "success" url_courses, st')
      else Ok (flash "Error deleting course." "danger" url_courses, st')
  end.

Definition create_enrollment (student_id course_id : Z) (now : string)
    (st : DataStore) : result (response * DataStore) :=
  let student := Student.get student_id st in
  let course := Course.get course_id st in
  match student with
  | None =>
      Ok (flash "Selected student not found." "danger" url_new_enrollment, st)
  | Some student =>
      match course with
      | None =>
          Ok (flash "Selected course not found." "danger" url_new_enrollment, st)
      | Some course =>
          let '(enrollment, st') :=
            Enrollment.create student_id course_id now st in
          Ok (flash (student.(s_name) ++ " enrolled in " ++ course.(c_code)
                     ++ " successfully!")%string
                    "success" url_enrollments, st')
      end
  end.

Definition delete_enrollment (enrollment_id : Z) (st : DataStore)
    : result (response * DataStore) :=
  match Enrollment.get enrollment_id st with
  | None => Ok (flash "Enrollment not found." "danger" url_enrollments, st)
  | Some enrollment =>
      r <- Enrollment.delete enrollment_id st ;;
      let '(deleted, st') := r in
      if deleted then
        Ok (flash "Enrollment deleted successfully!" "success" url_enrollments, st')
      else Ok (flash "Error deleting enrollment." "danger" url_enrollments, st')
  end.

(** [letter_grade in Grade.GRADE_POINTS] *)
Definition valid_letter (letter_grade : string) : bool :=
  existsb (String.eqb letter_grade) (map fst Grade.GRADE_POINTS).

Definition create_grade (student_id course_id : Z) (letter_grade : string)
    (now1 now2 : string) (st : DataStore) : result (response * DataStore) :=
  if negb (valid_letter letter_grade) then
    Ok (flash "Invalid grade selected." "danger" url_new_grade, st)
  else
    let enrollments := Enrollment.get_by_student student_id st in
    let enrolled_courses := map e_course_id enrollments in
    if negb (existsb (Z.eqb course_id) enrolled_courses) then
      Ok (flash "Student is not enrolled in the selected course." "danger"
                url_new_grade, st)
    else
      let '(grade, st') :=
        Grade.create student_id course_id letter_grade None now1 now2 st in
      match Student.get student_id st', Course.get course_id st' with
      | Some student, Some course =>
          Ok (flash ("Grade " ++ letter_grade ++ " assigned to "
                     ++ student.(s_name) ++ " for " ++ course.(c_code) ++ "!")%string
                    "success" url_grades, st')
      | _, _ => Ok (flash "Grade assigned successfully!" "success" url_grades, st')
      end.

Definition update_grade (grade_id : Z) (letter_grade : string)
    (now1 now2 : string) (st : DataStore) : result (response * DataStore) :=
  if negb (valid_letter letter_grade) then
    Ok (flash "Invalid grade selected." "danger" (url_edit_grade grade_id), st)
  else
    match Grade.get grade_id st with
    | None => Ok (flash "Grade not found." "danger" url_grades, st)
    | Some grade =>
        let '(updated_grade, st') :=
          Grade.create grade.(g_student_id) grade.(g_course_id) letter_grade
                       None now1 now2 st in
        match Student.get grade.(g_student_id) st',
              Course.get grade.(g_course_id) st' with
        | Some student, Some course =>
            Ok (flash ("Grade updated to " ++ letter_grade ++ " for "
                       ++ student.(s_name) ++ " in " ++ course.(c_code) ++ "!")%string
                      "success" url_grades, st')
        | _, _ => Ok (flash "Grade updated successfully!" "success" url_grades, st')
        end
    end.

Definition delete_grade (grade_id : Z) (st : DataStore)
    : result (response * DataStore) :=
  match Grade.get grade_id st with
  | None => Ok (flash "Grade not found." "danger" url_grades, st)
  | Some grade =>
      r <- Grade.delete grade_id st ;;
      let '(deleted, st') := r in
      if deleted then
        Ok (flash "Grade deleted successfully!" "success" url_grades, st')
      else Ok (flash "Error deleting grade." "danger" url_grades, st')
  end.

(** One POST request served without reaching an [except] branch. *)
Inductive request (st : DataStore) : response -> DataStore -> Prop :=
| req_create_student name email phone address now1 now2 resp st' :
    create_student name email phone address now1 now2 st = Ok (resp, st') ->
    request st resp st'
| req_update_student student_id name email phone address now resp st' :
    update_student student_id name email phone address now st = Ok (resp, st') ->
    request st resp st'
| req_delete_student student_id resp st' :
    delete_student student_id st = Ok (resp, st') -> request st resp st'
| req_create_course code name description credits now1 now2 resp st' :
    create_course code name description credits now1 now2 st = Ok (resp, st') ->
    request st resp st'
| req_update_course course_id code name description credits now resp st' :
    update_course course_id code name description credits now st
      = Ok (resp, st') ->
    request st resp st'
| req_delete_course course_id resp st' :
    delete_course course_id st = Ok (resp, st') -> request st resp st'
| req_create_enrollment student_id course_id now resp st' :
    create_enrollment student_id course_id now st = Ok (resp, st') ->
    request st resp st'
| req_delete_enrollment enrollment_id resp st' :
    delete_enrollment enrollment_id st = Ok (resp, st') -> request st resp st'
| req_create_grade student_id course_id letter_grade now1 now2 resp st' :
    create_grade student_id course_id letter_grade now1 now2 st = Ok (resp, st') ->
    request st resp st'
| req_update_grade grade_id letter_grade now1 now2 resp st' :
    update_grade grade_id letter_grade now1 now2 st = Ok (resp, st') ->
    request st resp st'
| req_delete_grade grade_id resp st' :
    delete_grade grade_id st = Ok (resp, st') -> request st resp st'.

(** The stores the application can be in: what a sequence of POST requests
    makes of the empty store. *)
Inductive served : DataStore -> Prop :=
| served_init : served init
| served_request st resp st' : served st -> request st resp st' -> served st'.

(** What the handlers maintain on top of the invariant of the store. *)
Record app_inv (st : DataStore) : Prop := mkAppInv {
  app_store : store_inv st;
  app_enrollment_refs :
    Forall (fun e => contains e.(e_student_id) st.(students) = true /\
                     contains e.(e_course_id) st.(courses) = true)
           (Enrollment.get_all st);
  app_grade_enrolled :
    Forall (fun g => In (grade_pair g)
                        (map enrollment_pair (Enrollment.get_all st)))
           (Grade.get_all st);
  app_credits : Forall (fun c => 0 < c.(c_credits)) (Course.get_all st);
  app_points :
    Forall (fun g => In g.(g_letter_grade) (map fst Grade.GRADE_POINTS) /\
                     g.(g_points) = Grade.letter_to_points g.(g_letter_grade))
           (Grade.get_all st);
  app_codes : NoDup (map c_code (Course.get_all st));
  app_emails : NoDup (map (fun s => lower s.(s_email)) (Student.get_all st));
  app_student_fields :
    Forall (fun s => s.(s_name) <> "" /\ s.(s_email) <> "" /\
                     s.(s_phone) <> "" /\ s.(s_address) <> "")
           (Student.get_all st);
  app_course_fields :
    Forall (fun c => c.(c_code) <> "" /\ c.(c_name) <> "" /\
                     c.(c_description) <> "")
           (Course.get_all st)
}.

End Handlers.

End Routes.

(** A store built by six requests: two students, a course, an enrollment
    of each student in it, a grade for the first. *)
Definition served_example : DataStore :=
  mkDataStore
    [(1, mkStudent 1 "Ann" "ann@example.com" "1" "a" "t" "t");
     (2, mkStudent 2 "Bob" "bob@example.com" "2" "b" "t" "t")]
    [(1, mkCourse 1 "CS1" "Intro" "d" 3 "t" "t")]
    [(1, mkEnrollment 1 1 1 "t"); (2, mkEnrollment 2 2 1 "t")]
    [(1, mkGrade 1 1 1 "A" 4.0%float "t" "t")]
    3 2 3 2.

(** [[Student.calculate_gpa(student['id']) for student in students_list]]:
    the GPA of each student in turn; the first call that raises ends the
    evaluation. *)
Fixpoint gpa_list (st : DataStore) (students_list : list student)
    : result (list float) :=
  match students_list with
  | [] => Ok []
  | student :: rest =>
      gpa <- Student.calculate_gpa student.(s_id) st ;;
      gpas <- gpa_list st rest ;;
      Ok (gpa :: gpas)
  end.

(** The [course_stats] that [reports] in [routes.py] hands to its
    template, or the exception that ends the handler before it gets there.
    The handler evaluates [Student.calculate_gpa] for every student before
    the loop that builds [course_stats] (when there is a student) and once
    more for every student after it, in the loop that builds
    [student_stats]; it has no [try]. A row is the course, the number of
    its enrollments and the number of its grades. The average GPA is
    computed from the floats of the first evaluation by [sum], [len] and
    [round], which do not raise, and does not enter [course_stats]. *)
Definition reports_course_stats (st : DataStore)
    : result (list (course * nat * nat)) :=
  let students_list := Student.get_all st in
  let courses_list := Course.get_all st in
  _ <- match students_list with
       | [] => Ok []
       | _ => gpa_list st students_list
       end ;;
  let course_stats :=
    map (fun course =>
           let enrollments := Enrollment.get_by_course course.(c_id) st in
           let grades := Grade.get_by_course course.(c_id) st in
           (course, List.length enrollments, List.length grades))
        courses_list in
  _ <- gpa_list st students_list ;;
  Ok course_stats.

(** [two_students] with a second course whose credits exceed the range of
    a float, and a grade of the first student in it. *)
Definition overflow_example : DataStore :=
  let st := snd (Course.create "BIG" "Big" "d" (2 ^ 1024) "t" "t" two_students) in
  let st := snd (Enrollment.create 1 2 "t" st) in
  snd (Grade.create 1 2 "A" None "t" "t" st).

(** * Properties *)

(** ** Lists *)

Lemma filter_twice {A : Type} (f g : A -> bool) (l : list A) :
  filter f (filter g l) = filter (fun x => g x && f x) l.
Proof.
  induction l as [|x l IH]; simpl; [reflexivity|].
  destruct (g x); simpl; [|exact IH].
  destruct (f x); now rewrite IH.
Qed.

(** ** Dictionaries *)

Section DictFacts.
Context {V : Type}.
Implicit Types (d : dict V) (k : Z) (v : V).

Lemma contains_iff k d : contains k d = true <-> In k (keys d).
Proof.
  unfold contains, keys. rewrite existsb_exists. split.
  - intros [[k' v] [Hin Hk]]. simpl in Hk. apply Z.eqb_eq in Hk. subst.
    apply (in_map fst) in Hin. exact Hin.
  - intros Hin. apply in_map_iff in Hin. destruct Hin as [[k' v] [Hk Hin]].
    simpl in Hk. subst. exists (k, v). split; [exact Hin | apply Z.eqb_refl].
Qed.

Lemma contains_false_iff k d : contains k d = false <-> ~ In k (keys d).
Proof.
  rewrite <- contains_iff. destruct (contains k d); split; congruence.
Qed.

Lemma get_in k v d : get k d = Some v -> In (k, v) d.
Proof.
  induction d as [|[k' v'] tl IH]; simpl; [discriminate|].
  destruct (k' =? k) eqn:E.
  - apply Z.eqb_eq in E. intros [= ->]. subst. now left.
  - intros H. right. now apply IH.
Qed.

Lemma in_get k v d : NoDup (keys d) -> In (k, v) d -> get k d = Some v.
Proof.
  induction d as [|[k' v'] tl IH]; simpl; [contradiction|].
  intros Hnd [Heq | Hin].
  - injection Heq as -> ->. now rewrite Z.eqb_refl.
  - inversion Hnd as [|? ? Hnot Hnd']; subst.
    destruct (k' =? k) eqn:E.
    + apply Z.eqb_eq in E. subst. exfalso. apply Hnot.
      apply (in_map fst) in Hin. exact Hin.
    + now apply IH.
Qed.

Lemma get_some_contains k v d : get k d = Some v -> contains k d = true.
Proof.
  intros H. apply contains_iff. apply get_in in H.
  apply (in_map fst) in H. exact H.
Qed.

Lemma contains_get k d : contains k d = true -> exists v, get k d = Some v.
Proof.
  induction d as [|[k' v'] tl IH]; simpl; [discriminate|].
  destruct (k' =? k); simpl; eauto.
Qed.

Lemma get_none_iff k d : get k d = None <-> contains k d = false.
Proof.
  induction d as [|[k' v'] tl IH]; simpl; [tauto|].
  destruct (k' =? k); simpl; [split; discriminate | exact IH].
Qed.

Lemma set_fresh k v d : contains k d = false -> set k v d = d ++ [(k, v)].
Proof.
  induction d as [|[k' v'] tl IH]; simpl; [reflexivity|].
  destruct (k' =? k); simpl; [discriminate|].
  intros H. now rewrite IH.
Qed.

Lemma keys_set_present k v d : contains k d = true -> keys (set k v d) = keys d.
Proof.
  induction d as [|[k' v'] tl IH]; simpl; [discriminate|].
  destruct (k' =? k) eqn:E; simpl.
  - apply Z.eqb_eq in E. now subst.
  - intros H. now rewrite IH.
Qed.

Lemma get_set_same k v d : get k (set k v d) = Some v.
Proof.
  induction d as [|[k' v'] tl IH]; simpl.
  - now rewrite Z.eqb_refl.
  - destruct (k' =? k) eqn:E; simpl.
    + now rewrite Z.eqb_refl.
    + now rewrite E.
Qed.

Lemma get_set_other k k' v d : k' <> k -> get k' (set k v d) = get k' d.
Proof.
  intros Hne. induction d as [|[k0 v0] tl IH]; simpl.
  - destruct (k =? k') eqn:E; [apply Z.eqb_eq in E; congruence | reflexivity].
  - destruct (k0 =? k) eqn:E; simpl.
    + apply Z.eqb_eq in E. subst k0.
      destruct (k =? k') eqn:E'; [apply Z.eqb_eq in E'; congruence | reflexivity].
    + now rewrite IH.
Qed.

Lemma set_forall (P : Z * V -> Prop) k v d :
  Forall P d -> P (k, v) -> Forall P (set k v d).
Proof.
  intros Hd Hp. induction Hd as [|[k' v'] tl Hh Ht IH]; simpl.
  - now constructor.
  - destruct (k' =? k); constructor; assumption.
Qed.

Lemma length_set_present k v d :
  contains k d = true -> List.length (set k v d) = List.length d.
Proof.
  intros H. rewrite <- (length_map fst (set k v d)), <- (length_map fst d).
  change (List.length (keys (set k v d)) = List.length (keys d)).
  now rewrite keys_set_present.
Qed.

Lemma del_ok k d :
  contains k d = true -> del k d = Ok (filter (fun kv => negb (fst kv =? k)) d).
Proof. intros H. unfold del. now rewrite H. Qed.

Lemma keys_filter_nodup (f : Z * V -> bool) d :
  NoDup (keys d) -> NoDup (keys (filter f d)).
Proof.
  unfold keys. induction d as [|kv tl IH]; simpl; intros Hnd; [constructor|].
  inversion Hnd as [|? ? Hnot Hnd']; subst.
  destruct (f kv); simpl; [|now apply IH].
  constructor; [|now apply IH].
  intros Hin. apply Hnot. apply in_map_iff in Hin.
  destruct Hin as [x [Hx Hin]]. apply filter_In in Hin.
  rewrite <- Hx. apply in_map. tauto.
Qed.

(** Removing one by one the keys selected by [f] leaves the entries that [f]
    rejects, and never raises. *)
Lemma del_all_filter_gen (f : Z * V -> bool) d0 d :
  NoDup (keys d) ->
  (forall kv, In kv d0 -> In kv d) ->
  NoDup (keys d0) ->
  del_all (keys (filter f d0)) d
  = Ok (filter (fun kv => negb (existsb (Z.eqb (fst kv)) (keys (filter f d0)))) d).
Proof.
  revert d. induction d0 as [|[k v] tl IH]; intros d Hnd Hincl Hnd0; simpl.
  - f_equal. symmetry. apply forallb_filter_id. apply forallb_forall. reflexivity.
  - inversion Hnd0 as [|? ? Hnot Hnd0']; subst.
    destruct (f (k, v)) eqn:Ef; simpl.
    + assert (Hc : contains k d = true).
      { apply contains_iff.
        exact (in_map fst _ _ (Hincl (k, v) (or_introl eq_refl))). }
      rewrite del_ok by exact Hc. simpl.
      rewrite IH.
      * f_equal. rewrite filter_twice. apply filter_ext. intros [k' v']. simpl.
        destruct (k' =? k); reflexivity.
      * now apply keys_filter_nodup.
      * intros kv Hin. apply filter_In. split.
        -- apply Hincl. now right.
        -- destruct kv as [k' v']. simpl. apply negb_true_iff. apply Z.eqb_neq.
           intros ->. apply Hnot. apply (in_map fst) in Hin. exact Hin.
      * exact Hnd0'.
    + apply IH; [exact Hnd | | exact Hnd0'].
      intros kv Hin. apply Hincl. now right.
Qed.

Lemma del_all_filter (f : Z * V -> bool) d :
  NoDup (keys d) ->
  del_all (keys (filter f d)) d = Ok (filter (fun kv => negb (f kv)) d).
Proof.
  intros Hnd. rewrite del_all_filter_gen by auto. f_equal.
  apply filter_ext_in. intros [k v] Hin. f_equal. simpl.
  destruct (f (k, v)) eqn:Ef.
  - apply existsb_exists. exists k. split; [|apply Z.eqb_refl].
    unfold keys. apply in_map_iff. exists (k, v). split; [reflexivity|].
    apply filter_In. tauto.
  - destruct (existsb (Z.eqb k) (keys (filter f d))) eqn:Ee; [|reflexivity].
    apply existsb_exists in Ee. destruct Ee as [k' [Hin' Hk]].
    apply Z.eqb_eq in Hk. subst k'. unfold keys in Hin'.
    apply in_map_iff in Hin'. destruct Hin' as [[k' v'] [Hk Hin']].
    simpl in Hk. subst k'. apply filter_In in Hin'. destruct Hin' as [Hin' Hf].
    assert (v' = v).
    { apply in_get in Hin; [|exact Hnd]. apply in_get in Hin'; [|exact Hnd].
      congruence. }
    subst. congruence.
Qed.

End DictFacts.

(** ** Grade points *)

Lemma find_none_not_in {A : Type} (f : A -> bool) (l : list A) :
  (forall x, In x l -> f x = false) -> find f l = None.
Proof.
  induction l as [|x l IH]; simpl; intros H; [reflexivity|].
  rewrite (H x (or_introl eq_refl)). apply IH. intros y Hy. apply H. now right.
Qed.

(** The table has 13 entries with distinct letters, and [letter_to_points]
    returns the entry of each. *)
Lemma letter_to_points_table :
  List.length Grade.GRADE_POINTS = 13%nat /\
  NoDup (map fst Grade.GRADE_POINTS) /\
  Forall (fun kv => Grade.letter_to_points (fst kv) = snd kv) Grade.GRADE_POINTS.
Proof.
  split; [reflexivity|]. split.
  - simpl. repeat (constructor; [simpl; intuition discriminate|]). constructor.
  - repeat (constructor; [reflexivity|]). constructor.
Qed.

(** A letter grade that is not in the table is worth 0.0 points. *)
Lemma letter_to_points_unknown (letter_grade : string) :
  ~ In letter_grade (map fst Grade.GRADE_POINTS) ->
  Grade.letter_to_points letter_grade = 0.0%float.
Proof.
  intros Hnot. unfold Grade.letter_to_points.
  rewrite find_none_not_in; [reflexivity|].
  intros [l p] Hin. simpl. apply String.eqb_neq. intros ->.
  apply Hnot. exact (in_map fst _ _ Hin).
Qed.

Lemma letter_to_points_empty : Grade.letter_to_points "" = 0.0%float.
Proof. reflexivity. Qed.

Lemma update_existing_points student_id course_id letter_grade points now d g d' :
  Grade.update_existing student_id course_id letter_grade points now d
    = Some (g, d') ->
  g.(g_points) = Grade.points_or points letter_grade /\
  g.(g_letter_grade) = letter_grade /\
  g.(g_updated_at) = now.
Proof.
  revert d'. induction d as [|[k g0] tl IH]; simpl; intros d'; [discriminate|].
  destruct (Grade.same_pair student_id course_id g0).
  - intros [= <- <-]. simpl. auto.
  - destruct (Grade.update_existing _ _ _ _ _ tl) as [[r tl']|]; [|discriminate].
    intros [= <- <-]. eapply IH. reflexivity.
Qed.

(** On both paths of [Grade.create] the points of the returned record are
    [points or letter_to_points(letter_grade)]. *)
Lemma grade_create_points student_id course_id letter_grade points now1 now2 st :
  (fst (Grade.create student_id course_id letter_grade points now1 now2 st)).(g_points)
  = Grade.points_or points letter_grade.
Proof.
  unfold Grade.create.
  destruct (Grade.update_existing _ _ _ _ _ _) as [[g d]|] eqn:E; simpl.
  - now apply update_existing_points in E.
  - reflexivity.
Qed.

(** Without an override the points come from the table; a non-zero
    override is stored as given. *)
Lemma points_or_cases (letter_grade : string) :
  Grade.points_or None letter_grade = Grade.letter_to_points letter_grade /\
  (forall p, float_bool p = true -> Grade.points_or (Some p) letter_grade = p) /\
  (forall p, float_bool p = false ->
             Grade.points_or (Some p) letter_grade
             = Grade.letter_to_points letter_grade).
Proof.
  unfold Grade.points_or. split; [reflexivity|].
  split; intros p Hp; now rewrite Hp.
Qed.

(** C2. An explicit override of 0.0 is not stored: [Grade.create(1, 1, 'A',
    0.0)] on the empty store returns and stores a record whose points are
    the table value 4.0 of the letter A, not the override 0.0. *)
Theorem grade_create_zero_override :
  let r := Grade.create 1 1 "A" (Some 0.0%float) "t1" "t2" init in
  (fst r).(g_points) = 4.0%float /\
  Grade.get 1 (snd r) = Some (fst r) /\
  (fst r).(g_points) <> 0.0%float.
Proof.
  cbv zeta. split; [reflexivity|]. split; [reflexivity|].
  intros H. apply (f_equal Prim2SF) in H. vm_compute in H. discriminate H.
Qed.

(** ** Tables *)

Lemma nodup_map_filter {A B : Type} (g : A -> B) (f : A -> bool) (l : list A) :
  NoDup (map g l) -> NoDup (map g (filter f l)).
Proof.
  induction l as [|x l IH]; simpl; intros Hnd; [constructor|].
  inversion Hnd as [|? ? Hnot Hnd']; subst.
  destruct (f x); simpl; [|now apply IH].
  constructor; [|now apply IH].
  intros Hin. apply Hnot. apply in_map_iff in Hin.
  destruct Hin as [y [Hy Hin]]. apply filter_In in Hin.
  rewrite <- Hy. apply in_map. tauto.
Qed.

Lemma nodup_snoc {A : Type} (l : list A) (x : A) :
  NoDup l -> ~ In x l -> NoDup (l ++ [x]).
Proof.
  intros Hnd Hnot. apply NoDup_app; [exact Hnd | |].
  - constructor; [intros [] | constructor].
  - intros y Hy [<-|[]]. contradiction.
Qed.

Lemma values_filter_snd {V : Type} (f : V -> bool) (d : dict V) :
  values (filter (fun kv => f (snd kv)) d) = filter f (values d).
Proof.
  unfold values. induction d as [|[k v] tl IH]; simpl; [reflexivity|].
  destruct (f v); simpl; now rewrite IH.
Qed.

Section TableFacts.
Context {V : Type} (id : V -> Z).
Implicit Types (d : dict V) (k n : Z) (v : V).

Lemma table_ok_in d n k v :
  table_ok id d n -> In (k, v) d -> id v = k /\ 1 <= k < n.
Proof.
  intros [_ Hall] Hin. rewrite Forall_forall in Hall. exact (Hall _ Hin).
Qed.

Lemma table_ok_get d n k v :
  table_ok id d n -> get k d = Some v -> id v = k /\ 1 <= k < n.
Proof. intros Hok Hget. eapply table_ok_in; eauto using get_in. Qed.

Lemma table_ok_key_bound d n k :
  table_ok id d n -> In k (keys d) -> 1 <= k < n.
Proof.
  intros Hok Hin. unfold keys in Hin. apply in_map_iff in Hin.
  destruct Hin as [[k' v] [Hk Hin]]. simpl in Hk. subst k'.
  eapply table_ok_in; eauto.
Qed.

Lemma table_ok_fresh d n : table_ok id d n -> contains n d = false.
Proof.
  intros Hok. apply contains_false_iff. intros Hin.
  apply (table_ok_key_bound _ _ _ Hok) in Hin. lia.
Qed.

Lemma table_ok_insert d n v :
  table_ok id d n -> id v = n -> 1 <= n -> table_ok id (set n v d) (n + 1).
Proof.
  intros Hok Hid Hn. rewrite set_fresh by (eapply table_ok_fresh; eauto).
  destruct Hok as [Hnd Hall]. split.
  - unfold keys. rewrite map_app. simpl. apply nodup_snoc; [exact Hnd|].
    apply contains_false_iff. eapply table_ok_fresh. split; eauto.
  - apply Forall_app. split.
    + eapply Forall_impl; [|exact Hall]. simpl. intros [k v'] [? ?]. simpl in *.
      split; [assumption | lia].
    + constructor; [|constructor]. simpl. split; [assumption | lia].
Qed.

Lemma table_ok_replace d n k v :
  table_ok id d n -> contains k d = true -> id v = k -> table_ok id (set k v d) n.
Proof.
  intros Hok Hc Hid. assert (Hb : 1 <= k < n).
  { eapply table_ok_key_bound; eauto. now apply contains_iff. }
  destruct Hok as [Hnd Hall]. split.
  - now rewrite keys_set_present.
  - apply set_forall; [exact Hall|]. simpl. tauto.
Qed.

Lemma table_ok_filter (f : Z * V -> bool) d n :
  table_ok id d n -> table_ok id (filter f d) n.
Proof.
  intros [Hnd Hall]. split.
  - now apply keys_filter_nodup.
  - rewrite Forall_forall in *. intros kv Hin. apply Hall.
    apply filter_In in Hin. tauto.
Qed.

(** The [id] fields of the records of a table are pairwise distinct. *)
Lemma table_ok_ids_nodup d n : table_ok id d n -> NoDup (map id (values d)).
Proof.
  intros [Hnd Hall]. unfold values. rewrite map_map.
  rewrite (map_ext_in (fun x => id (snd x)) fst); [exact Hnd|].
  intros kv Hin. rewrite Forall_forall in Hall. now apply Hall.
Qed.

Lemma table_ok_value_get d n v :
  table_ok id d n -> In v (values d) -> get (id v) d = Some v.
Proof.
  intros Hok Hin. unfold values in Hin. apply in_map_iff in Hin.
  destruct Hin as [[k v'] [Hv Hin]]. simpl in Hv. subst v'.
  destruct (table_ok_in _ _ _ _ Hok Hin) as [-> _].
  apply in_get; [apply Hok | exact Hin].
Qed.

End TableFacts.

(** ** The cascading deletions in closed form *)

Lemma grade_delete_by_student_eq student_id st :
  NoDup (keys st.(grades)) ->
  Grade.delete_by_student student_id st
  = Ok (with_grades st
          (filter (fun kv => negb ((snd kv).(g_student_id) =? student_id))
                  st.(grades))
          st.(next_grade_id)).
Proof.
  intros Hnd. unfold Grade.delete_by_student, items.
  change (map fst ?l) with (keys l). now rewrite del_all_filter.
Qed.

Lemma grade_delete_by_course_eq course_id st :
  NoDup (keys st.(grades)) ->
  Grade.delete_by_course course_id st
  = Ok (with_grades st
          (filter (fun kv => negb ((snd kv).(g_course_id) =? course_id))
                  st.(grades))
          st.(next_grade_id)).
Proof.
  intros Hnd. unfold Grade.delete_by_course, items.
  change (map fst ?l) with (keys l). now rewrite del_all_filter.
Qed.

Lemma grade_delete_by_student_course_eq student_id course_id st :
  NoDup (keys st.(grades)) ->
  Grade.delete_by_student_course student_id course_id st
  = Ok (with_grades st
          (filter (fun kv => negb (Grade.same_pair student_id course_id (snd kv)))
                  st.(grades))
          st.(next_grade_id)).
Proof.
  intros Hnd. unfold Grade.delete_by_student_course, items.
  change (map fst ?l) with (keys l). now rewrite del_all_filter.
Qed.

Lemma enrollment_delete_by_student_eq student_id st :
  NoDup (keys st.(enrollments)) ->
  Enrollment.delete_by_student student_id st
  = Ok (with_enrollments st
          (filter (fun kv => negb ((snd kv).(e_student_id) =? student_id))
                  st.(enrollments))
          st.(next_enrollment_id)).
Proof.
  intros Hnd. unfold Enrollment.delete_by_student, items.
  change (map fst ?l) with (keys l). now rewrite del_all_filter.
Qed.

Lemma enrollment_delete_by_course_eq course_id st :
  NoDup (keys st.(enrollments)) ->
  Enrollment.delete_by_course course_id st
  = Ok (with_enrollments st
          (filter (fun kv => negb ((snd kv).(e_course_id) =? course_id))
                  st.(enrollments))
          st.(next_enrollment_id)).
Proof.
  intros Hnd. unfold Enrollment.delete_by_course, items.
  change (map fst ?l) with (keys l). now rewrite del_all_filter.
Qed.

Lemma grade_delete_eq grade_id st :
  Grade.delete grade_id st
  = Ok (if contains grade_id st.(grades)
        then (true, with_grades st
                      (filter (fun kv => negb (fst kv =? grade_id)) st.(grades))
                      st.(next_grade_id))
        else (false, st)).
Proof.
  unfold Grade.delete. destruct (contains grade_id (grades st)) eqn:E; simpl.
  - now rewrite del_ok.
  - reflexivity.
Qed.

Lemma enrollment_delete_eq enrollment_id st :
  NoDup (keys st.(grades)) ->
  Enrollment.delete enrollment_id st
  = Ok (match get enrollment_id st.(enrollments) with
        | None => (false, st)
        | Some e =>
            (true,
             mkDataStore st.(students) st.(courses)
               (filter (fun kv => negb (fst kv =? enrollment_id)) st.(enrollments))
               (filter (fun kv => negb (Grade.same_pair e.(e_student_id)
                                          e.(e_course_id) (snd kv)))
                       st.(grades))
               st.(next_student_id) st.(next_course_id)
               st.(next_enrollment_id) st.(next_grade_id))
        end).
Proof.
  intros Hnd. unfold Enrollment.delete, getitem.
  destruct (get enrollment_id (enrollments st)) as [e|] eqn:Eg.
  - rewrite (get_some_contains _ _ _ Eg). simpl.
    rewrite grade_delete_by_student_course_eq by exact Hnd. simpl.
    rewrite del_ok by (eapply get_some_contains; eauto). reflexivity.
  - apply get_none_iff in Eg. now rewrite Eg.
Qed.

Lemma student_delete_eq student_id st :
  NoDup (keys st.(enrollments)) -> NoDup (keys st.(grades)) ->
  Student.delete student_id st
  = Ok (if contains student_id st.(students)
        then
          (true,
           mkDataStore
             (filter (fun kv => negb (fst kv =? student_id)) st.(students))
             st.(courses)
             (filter (fun kv => negb ((snd kv).(e_student_id) =? student_id))
                     st.(enrollments))
             (filter (fun kv => negb ((snd kv).(g_student_id) =? student_id))
                     st.(grades))
             st.(next_student_id) st.(next_course_id)
             st.(next_enrollment_id) st.(next_grade_id))
        else (false, st)).
Proof.
  intros He Hg. unfold Student.delete.
  destruct (contains student_id (students st)) eqn:Ec; simpl; [|reflexivity].
  rewrite enrollment_delete_by_student_eq by exact He. simpl.
  rewrite grade_delete_by_student_eq by exact Hg. simpl.
  rewrite del_ok by exact Ec. reflexivity.
Qed.

Lemma course_delete_eq course_id st :
  NoDup (keys st.(enrollments)) -> NoDup (keys st.(grades)) ->
  Course.delete course_id st
  = Ok (if contains course_id st.(courses)
        then
          (true,
           mkDataStore
             st.(students)
             (filter (fun kv => negb (fst kv =? course_id)) st.(courses))
             (filter (fun kv => negb ((snd kv).(e_course_id) =? course_id))
                     st.(enrollments))
             (filter (fun kv => negb ((snd kv).(g_course_id) =? course_id))
                     st.(grades))
             st.(next_student_id) st.(next_course_id)
             st.(next_enrollment_id) st.(next_grade_id))
        else (false, st)).
Proof.
  intros He Hg. unfold Course.delete.
  destruct (contains course_id (courses st)) eqn:Ec; simpl; [|reflexivity].
  rewrite enrollment_delete_by_course_eq by exact He. simpl.
  rewrite grade_delete_by_course_eq by exact Hg. simpl.
  rewrite del_ok by exact Ec. reflexivity.
Qed.

Lemma student_update_eq student_id name email phone address now st :
  Student.update student_id name email phone address now st
  = Ok (match get student_id st.(students) with
        | None => (None, st)
        | Some s =>
            let s' := mkStudent s.(s_id) name email phone address
                                s.(s_created_at) now in
            (Some s', with_students st (set student_id s' st.(students))
                                    st.(next_student_id))
        end).
Proof.
  unfold Student.update, getitem.
  destruct (get student_id (students st)) as [s|] eqn:Eg.
  - now rewrite (get_some_contains _ _ _ Eg).
  - apply get_none_iff in Eg. now rewrite Eg.
Qed.

Lemma course_update_eq course_id code name description credits now st :
  Course.update course_id code name description credits now st
  = Ok (match get course_id st.(courses) with
        | None => (None, st)
        | Some c =>
            let c' := mkCourse c.(c_id) code name description credits
                               c.(c_created_at) now in
            (Some c', with_courses st (set course_id c' st.(courses))
                                   st.(next_course_id))
        end).
Proof.
  unfold Course.update, getitem.
  destruct (get course_id (courses st)) as [c|] eqn:Eg.
  - now rewrite (get_some_contains _ _ _ Eg).
  - apply get_none_iff in Eg. now rewrite Eg.
Qed.

(** ** The scan of [Grade.create] *)

Lemma update_existing_none student_id course_id letter_grade points now d :
  Grade.update_existing student_id course_id letter_grade points now d = None ->
  ~ In (student_id, course_id) (map grade_pair (values d)).
Proof.
  induction d as [|[k g] tl IH]; simpl; [tauto|].
  destruct (Grade.same_pair student_id course_id g) eqn:E; [discriminate|].
  destruct (Grade.update_existing _ _ _ _ _ tl) as [[r tl']|]; [discriminate|].
  intros _ [Heq | Hin]; [|now apply IH].
  unfold grade_pair in Heq. injection Heq as H1 H2.
  unfold Grade.same_pair in E. rewrite H1, H2, !Z.eqb_refl in E. discriminate.
Qed.

(** A successful scan splits the table at the first grade of the pair and
    replaces that record, in place, by its regraded version. *)
Lemma update_existing_some student_id course_id letter_grade points now d g' d' :
  Grade.update_existing student_id course_id letter_grade points now d
    = Some (g', d') ->
  exists d1 k g d2,
    d = d1 ++ (k, g) :: d2 /\
    Forall (fun kv => Grade.same_pair student_id course_id (snd kv) = false) d1 /\
    Grade.same_pair student_id course_id g = true /\
    g' = Grade.regrade g letter_grade (Grade.points_or points letter_grade) now /\
    d' = d1 ++ (k, g') :: d2.
Proof.
  revert d'. induction d as [|[k g] tl IH]; simpl; intros d'; [discriminate|].
  destruct (Grade.same_pair student_id course_id g) eqn:E.
  - intros [= <- <-]. exists [], k, g, tl. simpl. auto.
  - destruct (Grade.update_existing _ _ _ _ _ tl) as [[r tl']|]; [|discriminate].
    intros [= <- <-]. destruct (IH _ eq_refl) as (d1 & k0 & g0 & d2 & H1 & H2 & H3 & H4 & H5).
    exists ((k, g) :: d1), k0, g0, d2. subst. simpl. repeat split; auto.
Qed.

Lemma update_existing_inv student_id course_id letter_grade points now d g' d' :
  Grade.update_existing student_id course_id letter_grade points now d
    = Some (g', d') ->
  keys d' = keys d /\
  map grade_pair (values d') = map grade_pair (values d) /\
  forall n, table_ok g_id d n -> table_ok g_id d' n.
Proof.
  intros H. apply update_existing_some in H.
  destruct H as (d1 & k & g & d2 & -> & _ & _ & -> & ->).
  unfold keys, values. repeat (rewrite ?map_app; simpl).
  split; [reflexivity|]. split; [reflexivity|].
  intros n [Hnd Hall]. split.
  - unfold keys in *. rewrite map_app in *. exact Hnd.
  - apply Forall_app in Hall. destruct Hall as [H1 H2].
    inversion H2; subst. apply Forall_app. split; [assumption|].
    constructor; assumption.
Qed.

Lemma enrollment_find_none student_id course_id l :
  find (Enrollment.same_pair student_id course_id) l = None ->
  ~ In (student_id, course_id) (map enrollment_pair l).
Proof.
  intros H Hin. apply in_map_iff in Hin. destruct Hin as [e [He Hin]].
  apply (find_none _ _ H) in Hin. unfold enrollment_pair in He.
  injection He as H1 H2. unfold Enrollment.same_pair in Hin.
  rewrite H1, H2, !Z.eqb_refl in Hin. discriminate.
Qed.

(** ** Every operation preserves the invariant *)

Lemma init_inv : store_inv init.
Proof.
  constructor; simpl; try (split; constructor); try constructor; lia.
Qed.

Lemma student_create_inv name email phone address now1 now2 st :
  store_inv st ->
  store_inv (snd (Student.create name email phone address now1 now2 st)).
Proof.
  intros [Hs Hc He Hg Hep Hgp Hn]. constructor; simpl; try assumption; [|lia].
  apply table_ok_insert; [assumption | reflexivity | lia].
Qed.

Lemma course_create_inv code name description credits now1 now2 st :
  store_inv st ->
  store_inv (snd (Course.create code name description credits now1 now2 st)).
Proof.
  intros [Hs Hc He Hg Hep Hgp Hn]. constructor; simpl; try assumption; [|lia].
  apply table_ok_insert; [assumption | reflexivity | lia].
Qed.

Lemma student_update_inv student_id name email phone address now st r st' :
  store_inv st ->
  Student.update student_id name email phone address now st = Ok (r, st') ->
  store_inv st'.
Proof.
  intros Hinv. rewrite student_update_eq.
  destruct (get student_id (students st)) as [s|] eqn:Eg; intros [= <- <-];
    [|assumption].
  destruct Hinv as [Hs Hc He Hg Hep Hgp Hn]. constructor; simpl; try assumption.
  apply table_ok_replace; [assumption | eapply get_some_contains; eauto |].
  simpl. now apply (table_ok_get _ _ _ _ _ Hs) in Eg.
Qed.

Lemma course_update_inv course_id code name description credits now st r st' :
  store_inv st ->
  Course.update course_id code name description credits now st = Ok (r, st') ->
  store_inv st'.
Proof.
  intros Hinv. rewrite course_update_eq.
  destruct (get course_id (courses st)) as [c|] eqn:Eg; intros [= <- <-];
    [|assumption].
  destruct Hinv as [Hs Hc He Hg Hep Hgp Hn]. constructor; simpl; try assumption.
  apply table_ok_replace; [assumption | eapply get_some_contains; eauto |].
  simpl. now apply (table_ok_get _ _ _ _ _ Hc) in Eg.
Qed.

Lemma pairs_filter_nodup {V : Type} (pair : V -> Z * Z) (f : Z * V -> bool)
    (d : dict V) :
  NoDup (map pair (values d)) -> NoDup (map pair (values (filter f d))).
Proof.
  unfold values. rewrite !map_map. apply nodup_map_filter.
Qed.

Lemma student_delete_inv student_id st r st' :
  store_inv st -> Student.delete student_id st = Ok (r, st') -> store_inv st'.
Proof.
  intros Hinv. destruct Hinv as [Hs Hc He Hg Hep Hgp Hn].
  rewrite student_delete_eq by (apply He || apply Hg).
  destruct (contains student_id (students st)); intros [= <- <-];
    [|now constructor].
  constructor; simpl; auto using table_ok_filter, pairs_filter_nodup.
Qed.

Lemma course_delete_inv course_id st r st' :
  store_inv st -> Course.delete course_id st = Ok (r, st') -> store_inv st'.
Proof.
  intros Hinv. destruct Hinv as [Hs Hc He Hg Hep Hgp Hn].
  rewrite course_delete_eq by (apply He || apply Hg).
  destruct (contains course_id (courses st)); intros [= <- <-];
    [|now constructor].
  constructor; simpl; auto using table_ok_filter, pairs_filter_nodup.
Qed.

Lemma enrollment_create_inv student_id course_id now st :
  store_inv st -> store_inv (snd (Enrollment.create student_id course_id now st)).
Proof.
  intros Hinv. unfold Enrollment.create.
  destruct (find _ _) as [e|] eqn:Ef; simpl; [assumption|].
  destruct Hinv as [Hs Hc He Hg Hep Hgp Hn].
  constructor; simpl; try assumption; [| |lia].
  - apply table_ok_insert; [assumption | reflexivity | lia].
  - rewrite set_fresh by (eapply table_ok_fresh; eauto).
    unfold values. rewrite !map_app. simpl. apply nodup_snoc; [exact Hep|].
    now apply enrollment_find_none.
Qed.

Lemma enrollment_delete_inv enrollment_id st r st' :
  store_inv st -> Enrollment.delete enrollment_id st = Ok (r, st') -> store_inv st'.
Proof.
  intros Hinv. destruct Hinv as [Hs Hc He Hg Hep Hgp Hn].
  rewrite enrollment_delete_eq by apply Hg.
  destruct (get enrollment_id (enrollments st)); intros [= <- <-];
    [|now constructor].
  constructor; simpl; auto using table_ok_filter, pairs_filter_nodup.
Qed.

Lemma enrollment_delete_by_student_inv student_id st st' :
  store_inv st -> Enrollment.delete_by_student student_id st = Ok st' ->
  store_inv st'.
Proof.
  intros Hinv. destruct Hinv as [Hs Hc He Hg Hep Hgp Hn].
  rewrite enrollment_delete_by_student_eq by apply He. intros [= <-].
  constructor; simpl; auto using table_ok_filter, pairs_filter_nodup.
Qed.

Lemma enrollment_delete_by_course_inv course_id st st' :
  store_inv st -> Enrollment.delete_by_course course_id st = Ok st' ->
  store_inv st'.
Proof.
  intros Hinv. destruct Hinv as [Hs Hc He Hg Hep Hgp Hn].
  rewrite enrollment_delete_by_course_eq by apply He. intros [= <-].
  constructor; simpl; auto using table_ok_filter, pairs_filter_nodup.
Qed.

Lemma grade_create_inv student_id course_id letter_grade points now1 now2 st :
  store_inv st ->
  store_inv (snd (Grade.create student_id course_id letter_grade points
                               now1 now2 st)).
Proof.
  intros Hinv. unfold Grade.create, items.
  destruct Hinv as [Hs Hc He Hg Hep Hgp Hn].
  destruct (Grade.update_existing _ _ _ _ _ _) as [[g d]|] eqn:Eu; simpl.
  - apply update_existing_inv in Eu. destruct Eu as (Hk & Hp & Hok).
    constructor; simpl; try assumption; [now apply Hok | now rewrite Hp].
  - constructor; simpl; try assumption; [| |lia].
    + apply table_ok_insert; [assumption | reflexivity | lia].
    + rewrite set_fresh by (eapply table_ok_fresh; eauto).
      unfold values. rewrite !map_app. simpl. apply nodup_snoc; [exact Hgp|].
      eapply update_existing_none; eauto.
Qed.

Lemma grade_delete_inv grade_id st r st' :
  store_inv st -> Grade.delete grade_id st = Ok (r, st') -> store_inv st'.
Proof.
  intros Hinv. destruct Hinv as [Hs Hc He Hg Hep Hgp Hn].
  rewrite grade_delete_eq.
  destruct (contains grade_id (grades st)); intros [= <- <-];
    [|now constructor].
  constructor; simpl; auto using table_ok_filter, pairs_filter_nodup.
Qed.

Lemma grade_delete_by_student_inv student_id st st' :
  store_inv st -> Grade.delete_by_student student_id st = Ok st' -> store_inv st'.
Proof.
  intros Hinv. destruct Hinv as [Hs Hc He Hg Hep Hgp Hn].
  rewrite grade_delete_by_student_eq by apply Hg. intros [= <-].
  constructor; simpl; auto using table_ok_filter, pairs_filter_nodup.
Qed.

Lemma grade_delete_by_course_inv course_id st st' :
  store_inv st -> Grade.delete_by_course course_id st = Ok st' -> store_inv st'.
Proof.
  intros Hinv. destruct Hinv as [Hs Hc He Hg Hep Hgp Hn].
  rewrite grade_delete_by_course_eq by apply Hg. intros [= <-].
  constructor; simpl; auto using table_ok_filter, pairs_filter_nodup.
Qed.

Lemma grade_delete_by_student_course_inv student_id course_id st st' :
  store_inv st ->
  Grade.delete_by_student_course student_id course_id st = Ok st' ->
  store_inv st'.
Proof.
  intros Hinv. destruct Hinv as [Hs Hc He Hg Hep Hgp Hn].
  rewrite grade_delete_by_student_course_eq by apply Hg. intros [= <-].
  constructor; simpl; auto using table_ok_filter, pairs_filter_nodup.
Qed.

Create HintDb store_inv_db.
#[local] Hint Resolve init_inv student_create_inv course_create_inv
  student_update_inv course_update_inv student_delete_inv course_delete_inv
  enrollment_create_inv enrollment_delete_inv enrollment_delete_by_student_inv
  enrollment_delete_by_course_inv grade_create_inv grade_delete_inv
  grade_delete_by_student_inv grade_delete_by_course_inv
  grade_delete_by_student_course_inv : store_inv_db.

Lemma step_inv st st' : store_inv st -> step st st' -> store_inv st'.
Proof.
  intros Hinv Hstep.
  destruct Hstep; solve [eauto 2 with store_inv_db nocore].
Qed.

Lemma reachable_inv st : reachable st -> store_inv st.
Proof.
  induction 1 as [|st st' _ IH Hstep]; [exact init_inv|].
  eapply step_inv; eauto.
Qed.

(** ** One record per (student, course) pair *)

Lemma nodup_map_inj {A B : Type} (f : A -> B) (l : list A) (x y : A) :
  NoDup (map f l) -> In x l -> In y l -> f x = f y -> x = y.
Proof.
  induction l as [|a l IH]; simpl; intros Hnd Hx Hy Hf; [contradiction|].
  inversion Hnd as [|? ? Hnot Hnd']; subst.
  destruct Hx as [<-|Hx], Hy as [<-|Hy]; auto.
  - exfalso. apply Hnot. rewrite Hf. now apply in_map.
  - exfalso. apply Hnot. rewrite <- Hf. now apply in_map.
Qed.

Lemma get_app_other {V : Type} (k k' : Z) (v v' : V) (d1 d2 : dict V) :
  k' <> k ->
  get k' (d1 ++ (k, v) :: d2) = get k' (d1 ++ (k, v') :: d2).
Proof.
  intros Hne. induction d1 as [|[k0 v0] tl IH]; simpl.
  - destruct (k =? k') eqn:E; [apply Z.eqb_eq in E; congruence | reflexivity].
  - now rewrite IH.
Qed.

(** C3. In a reachable store that holds an enrollment [e] of the pair
    (student_id, course_id), [Enrollment.create(student_id, course_id)]
    returns [e] itself and leaves the whole store as it was: no record is
    added, the enrollment counter and the number of enrollments are
    unchanged, and calling it again gives the same record and store. *)
Theorem enrollment_create_existing st student_id course_id now e :
  reachable st ->
  In e (Enrollment.get_all st) ->
  e.(e_student_id) = student_id ->
  e.(e_course_id) = course_id ->
  let r := Enrollment.create student_id course_id now st in
  r = (e, st) /\
  (snd r).(next_enrollment_id) = st.(next_enrollment_id) /\
  List.length (Enrollment.get_all (snd r)) = List.length (Enrollment.get_all st) /\
  forall now', Enrollment.create student_id course_id now' (snd r) = (e, st).
Proof.
  intros Hreach Hin Hs Hc. apply reachable_inv in Hreach.
  assert (Hcreate : forall t, Enrollment.create student_id course_id t st = (e, st)).
  { intros t. unfold Enrollment.create.
    destruct (find _ _) as [e'|] eqn:Ef.
    - apply find_some in Ef. destruct Ef as [Hin' Hp].
      unfold Enrollment.same_pair in Hp. apply andb_true_iff in Hp.
      destruct Hp as [H1 H2]. apply Z.eqb_eq in H1, H2.
      f_equal. apply (nodup_map_inj enrollment_pair (values (enrollments st))).
      + apply Hreach.
      + exact Hin'.
      + exact Hin.
      + unfold enrollment_pair. congruence.
    - exfalso. apply enrollment_find_none in Ef. apply Ef.
      apply in_map_iff. exists e. split; [|exact Hin].
      unfold enrollment_pair. congruence. }
  cbv zeta. rewrite Hcreate. simpl. auto.
Qed.

(** The store after [Enrollment.create(1, 1)] on the empty store. *)
Lemma enrollment_create_existing_witness :
  Enrollment.create 1 1 "t2" (snd (Enrollment.create 1 1 "t1" init))
  = (mkEnrollment 1 1 1 "t1", snd (Enrollment.create 1 1 "t1" init)).
Proof.
  refine (proj1 (enrollment_create_existing
                   (snd (Enrollment.create 1 1 "t1" init)) 1 1 "t2"
                   (mkEnrollment 1 1 1 "t1") _ _ _ _)).
  - exact (reachable_step _ _ reachable_init
             (step_enrollment_create init 1 1 "t1")).
  - simpl. left. reflexivity.
  - reflexivity.
  - reflexivity.
Defined.

(** [points or letter_to_points(letter_grade)] spelled out: a non-zero
    override, else the table value. *)
Lemma points_or_explicit (points : option float) (letter_grade : string) :
  Grade.points_or points letter_grade
  = match points with
    | Some p => if PrimFloat.eqb p 0.0%float
                then Grade.letter_to_points letter_grade
                else p
    | None => Grade.letter_to_points letter_grade
    end.
Proof.
  unfold Grade.points_or, float_bool. destruct points as [p|]; [|reflexivity].
  now destruct (PrimFloat.eqb p 0%float).
Qed.

(** The update path of [Grade.create]. In a reachable store no two grades
    share a (student_id, course_id) pair; and when a grade [g] of the pair
    exists, [Grade.create] returns [g] with letter_grade and updated_at
    replaced by the arguments and points replaced by the override when it
    is a non-zero float, by the table value of the letter otherwise;
    it stores the record under the id of [g], changes no other grade, adds
    no row and does not advance the grade counter. *)
Lemma grade_create_existing st :
  reachable st ->
  NoDup (map grade_pair (Grade.get_all st)) /\
  forall student_id course_id letter_grade points now1 now2 g,
    In g (Grade.get_all st) ->
    g.(g_student_id) = student_id ->
    g.(g_course_id) = course_id ->
    let r := Grade.create student_id course_id letter_grade points now1 now2 st in
    fst r = mkGrade g.(g_id) g.(g_student_id) g.(g_course_id) letter_grade
                    (match points with
                     | Some p => if PrimFloat.eqb p 0.0%float
                                 then Grade.letter_to_points letter_grade
                                 else p
                     | None => Grade.letter_to_points letter_grade
                     end)
                    g.(g_created_at) now1 /\
    Grade.get g.(g_id) (snd r) = Some (fst r) /\
    (forall k, k <> g.(g_id) -> Grade.get k (snd r) = Grade.get k st) /\
    keys (snd r).(grades) = keys st.(grades) /\
    List.length (Grade.get_all (snd r)) = List.length (Grade.get_all st) /\
    (snd r).(next_grade_id) = st.(next_grade_id) /\
    (snd r).(students) = st.(students) /\
    (snd r).(courses) = st.(courses) /\
    (snd r).(enrollments) = st.(enrollments).
Proof.
  intros Hreach. apply reachable_inv in Hreach. split; [apply Hreach|].
  intros student_id course_id letter_grade points now1 now2 g Hin Hs Hc.
  rewrite <- (points_or_explicit points letter_grade).
  unfold Grade.create, Grade.get, Grade.get_all, items in *.
  destruct (Grade.update_existing _ _ _ _ _ _) as [[g' d']|] eqn:Eu.
  - pose proof (update_existing_inv _ _ _ _ _ _ _ _ Eu) as (Hk & _ & Hok).
    apply update_existing_some in Eu.
    destruct Eu as (d1 & k & g0 & d2 & Hd & _ & Hp & -> & ->).
    assert (Hin0 : In (k, g0) (grades st)).
    { rewrite Hd. apply in_or_app. right. now left. }
    assert (g0 = g) as ->.
    { apply (nodup_map_inj grade_pair (values (grades st))).
      - apply Hreach.
      - exact (in_map snd _ _ Hin0).
      - exact Hin.
      - unfold Grade.same_pair in Hp. apply andb_true_iff in Hp.
        destruct Hp as [H1 H2]. apply Z.eqb_eq in H1, H2.
        unfold grade_pair. congruence. }
    destruct (table_ok_in _ _ _ _ _ (inv_grades _ Hreach) Hin0) as [Hid _].
    simpl. split; [reflexivity|]. split.
    + apply in_get.
      * rewrite Hk. apply Hreach.
      * rewrite Hid. apply in_or_app. right. now left.
    + split.
      * intros k' Hne. rewrite Hd. symmetry. apply get_app_other. congruence.
      * split; [exact Hk|]. split; [|auto].
        unfold values. rewrite !length_map.
        rewrite <- (length_map fst), <- (length_map fst (grades st)).
        exact (f_equal (@List.length Z) Hk).
  - exfalso. apply update_existing_none in Eu. apply Eu.
    apply in_map_iff. exists g. split; [|exact Hin].
    unfold grade_pair. congruence.
Qed.

(** C4. An explicit override of 0.0 does not overwrite the points of an
    existing grade. After [Grade.create(1, 1, 'B')] on the empty store,
    [Grade.create(1, 1, 'A', 0.0)] returns the existing record (id 1, no
    second row, counter not advanced) with letter_grade and updated_at
    overwritten, but with the points 4.0 of the table and not the override
    0.0. *)
Theorem grade_create_existing_zero_override :
  let st := snd (Grade.create 1 1 "B" None "t1" "t2" init) in
  let r := Grade.create 1 1 "A" (Some 0.0%float) "t3" "t4" st in
  Grade.get_all st = [mkGrade 1 1 1 "B" 3.0%float "t1" "t2"] /\
  fst r = mkGrade 1 1 1 "A" 4.0%float "t1" "t3" /\
  Grade.get_all (snd r) = [fst r] /\
  (snd r).(next_grade_id) = st.(next_grade_id) /\
  (fst r).(g_points) <> 0.0%float.
Proof.
  cbv zeta. repeat (split; [reflexivity|]).
  intros H. apply (f_equal Prim2SF) in H. vm_compute in H. discriminate H.
Qed.

(** ** Cascading deletions *)

Lemma get_filter_key {V : Type} (k k0 : Z) (d : dict V) :
  get k (filter (fun kv => negb (fst kv =? k0)) d)
  = if k =? k0 then None else get k d.
Proof.
  induction d as [|[k' v] tl IH]; simpl.
  - now destruct (k =? k0).
  - destruct (k' =? k0) eqn:E0; simpl.
    + rewrite IH. apply Z.eqb_eq in E0. subst k'.
      destruct (k =? k0) eqn:E; [reflexivity|].
      rewrite Z.eqb_sym, E. reflexivity.
    + destruct (k' =? k) eqn:E.
      * apply Z.eqb_eq in E. subst k'. now rewrite E0.
      * exact IH.
Qed.

Lemma in_values_filter {V : Type} (f : V -> bool) (d : dict V) (v : V) :
  In v (values (filter (fun kv => f (snd kv)) d))
  <-> In v (values d) /\ f v = true.
Proof. rewrite values_filter_snd. apply filter_In. Qed.

(** C5. In a reachable store that holds the student, [Student.delete]
    returns true; the students table loses exactly the entry of that id,
    the enrollments and grades tables lose exactly the records whose
    student_id is that id, and the courses and the four counters are
    unchanged. *)
Theorem student_delete_cascade st student_id :
  reachable st ->
  contains student_id st.(students) = true ->
  exists st',
    Student.delete student_id st = Ok (true, st') /\
    st'.(students)
      = filter (fun kv => negb (fst kv =? student_id)) st.(students) /\
    st'.(enrollments)
      = filter (fun kv => negb ((snd kv).(e_student_id) =? student_id))
               st.(enrollments) /\
    st'.(grades)
      = filter (fun kv => negb ((snd kv).(g_student_id) =? student_id))
               st.(grades) /\
    st'.(courses) = st.(courses) /\
    st'.(next_student_id) = st.(next_student_id) /\
    st'.(next_course_id) = st.(next_course_id) /\
    st'.(next_enrollment_id) = st.(next_enrollment_id) /\
    st'.(next_grade_id) = st.(next_grade_id) /\
    Student.get student_id st' = None /\
    (forall k, k <> student_id -> Student.get k st' = Student.get k st) /\
    (forall e, In e (Enrollment.get_all st')
               <-> In e (Enrollment.get_all st) /\ e.(e_student_id) <> student_id) /\
    (forall g, In g (Grade.get_all st')
               <-> In g (Grade.get_all st) /\ g.(g_student_id) <> student_id).
Proof.
  intros Hreach Hc. apply reachable_inv in Hreach.
  rewrite student_delete_eq by apply Hreach. rewrite Hc.
  eexists. split; [reflexivity|]. simpl.
  repeat (split; [reflexivity|]).
  unfold Student.get, Enrollment.get_all, Grade.get_all. simpl.
  split; [|split; [|split]].
  - rewrite get_filter_key. now rewrite Z.eqb_refl.
  - intros k Hne. rewrite get_filter_key.
    destruct (k =? student_id) eqn:E; [apply Z.eqb_eq in E; congruence | reflexivity].
  - intros e.
    rewrite (in_values_filter (fun e => negb (e.(e_student_id) =? student_id))).
    rewrite negb_true_iff, Z.eqb_neq. reflexivity.
  - intros g.
    rewrite (in_values_filter (fun g => negb (g.(g_student_id) =? student_id))).
    rewrite negb_true_iff, Z.eqb_neq. reflexivity.
Qed.

Lemma two_students_reachable : reachable two_students.
Proof.
  unfold two_students. cbv zeta.
  repeat (eapply reachable_step; [|constructor]).
  exact reachable_init.
Qed.

Lemma student_delete_cascade_witness :
  exists st',
    Student.delete 1 two_students = Ok (true, st') /\
    Enrollment.get_all st' = [mkEnrollment 2 2 1 "t"] /\
    Grade.get_all st' = [].
Proof.
  destruct (student_delete_cascade two_students 1 two_students_reachable eq_refl)
    as (st' & Hd & _ & He & Hg & _).
  exists st'. split; [exact Hd|].
  unfold Enrollment.get_all, Grade.get_all. rewrite He, Hg. split; reflexivity.
Defined.

(** C6. In a reachable store that holds the enrollment, [Enrollment.delete]
    returns true; the enrollments table loses exactly the entry of that id,
    the grades table loses exactly the grades of the (student_id,
    course_id) pair of the deleted enrollment, and the students, the
    courses and the four counters are unchanged. *)
Theorem enrollment_delete_cascade st enrollment_id e :
  reachable st ->
  Enrollment.get enrollment_id st = Some e ->
  exists st',
    Enrollment.delete enrollment_id st = Ok (true, st') /\
    st'.(enrollments)
      = filter (fun kv => negb (fst kv =? enrollment_id)) st.(enrollments) /\
    st'.(grades)
      = filter (fun kv => negb (Grade.same_pair e.(e_student_id) e.(e_course_id)
                                                (snd kv)))
               st.(grades) /\
    st'.(students) = st.(students) /\
    st'.(courses) = st.(courses) /\
    st'.(next_student_id) = st.(next_student_id) /\
    st'.(next_course_id) = st.(next_course_id) /\
    st'.(next_enrollment_id) = st.(next_enrollment_id) /\
    st'.(next_grade_id) = st.(next_grade_id) /\
    Enrollment.get enrollment_id st' = None /\
    (forall k, k <> enrollment_id -> Enrollment.get k st' = Enrollment.get k st) /\
    (forall g, In g (Grade.get_all st')
               <-> In g (Grade.get_all st) /\
                   grade_pair g <> (e.(e_student_id), e.(e_course_id))).
Proof.
  intros Hreach Hget. apply reachable_inv in Hreach.
  unfold Enrollment.get in Hget.
  rewrite enrollment_delete_eq by apply Hreach. rewrite Hget.
  eexists. split; [reflexivity|]. simpl.
  repeat (split; [reflexivity|]).
  unfold Enrollment.get, Grade.get_all. simpl.
  split; [|split].
  - rewrite get_filter_key. now rewrite Z.eqb_refl.
  - intros k Hne. rewrite get_filter_key.
    destruct (k =? enrollment_id) eqn:E; [apply Z.eqb_eq in E; congruence | reflexivity].
  - intros g.
    rewrite (in_values_filter
               (fun g => negb (Grade.same_pair e.(e_student_id) e.(e_course_id) g))).
    rewrite negb_true_iff. unfold Grade.same_pair, grade_pair.
    rewrite andb_false_iff, !Z.eqb_neq. split; intros [Hin Hne]; split; auto.
    + intros [= H1 H2]. tauto.
    + destruct (Z.eq_dec (g_student_id g) (e_student_id e)) as [H1|H1]; [|now left].
      right. intros H2. apply Hne. congruence.
Qed.

Lemma enrollment_delete_cascade_witness :
  exists st',
    Enrollment.delete 1 two_students = Ok (true, st') /\
    Enrollment.get_all st' = [mkEnrollment 2 2 1 "t"] /\
    Grade.get_all st' = [].
Proof.
  destruct (enrollment_delete_cascade two_students 1 (mkEnrollment 1 1 1 "t")
              two_students_reachable eq_refl)
    as (st' & Hd & He & Hg & _).
  exists st'. split; [exact Hd|].
  unfold Enrollment.get_all, Grade.get_all. rewrite He, Hg. split; reflexivity.
Defined.

(** ** Identifiers *)

Lemma counters_le_refl st : counters_le st st.
Proof. unfold counters_le. lia. Qed.

Lemma counters_le_trans st1 st2 st3 :
  counters_le st1 st2 -> counters_le st2 st3 -> counters_le st1 st3.
Proof. unfold counters_le. lia. Qed.

Ltac counters_done :=
  unfold counters_le; simpl; lia.

Lemma step_counters st st' : store_inv st -> step st st' -> counters_le st st'.
Proof.
  intros Hinv Hstep. destruct Hstep as
    [ ? ? ? ? ? ? | ? ? ? ? ? ? ? ? H | ? ? ? H
    | ? ? ? ? ? ? | ? ? ? ? ? ? ? ? H | ? ? ? H
    | ? ? ? | ? ? ? H | ? ? H | ? ? H
    | ? ? ? ? ? ? | ? ? ? H | ? ? H | ? ? H | ? ? ? H ].
  - counters_done.
  - rewrite student_update_eq in H.
    destruct (get _ _); injection H as <- <-; counters_done.
  - rewrite student_delete_eq in H by apply Hinv.
    destruct (contains _ _); injection H as <- <-; counters_done.
  - counters_done.
  - rewrite course_update_eq in H.
    destruct (get _ _); injection H as <- <-; counters_done.
  - rewrite course_delete_eq in H by apply Hinv.
    destruct (contains _ _); injection H as <- <-; counters_done.
  - unfold Enrollment.create. destruct (find _ _); counters_done.
  - rewrite enrollment_delete_eq in H by apply Hinv.
    destruct (get _ _); injection H as <- <-; counters_done.
  - rewrite enrollment_delete_by_student_eq in H by apply Hinv.
    injection H as <-. counters_done.
  - rewrite enrollment_delete_by_course_eq in H by apply Hinv.
    injection H as <-. counters_done.
  - unfold Grade.create. destruct (Grade.update_existing _ _ _ _ _ _) as [[g d]|];
      counters_done.
  - rewrite grade_delete_eq in H.
    destruct (contains _ _); injection H as <- <-; counters_done.
  - rewrite grade_delete_by_student_eq in H by apply Hinv.
    injection H as <-. counters_done.
  - rewrite grade_delete_by_course_eq in H by apply Hinv.
    injection H as <-. counters_done.
  - rewrite grade_delete_by_student_course_eq in H by apply Hinv.
    injection H as <-. counters_done.
Qed.

Lemma steps_reachable st st' : reachable st -> steps st st' -> reachable st'.
Proof.
  intros Hr Hs. induction Hs as [|st1 st2 _ IH Hstep]; [exact Hr|].
  eapply reachable_step; eauto.
Qed.

Lemma steps_counters st st' : reachable st -> steps st st' -> counters_le st st'.
Proof.
  intros Hr Hs. induction Hs as [|st1 st2 Hs IH Hstep].
  - apply counters_le_refl.
  - eapply counters_le_trans; [exact IH|].
    apply step_counters; [|exact Hstep].
    apply reachable_inv. eapply steps_reachable; eauto.
Qed.

(** A record returned by [Enrollment.create] is either an existing one or
    carries the current value of the counter. *)
Lemma enrollment_create_id student_id course_id now st :
  let e := fst (Enrollment.create student_id course_id now st) in
  In e (Enrollment.get_all st) \/ e.(e_id) = st.(next_enrollment_id).
Proof.
  unfold Enrollment.create, Enrollment.get_all.
  destruct (find _ _) as [e|] eqn:Ef; simpl; [left | now right].
  now apply find_some in Ef.
Qed.

Lemma grade_create_id student_id course_id letter_grade points now1 now2 st :
  let g := fst (Grade.create student_id course_id letter_grade points now1 now2 st) in
  In g.(g_id) (map g_id (Grade.get_all st)) \/ g.(g_id) = st.(next_grade_id).
Proof.
  unfold Grade.create, Grade.get_all, items.
  destruct (Grade.update_existing _ _ _ _ _ _) as [[g d]|] eqn:Eu; simpl;
    [left | now right].
  apply update_existing_some in Eu.
  destruct Eu as (d1 & k & g0 & d2 & Hd & _ & _ & -> & _). simpl.
  rewrite Hd. unfold values. rewrite map_app, map_app. apply in_or_app.
  right. now left.
Qed.

(** Create A, delete A, create B on the empty store, for each kind. *)
Lemma student_ids_scenario n e p a t1 t2 n' e' p' a' t1' t2' :
  let r1 := Student.create n e p a t1 t2 init in
  (fst r1).(s_id) = 1 /\
  exists st2,
    Student.delete 1 (snd r1) = Ok (true, st2) /\
    Student.get_all st2 = [] /\
    (fst (Student.create n' e' p' a' t1' t2' st2)).(s_id) = 2.
Proof. simpl. split; [reflexivity|]. eexists. repeat split. Qed.

Lemma course_ids_scenario c n d cr t1 t2 c' n' d' cr' t1' t2' :
  let r1 := Course.create c n d cr t1 t2 init in
  (fst r1).(c_id) = 1 /\
  exists st2,
    Course.delete 1 (snd r1) = Ok (true, st2) /\
    Course.get_all st2 = [] /\
    (fst (Course.create c' n' d' cr' t1' t2' st2)).(c_id) = 2.
Proof. simpl. split; [reflexivity|]. eexists. repeat split. Qed.

Lemma enrollment_ids_scenario s c t s' c' t' :
  let r1 := Enrollment.create s c t init in
  (fst r1).(e_id) = 1 /\
  exists st2,
    Enrollment.delete 1 (snd r1) = Ok (true, st2) /\
    Enrollment.get_all st2 = [] /\
    (fst (Enrollment.create s' c' t' st2)).(e_id) = 2.
Proof. simpl. split; [reflexivity|]. eexists. repeat split. Qed.

Lemma grade_ids_scenario s c l p t1 t2 s' c' l' p' t1' t2' :
  let r1 := Grade.create s c l p t1 t2 init in
  (fst r1).(g_id) = 1 /\
  exists st2,
    Grade.delete 1 (snd r1) = Ok (true, st2) /\
    Grade.get_all st2 = [] /\
    (fst (Grade.create s' c' l' p' t1' t2' st2)).(g_id) = 2.
Proof. simpl. split; [reflexivity|]. eexists. repeat split. Qed.

(** C7. The four counters start at 1 and never decrease along a run. In a
    reachable store the ids of each table are pairwise distinct and lie
    between 1 and the counter of the table. An id that was in a table at
    some point of a run is never given to a record created later: a later
    [Student.create] or [Course.create] returns another id, and a later
    [Enrollment.create] or [Grade.create] returns that id only for the
    record that still holds it. Creating A, deleting A and creating B on
    the empty store gives A the id 1 and B the id 2, for each kind. *)
Theorem ids_never_reused st st' :
  reachable st ->
  steps st st' ->
  (init.(next_student_id) = 1 /\ init.(next_course_id) = 1 /\
   init.(next_enrollment_id) = 1 /\ init.(next_grade_id) = 1) /\
  counters_le st st' /\
  (NoDup (map s_id (Student.get_all st)) /\
   NoDup (map c_id (Course.get_all st)) /\
   NoDup (map e_id (Enrollment.get_all st)) /\
   NoDup (map g_id (Grade.get_all st))) /\
  ((forall s, In s (Student.get_all st) -> 1 <= s.(s_id) < st.(next_student_id)) /\
   (forall c, In c (Course.get_all st) -> 1 <= c.(c_id) < st.(next_course_id)) /\
   (forall e, In e (Enrollment.get_all st) ->
              1 <= e.(e_id) < st.(next_enrollment_id)) /\
   (forall g, In g (Grade.get_all st) -> 1 <= g.(g_id) < st.(next_grade_id))) /\
  (forall s name email phone address now1 now2,
     In s (Student.get_all st) ->
     (fst (Student.create name email phone address now1 now2 st')).(s_id)
       <> s.(s_id)) /\
  (forall c code name description credits now1 now2,
     In c (Course.get_all st) ->
     (fst (Course.create code name description credits now1 now2 st')).(c_id)
       <> c.(c_id)) /\
  (forall e student_id course_id now,
     In e (Enrollment.get_all st) ->
     ~ In e.(e_id) (map e_id (Enrollment.get_all st')) ->
     (fst (Enrollment.create student_id course_id now st')).(e_id) <> e.(e_id)) /\
  (forall g student_id course_id letter_grade points now1 now2,
     In g (Grade.get_all st) ->
     ~ In g.(g_id) (map g_id (Grade.get_all st')) ->
     (fst (Grade.create student_id course_id letter_grade points now1 now2
             st')).(g_id) <> g.(g_id)) /\
  (forall n e p a t1 t2 n' e' p' a' t1' t2',
     let r1 := Student.create n e p a t1 t2 init in
     (fst r1).(s_id) = 1 /\
     exists st2,
       Student.delete 1 (snd r1) = Ok (true, st2) /\
       Student.get_all st2 = [] /\
       (fst (Student.create n' e' p' a' t1' t2' st2)).(s_id) = 2) /\
  (forall c n d cr t1 t2 c' n' d' cr' t1' t2',
     let r1 := Course.create c n d cr t1 t2 init in
     (fst r1).(c_id) = 1 /\
     exists st2,
       Course.delete 1 (snd r1) = Ok (true, st2) /\
       Course.get_all st2 = [] /\
       (fst (Course.create c' n' d' cr' t1' t2' st2)).(c_id) = 2) /\
  (forall s c t s' c' t',
     let r1 := Enrollment.create s c t init in
     (fst r1).(e_id) = 1 /\
     exists st2,
       Enrollment.delete 1 (snd r1) = Ok (true, st2) /\
       Enrollment.get_all st2 = [] /\
       (fst (Enrollment.create s' c' t' st2)).(e_id) = 2) /\
  (forall s c l p t1 t2 s' c' l' p' t1' t2',
     let r1 := Grade.create s c l p t1 t2 init in
     (fst r1).(g_id) = 1 /\
     exists st2,
       Grade.delete 1 (snd r1) = Ok (true, st2) /\
       Grade.get_all st2 = [] /\
       (fst (Grade.create s' c' l' p' t1' t2' st2)).(g_id) = 2).
Proof.
  intros Hreach Hsteps.
  pose proof (steps_counters _ _ Hreach Hsteps) as Hle.
  pose proof (reachable_inv _ Hreach) as Hinv.
  pose proof (reachable_inv _ (steps_reachable _ _ Hreach Hsteps)) as Hinv'.
  assert (Hbound : forall (V : Type) (id : V -> Z) (d : dict V) (n : Z) (v : V),
             table_ok id d n -> In v (values d) -> 1 <= id v < n).
  { intros V id d n v Hok Hin. unfold values in Hin. apply in_map_iff in Hin.
    destruct Hin as [[k v'] [Hv Hin]]. simpl in Hv. subst v'.
    destruct (table_ok_in _ _ _ _ _ Hok Hin) as [-> Hb]. exact Hb. }
  split; [repeat split|]. split; [exact Hle|].
  split.
  { split; [|split; [|split]]; eapply table_ok_ids_nodup; apply Hinv. }
  split.
  { split; [|split; [|split]]; intros v Hin;
      (eapply Hbound; [|exact Hin]); apply Hinv. }
  destruct Hle as (Hls & Hlc & Hlen & Hlg).
  split; [|split; [|split; [|split]]].
  - intros s name email phone address now1 now2 Hin. simpl.
    apply (Hbound _ _ _ _ _ (inv_students _ Hinv)) in Hin. lia.
  - intros c code name description credits now1 now2 Hin. simpl.
    apply (Hbound _ _ _ _ _ (inv_courses _ Hinv)) in Hin. lia.
  - intros e student_id course_id now Hin Hnot.
    apply (Hbound _ _ _ _ _ (inv_enrollments _ Hinv)) in Hin.
    destruct (enrollment_create_id student_id course_id now st') as [Hold|Hnew].
    + intros Heq. apply Hnot. rewrite <- Heq. now apply in_map.
    + rewrite Hnew. lia.
  - intros g student_id course_id letter_grade points now1 now2 Hin Hnot.
    apply (Hbound _ _ _ _ _ (inv_grades _ Hinv)) in Hin.
    destruct (grade_create_id student_id course_id letter_grade points now1 now2 st')
      as [Hold|Hnew].
    + intros Heq. apply Hnot. now rewrite <- Heq.
    + rewrite Hnew. lia.
  - split; [exact student_ids_scenario|].
    split; [exact course_ids_scenario|].
    split; [exact enrollment_ids_scenario | exact grade_ids_scenario].
Qed.

(** The store after deleting the first student of [two_students]. *)
Lemma ids_never_reused_witness :
  (fst (Student.create "Cy" "cy@example.com" "3" "c" "t" "t"
          (mkDataStore
             [(2, mkStudent 2 "Bob" "bob@example.com" "2" "b" "t" "t")]
             [(1, mkCourse 1 "CS1" "Intro" "d" 3 "t" "t")]
             [(2, mkEnrollment 2 2 1 "t")] [] 3 2 3 2))).(s_id) <> 1.
Proof.
  refine (proj1 (proj2 (proj2 (proj2 (proj2
            (ids_never_reused two_students _ two_students_reachable _)))))
          (mkStudent 1 "Ann" "ann@example.com" "1" "a" "t" "t")
          "Cy" "cy@example.com" "3" "c" "t" "t" _).
  - eapply steps_cons; [apply steps_refl|].
    apply (step_student_delete two_students 1 true). reflexivity.
  - simpl. left. reflexivity.
Defined.

(** ** Create then get *)

(** C9. In a reachable store, for each of the four kinds and all
    arguments, [get] on the id of the record returned by [create], in the
    store left by [create], finds that very record. *)
Theorem create_get_roundtrip st :
  reachable st ->
  (forall name email phone address now1 now2,
     let r := Student.create name email phone address now1 now2 st in
     Student.get (fst r).(s_id) (snd r) = Some (fst r)) /\
  (forall code name description credits now1 now2,
     let r := Course.create code name description credits now1 now2 st in
     Course.get (fst r).(c_id) (snd r) = Some (fst r)) /\
  (forall student_id course_id now,
     let r := Enrollment.create student_id course_id now st in
     Enrollment.get (fst r).(e_id) (snd r) = Some (fst r)) /\
  (forall student_id course_id letter_grade points now1 now2,
     let r := Grade.create student_id course_id letter_grade points now1 now2 st in
     Grade.get (fst r).(g_id) (snd r) = Some (fst r)).
Proof.
  intros Hreach. apply reachable_inv in Hreach.
  split; [|split; [|split]].
  - intros. unfold Student.get. simpl. apply get_set_same.
  - intros. unfold Course.get. simpl. apply get_set_same.
  - intros student_id course_id now. unfold Enrollment.create, Enrollment.get.
    destruct (find _ _) as [e|] eqn:Ef; simpl.
    + apply find_some in Ef. destruct Ef as [Hin _].
      eapply table_ok_value_get; [apply Hreach | exact Hin].
    + apply get_set_same.
  - intros student_id course_id letter_grade points now1 now2.
    unfold Grade.create, Grade.get, items.
    destruct (Grade.update_existing _ _ _ _ _ _) as [[g d]|] eqn:Eu; simpl.
    + pose proof (update_existing_inv _ _ _ _ _ _ _ _ Eu) as (_ & _ & Hok).
      apply update_existing_some in Eu.
      destruct Eu as (d1 & k & g0 & d2 & _ & _ & _ & _ & Hd).
      eapply table_ok_value_get; [apply Hok; apply Hreach|].
      rewrite Hd. unfold values. rewrite map_app. apply in_or_app.
      right. now left.
    + apply get_set_same.
Qed.

Lemma create_get_roundtrip_witness :
  let r := Grade.create 1 1 "C" None "t1" "t2" two_students in
  Grade.get (fst r).(g_id) (snd r) = Some (fst r).
Proof.
  exact (proj2 (proj2 (proj2 (create_get_roundtrip two_students
                                two_students_reachable)))
           1 1 "C" None "t1" "t2").
Defined.

(** ** Search *)

Lemma prefix_iff (a b : string) :
  String.prefix a b = true <-> exists post, b = (a ++ post)%string.
Proof.
  revert b. induction a as [|c a IH]; intros b.
  - split; [intros _; now exists b | intros _; now destruct b].
  - destruct b as [|c' b]; simpl.
    + split; [discriminate | intros [post H]; discriminate H].
    + destruct (ascii_dec c c') as [->|Hne].
      * rewrite IH. split; intros [post H]; exists post; congruence.
      * split; [discriminate | intros [post H]; congruence].
Qed.

Lemma str_in_unfold (needle hay : string) :
  str_in needle hay
  = if String.prefix needle hay then true
    else match hay with
         | EmptyString => false
         | String _ hay' => str_in needle hay'
         end.
Proof. destruct hay; reflexivity. Qed.

(** [str_in] decides the occurrence of a string in another. *)
Lemma str_in_iff (needle hay : string) :
  str_in needle hay = true <-> substring needle hay.
Proof.
  unfold substring. induction hay as [|c hay IH]; rewrite str_in_unfold.
  - destruct (String.prefix needle "") eqn:Ep.
    + split; [intros _ | reflexivity]. apply prefix_iff in Ep.
      destruct Ep as [post Hp]. now exists "", post.
    + split; [discriminate|]. intros (pre & post & H).
      destruct pre; simpl in H.
      * assert (String.prefix needle "" = true) by (apply prefix_iff; eauto).
        congruence.
      * discriminate H.
  - destruct (String.prefix needle (String c hay)) eqn:Ep.
    + split; [intros _ | reflexivity]. apply prefix_iff in Ep.
      destruct Ep as [post Hp]. now exists "", post.
    + rewrite IH. split; intros (pre & post & H).
      * exists (String c pre), post. simpl. now rewrite H.
      * destruct pre as [|c' pre]; simpl in H.
        -- assert (String.prefix needle (String c hay) = true)
             by (apply prefix_iff; eauto).
           congruence.
        -- injection H as _ H. eauto.
Qed.

(** The loop of [search] keeps, in order, the students its test accepts. *)
Lemma search_loop_filter (lower : string -> string) (q : string)
    (l acc : list student) :
  fold_left (Student.search_step lower q) l acc
  = acc ++ filter (fun s => str_in q (lower s.(s_name))
                            || str_in q (lower s.(s_email))) l.
Proof.
  revert acc. induction l as [|s l IH]; intros acc; simpl.
  - now rewrite app_nil_r.
  - rewrite IH. unfold Student.search_step.
    destruct (str_in q (lower (s_name s)) || str_in q (lower (s_email s))).
    + now rewrite <- app_assoc.
    + reflexivity.
Qed.

(** C8. [Student.search] with the empty query returns all students; with
    any other query it returns, in table order, exactly the students for
    which the lowercased query occurs in the lowercased name or in the
    lowercased email. With ASCII lowercasing, the queries jo and JO find
    both John Smith and the student whose email is josephine@example.com,
    and not the third student. *)
Theorem search_spec :
  (forall lower st, Student.search lower "" st = Student.get_all st) /\
  (forall lower query st,
     Student.search lower query st
     = match query with
       | EmptyString => Student.get_all st
       | _ => filter (fun s => str_in (lower query) (lower s.(s_name))
                               || str_in (lower query) (lower s.(s_email)))
                     (Student.get_all st)
       end) /\
  (forall lower query st s,
     In s (Student.search lower query st)
     <-> In s (Student.get_all st) /\
         (query = "" \/
          substring (lower query) (lower s.(s_name)) \/
          substring (lower query) (lower s.(s_email)))) /\
  Student.get_all search_example = [john; josephine; ann] /\
  Student.search ascii_lower "jo" search_example = [john; josephine] /\
  Student.search ascii_lower "JO" search_example = [john; josephine] /\
  Student.search ascii_lower "" search_example = [john; josephine; ann].
Proof.
  assert (Hfilter : forall lower query st,
     Student.search lower query st
     = match query with
       | EmptyString => Student.get_all st
       | _ => filter (fun s => str_in (lower query) (lower s.(s_name))
                               || str_in (lower query) (lower s.(s_email)))
                     (Student.get_all st)
       end).
  { intros lower query st. unfold Student.search.
    destruct query as [|c q]; [reflexivity|].
    now rewrite search_loop_filter. }
  split; [reflexivity|]. split; [exact Hfilter|]. split.
  - intros lower query st s. rewrite Hfilter.
    destruct query as [|c q].
    + split; [intros H; split; [exact H | now left] | tauto].
    + rewrite filter_In, orb_true_iff, !str_in_iff.
      split; intros [Hin H]; (split; [exact Hin|]).
      * now right.
      * destruct H as [H|H]; [discriminate H | exact H].
  - repeat split; reflexivity.
Qed.

(** ** Grade point average *)

(** The loop of [calculate_gpa] adds, onto its two accumulators, the point
    sum and the credit sum of the graded courses it walks over. *)
Lemma gpa_loop_sums st gs total_points total_credits :
  let l := flat_map (fun g => match Course.get g.(g_course_id) st with
                              | Some c => [(g, c)]
                              | None => []
                              end) gs in
  Student.gpa_loop st gs (total_points, total_credits)
  = (n <- point_sum_from total_points l ;; Ok (n, total_credits + credit_sum l)).
Proof.
  cbv zeta. revert total_points total_credits.
  induction gs as [|g gs IH]; intros tp tc; simpl.
  - now rewrite Z.add_0_r.
  - destruct (Course.get (g_course_id g) st) as [c|]; simpl.
    + destruct (int_to_float (c_credits c)) as [fc|e]; simpl; [|reflexivity].
      rewrite IH. now rewrite Z.add_assoc.
    + apply IH.
Qed.

Lemma calculate_gpa_eq_spec student_id st :
  Student.calculate_gpa student_id st = gpa_spec student_id st.
Proof.
  unfold Student.calculate_gpa, gpa_spec, graded_courses, point_sum.
  destruct (Grade.get_by_student student_id st) as [|g gs] eqn:Eg;
    [reflexivity|].
  rewrite gpa_loop_sums.
  destruct (point_sum_from _ _) as [n|e]; reflexivity.
Qed.

(** With positive credits, as the calling layer enforces, the credit sum
    is zero only when no grade counts. *)
Lemma credit_sum_positive (l : list (grade * course)) :
  Forall (fun gc => 0 < (snd gc).(c_credits)) l ->
  credit_sum l = 0 -> l = [].
Proof.
  intros Hall. assert (H : 0 <= credit_sum l).
  { induction Hall as [|gc l Hgc _ IH]; simpl; lia. }
  destruct Hall as [|gc l Hgc Hall]; [reflexivity|]. simpl.
  assert (0 <= credit_sum l).
  { clear H. induction Hall as [|gc' l' Hgc' _ IH]; simpl; lia. }
  lia.
Qed.

(** ** The stored points play no part in the GPA *)

Lemma point_sum_from_inputs l1 l2 acc :
  gpa_inputs l1 = gpa_inputs l2 ->
  point_sum_from acc l1 = point_sum_from acc l2.
Proof.
  revert l2 acc. induction l1 as [|[g1 c1] l1 IH]; intros [|[g2 c2] l2] acc;
    simpl; try discriminate; [reflexivity|].
  intros [= Hl Hc Ht]. rewrite Hl, Hc.
  destruct (int_to_float (c_credits c2)); simpl; [|reflexivity].
  now apply IH.
Qed.

Lemma credit_sum_inputs l1 l2 :
  gpa_inputs l1 = gpa_inputs l2 -> credit_sum l1 = credit_sum l2.
Proof.
  revert l2. induction l1 as [|[g1 c1] l1 IH]; intros [|[g2 c2] l2];
    simpl; try discriminate; [reflexivity|].
  intros [= Hl Hc Ht]. rewrite Hc. f_equal. now apply IH.
Qed.

Lemma gpa_spec_inputs student_id st1 st2 :
  gpa_inputs (graded_courses student_id st1)
  = gpa_inputs (graded_courses student_id st2) ->
  gpa_spec student_id st1 = gpa_spec student_id st2.
Proof.
  intros H. unfold gpa_spec, point_sum.
  rewrite (point_sum_from_inputs _ _ _ H), (credit_sum_inputs _ _ H).
  reflexivity.
Qed.

Lemma graded_courses_inputs student_id st1 st2 :
  same_store_but_points st1 st2 ->
  gpa_inputs (graded_courses student_id st1)
  = gpa_inputs (graded_courses student_id st2).
Proof.
  intros (_ & Hc & _ & Hg & _).
  unfold graded_courses, Grade.get_by_student, Course.get, values.
  rewrite Hc. induction Hg as [|[k1 g1] [k2 g2] d1 d2 [_ Hsame] _ IH]; simpl;
    [reflexivity|].
  destruct Hsame as (_ & Hs & Hcid & Hl & _). simpl in *. rewrite Hs.
  destruct (g_student_id g2 =? student_id); [|exact IH].
  simpl. rewrite Hcid.
  destruct (get (g_course_id g2) (courses st2)) as [c|]; [|exact IH].
  simpl. unfold gpa_inputs in *. simpl. now rewrite Hl, IH.
Qed.

Lemma same_but_points_refl g : same_but_points g g.
Proof. unfold same_but_points. tauto. Qed.

Lemma grades_related_refl (d : dict grade) :
  Forall2 (fun kv1 kv2 => fst kv1 = fst kv2 /\
                          same_but_points (snd kv1) (snd kv2)) d d.
Proof.
  induction d; constructor; auto using same_but_points_refl.
Qed.

(** Two scans that differ only in the override succeed together, on
    tables that differ only in the points of the regraded record. *)
Lemma update_existing_override student_id course_id letter_grade p1 p2 now d :
  match Grade.update_existing student_id course_id letter_grade p1 now d,
        Grade.update_existing student_id course_id letter_grade p2 now d with
  | Some (_, d1), Some (_, d2) =>
      Forall2 (fun kv1 kv2 => fst kv1 = fst kv2 /\
                              same_but_points (snd kv1) (snd kv2)) d1 d2
  | None, None => True
  | _, _ => False
  end.
Proof.
  induction d as [|[k g] tl IH]; simpl; [exact I|].
  destruct (Grade.same_pair student_id course_id g).
  - constructor; [|apply grades_related_refl].
    simpl. unfold same_but_points. simpl. tauto.
  - destruct (Grade.update_existing _ _ _ p1 _ tl) as [[r1 t1]|],
             (Grade.update_existing _ _ _ p2 _ tl) as [[r2 t2]|];
      try exact IH.
    constructor; [|exact IH]. simpl. auto using same_but_points_refl.
Qed.

Lemma set_override k (g1 g2 : grade) (d : dict grade) :
  same_but_points g1 g2 ->
  Forall2 (fun kv1 kv2 => fst kv1 = fst kv2 /\
                          same_but_points (snd kv1) (snd kv2))
          (set k g1 d) (set k g2 d).
Proof.
  intros Hs. induction d as [|[k' g'] tl IH]; simpl.
  - constructor; [simpl; auto | constructor].
  - destruct (k' =? k).
    + constructor; [simpl; auto | apply grades_related_refl].
    + constructor; [simpl; auto using same_but_points_refl | exact IH].
Qed.

Lemma grade_create_override student_id course_id letter_grade p1 p2 now1 now2 st :
  same_store_but_points
    (snd (Grade.create student_id course_id letter_grade p1 now1 now2 st))
    (snd (Grade.create student_id course_id letter_grade p2 now1 now2 st)).
Proof.
  unfold Grade.create, items.
  pose proof (update_existing_override student_id course_id letter_grade
                p1 p2 now1 (grades st)) as H.
  destruct (Grade.update_existing _ _ _ p1 _ _) as [[r1 d1]|],
           (Grade.update_existing _ _ _ p2 _ _) as [[r2 d2]|];
    try contradiction; unfold same_store_but_points; simpl.
  - repeat (split; [reflexivity|]). split; [exact H|]. repeat split.
  - repeat (split; [reflexivity|]). split; [|repeat split].
    apply set_override. unfold same_but_points. simpl. tauto.
Qed.

(** C10. Two stores that differ only in the points of their grades give
    every student the same GPA; hence the GPA after [Grade.create] does not
    depend on the override passed to it. Overriding the points of both
    grades of the example leaves the GPA at 3.43. *)
Theorem gpa_ignores_points :
  (forall st1 st2 student_id,
     same_store_but_points st1 st2 ->
     Student.calculate_gpa student_id st1 = Student.calculate_gpa student_id st2) /\
  (forall st student_id course_id letter_grade p1 p2 now1 now2 sid,
     Student.calculate_gpa sid
       (snd (Grade.create student_id course_id letter_grade p1 now1 now2 st))
     = Student.calculate_gpa sid
         (snd (Grade.create student_id course_id letter_grade p2 now1 now2 st))) /\
  map g_points (Grade.get_all gpa_example_overridden) = [1.5%float; 0.5%float] /\
  Student.calculate_gpa 1 gpa_example_overridden = Ok 3.43%float.
Proof.
  assert (H : forall st1 st2 student_id,
     same_store_but_points st1 st2 ->
     Student.calculate_gpa student_id st1 = Student.calculate_gpa student_id st2).
  { intros st1 st2 student_id Hs. rewrite !calculate_gpa_eq_spec.
    apply gpa_spec_inputs. now apply graded_courses_inputs. }
  split; [exact H|]. split.
  - intros. apply H. apply grade_create_override.
  - split; reflexivity.
Qed.

Lemma gpa_ignores_points_witness :
  Student.calculate_gpa 1 gpa_example
  = Student.calculate_gpa 1 gpa_example_overridden.
Proof.
  apply (proj1 gpa_ignores_points gpa_example gpa_example_overridden 1).
  unfold same_store_but_points, same_but_points. simpl.
  repeat (split; [reflexivity|]). split; [|repeat split].
  repeat (constructor; [simpl; tauto|]). constructor.
Defined.

(** ** No store operation raises *)

(** X1. In a reachable store every mutating operation returns normally, so
    that [step] covers every call: [KeyError] is never raised. *)
Lemma operations_return st :
  reachable st ->
  (forall student_id name email phone address now,
     exists r, Student.update student_id name email phone address now st = Ok r) /\
  (forall student_id, exists r, Student.delete student_id st = Ok r) /\
  (forall course_id code name description credits now,
     exists r, Course.update course_id code name description credits now st = Ok r) /\
  (forall course_id, exists r, Course.delete course_id st = Ok r) /\
  (forall enrollment_id, exists r, Enrollment.delete enrollment_id st = Ok r) /\
  (forall student_id, exists r, Enrollment.delete_by_student student_id st = Ok r) /\
  (forall course_id, exists r, Enrollment.delete_by_course course_id st = Ok r) /\
  (forall grade_id, exists r, Grade.delete grade_id st = Ok r) /\
  (forall student_id, exists r, Grade.delete_by_student student_id st = Ok r) /\
  (forall course_id, exists r, Grade.delete_by_course course_id st = Ok r) /\
  (forall student_id course_id,
     exists r, Grade.delete_by_student_course student_id course_id st = Ok r).
Proof.
  intros Hreach. apply reachable_inv in Hreach.
  destruct Hreach as [_ _ [He _] [Hg _] _ _ _].
  repeat split; intros; eexists.
  - apply student_update_eq.
  - now apply student_delete_eq.
  - apply course_update_eq.
  - now apply course_delete_eq.
  - now apply enrollment_delete_eq.
  - now apply enrollment_delete_by_student_eq.
  - now apply enrollment_delete_by_course_eq.
  - apply grade_delete_eq.
  - now apply grade_delete_by_student_eq.
  - now apply grade_delete_by_course_eq.
  - now apply grade_delete_by_student_course_eq.
Qed.

(** * Further properties of the store *)

(** ** Deleting a course *)

Lemma filter_filter_false {A : Type} (f g : A -> bool) (l : list A) :
  (forall x, f x = true -> g x = true -> False) ->
  filter g (filter f l) = [].
Proof.
  intros H. induction l as [|x l IH]; simpl; [reflexivity|].
  destruct (f x) eqn:Ef; simpl; [|exact IH].
  destruct (g x) eqn:Eg; [exfalso; eauto | exact IH].
Qed.

(** X2. In a reachable store that holds the course, [Course.delete] returns
    true; the courses table loses the entry of that id, the enrollments and
    grades tables lose exactly the records of that course, the students and
    the counters are unchanged, and no enrollment or grade of the course is
    left. *)
Theorem course_delete_cascade st course_id :
  reachable st ->
  contains course_id st.(courses) = true ->
  exists st',
    Course.delete course_id st = Ok (true, st') /\
    st'.(courses)
      = filter (fun kv => negb (fst kv =? course_id)) st.(courses) /\
    st'.(enrollments)
      = filter (fun kv => negb ((snd kv).(e_course_id) =? course_id))
               st.(enrollments) /\
    st'.(grades)
      = filter (fun kv => negb ((snd kv).(g_course_id) =? course_id))
               st.(grades) /\
    st'.(students) = st.(students) /\
    st'.(next_student_id) = st.(next_student_id) /\
    st'.(next_course_id) = st.(next_course_id) /\
    st'.(next_enrollment_id) = st.(next_enrollment_id) /\
    st'.(next_grade_id) = st.(next_grade_id) /\
    Course.get course_id st' = None /\
    (forall k, k <> course_id -> Course.get k st' = Course.get k st) /\
    Enrollment.get_by_course course_id st' = [] /\
    Grade.get_by_course course_id st' = [].
Proof.
  intros Hreach Hc. apply reachable_inv in Hreach.
  rewrite course_delete_eq by apply Hreach. rewrite Hc.
  eexists. split; [reflexivity|]. simpl.
  repeat (split; [reflexivity|]).
  unfold Course.get, Enrollment.get_by_course, Grade.get_by_course. simpl.
  split; [|split; [|split]].
  - rewrite get_filter_key. now rewrite Z.eqb_refl.
  - intros k Hne. rewrite get_filter_key.
    destruct (k =? course_id) eqn:E; [apply Z.eqb_eq in E; congruence | reflexivity].
  - rewrite (values_filter_snd (fun e => negb (e.(e_course_id) =? course_id))).
    apply filter_filter_false. intros e H1 H2. rewrite H2 in H1. discriminate.
  - rewrite (values_filter_snd (fun g => negb (g.(g_course_id) =? course_id))).
    apply filter_filter_false. intros g H1 H2. rewrite H2 in H1. discriminate.
Qed.

Lemma course_delete_cascade_witness :
  exists st',
    Course.delete 1 two_students = Ok (true, st') /\
    Enrollment.get_all st' = [] /\
    Grade.get_all st' = [] /\
    List.length (Student.get_all st') = 2%nat.
Proof.
  destruct (course_delete_cascade two_students 1 two_students_reachable eq_refl)
    as (st' & Hd & _ & He & Hg & Hs & _).
  exists st'. split; [exact Hd|].
  unfold Enrollment.get_all, Grade.get_all, Student.get_all.
  rewrite He, Hg, Hs. repeat split.
Defined.

(** ** Deleting what is not there *)

Lemma contains_filter_key {V : Type} (k : Z) (d : dict V) :
  contains k (filter (fun kv => negb (fst kv =? k)) d) = false.
Proof.
  apply get_none_iff. rewrite get_filter_key. now rewrite Z.eqb_refl.
Qed.

(** X3. In a reachable store, each of the four [delete] operations returns
    false and leaves the store as it is when the id is absent; in
    particular a second deletion of the same id, right after the first,
    returns false and changes nothing. *)
Theorem delete_absent st :
  reachable st ->
  (forall id, Student.get id st = None -> Student.delete id st = Ok (false, st)) /\
  (forall id, Course.get id st = None -> Course.delete id st = Ok (false, st)) /\
  (forall id, Enrollment.get id st = None ->
              Enrollment.delete id st = Ok (false, st)) /\
  (forall id, Grade.get id st = None -> Grade.delete id st = Ok (false, st)) /\
  (forall id r st', Student.delete id st = Ok (r, st') ->
                    Student.delete id st' = Ok (false, st')) /\
  (forall id r st', Course.delete id st = Ok (r, st') ->
                    Course.delete id st' = Ok (false, st')) /\
  (forall id r st', Enrollment.delete id st = Ok (r, st') ->
                    Enrollment.delete id st' = Ok (false, st')) /\
  (forall id r st', Grade.delete id st = Ok (r, st') ->
                    Grade.delete id st' = Ok (false, st')).
Proof.
  intros Hreach. pose proof (reachable_inv _ Hreach) as Hinv.
  assert (Hs : forall st0 id, store_inv st0 -> contains id st0.(students) = false ->
                 Student.delete id st0 = Ok (false, st0)).
  { intros st0 id H0 Hc. rewrite student_delete_eq by apply H0. now rewrite Hc. }
  assert (Hc : forall st0 id, store_inv st0 -> contains id st0.(courses) = false ->
                 Course.delete id st0 = Ok (false, st0)).
  { intros st0 id H0 Hc. rewrite course_delete_eq by apply H0. now rewrite Hc. }
  assert (He : forall st0 id, store_inv st0 -> get id st0.(enrollments) = None ->
                 Enrollment.delete id st0 = Ok (false, st0)).
  { intros st0 id H0 Hg. rewrite enrollment_delete_eq by apply H0. now rewrite Hg. }
  assert (Hg : forall st0 id, contains id st0.(grades) = false ->
                 Grade.delete id st0 = Ok (false, st0)).
  { intros st0 id Hg. rewrite grade_delete_eq. now rewrite Hg. }
  split; [|split; [|split; [|split; [|split; [|split; [|split]]]]]].
  - intros id H. apply Hs; [exact Hinv | now apply get_none_iff].
  - intros id H. apply Hc; [exact Hinv | now apply get_none_iff].
  - intros id H. now apply He.
  - intros id H. apply Hg. now apply get_none_iff.
  - intros id r st' Hd. pose proof (student_delete_inv _ _ _ _ Hinv Hd) as Hinv'.
    apply Hs; [exact Hinv'|].
    rewrite student_delete_eq in Hd by apply Hinv.
    destruct (contains id (students st)) eqn:E; injection Hd as <- <-;
      [apply contains_filter_key | exact E].
  - intros id r st' Hd. pose proof (course_delete_inv _ _ _ _ Hinv Hd) as Hinv'.
    apply Hc; [exact Hinv'|].
    rewrite course_delete_eq in Hd by apply Hinv.
    destruct (contains id (courses st)) eqn:E; injection Hd as <- <-;
      [apply contains_filter_key | exact E].
  - intros id r st' Hd. pose proof (enrollment_delete_inv _ _ _ _ Hinv Hd) as Hinv'.
    apply He; [exact Hinv'|].
    rewrite enrollment_delete_eq in Hd by apply Hinv.
    destruct (get id (enrollments st)) eqn:E; injection Hd as <- <-; simpl;
      [|exact E].
    rewrite get_filter_key. now rewrite Z.eqb_refl.
  - intros id r st' Hd. apply Hg.
    rewrite grade_delete_eq in Hd.
    destruct (contains id (grades st)) eqn:E; injection Hd as <- <-;
      [apply contains_filter_key | exact E].
Qed.

Lemma delete_absent_witness :
  Student.delete 7 two_students = Ok (false, two_students).
Proof.
  apply (proj1 (delete_absent two_students two_students_reachable) 7).
  reflexivity.
Defined.

(** ** Updating a student or a course *)

Lemma values_set_present_length {V : Type} (k : Z) (v : V) (d : dict V) :
  contains k d = true -> List.length (values (set k v d)) = List.length (values d).
Proof.
  intros H. unfold values. rewrite !length_map.
  rewrite <- (length_map fst (set k v d)), <- (length_map fst d).
  change (List.length (keys (set k v d)) = List.length (keys d)).
  now rewrite keys_set_present.
Qed.

(** X4. [Student.update] on an id that is absent returns no record and leaves
    the store as it is. On a present id it returns the stored record with
    the four fields and updated_at replaced, id and created_at kept; that
    record is what [get] then finds, every other student is as before, the
    order and number of students, the other tables and the counters are
    unchanged. *)
Theorem student_update_spec student_id name email phone address now st :
  match Student.get student_id st with
  | None =>
      Student.update student_id name email phone address now st = Ok (None, st)
  | Some s =>
      let s' := mkStudent s.(s_id) name email phone address s.(s_created_at) now in
      exists st',
        Student.update student_id name email phone address now st
          = Ok (Some s', st') /\
        Student.get student_id st' = Some s' /\
        (forall k, k <> student_id -> Student.get k st' = Student.get k st) /\
        keys st'.(students) = keys st.(students) /\
        List.length (Student.get_all st') = List.length (Student.get_all st) /\
        st'.(courses) = st.(courses) /\
        st'.(enrollments) = st.(enrollments) /\
        st'.(grades) = st.(grades) /\
        counters_le st st' /\ counters_le st' st
  end.
Proof.
  rewrite student_update_eq. unfold Student.get, Student.get_all.
  destruct (get student_id (students st)) as [s|] eqn:Eg; [|reflexivity].
  cbv zeta. eexists. split; [reflexivity|]. simpl.
  pose proof (get_some_contains _ _ _ Eg) as Hc.
  split; [apply get_set_same|].
  split; [intros k Hne; now apply get_set_other|].
  split; [now apply keys_set_present|].
  split; [now apply values_set_present_length|].
  repeat (split; [reflexivity|]). split; counters_done.
Qed.

(** X5. [Course.update] on an id that is absent returns no record and leaves
    the store as it is. On a present id it returns the stored record with
    the four fields and updated_at replaced, id and created_at kept; that
    record is what [get] then finds, every other course is as before, the
    order and number of courses, the other tables and the counters are
    unchanged. *)
Theorem course_update_spec course_id code name description credits now st :
  match Course.get course_id st with
  | None =>
      Course.update course_id code name description credits now st = Ok (None, st)
  | Some c =>
      let c' := mkCourse c.(c_id) code name description credits
                         c.(c_created_at) now in
      exists st',
        Course.update course_id code name description credits now st
          = Ok (Some c', st') /\
        Course.get course_id st' = Some c' /\
        (forall k, k <> course_id -> Course.get k st' = Course.get k st) /\
        keys st'.(courses) = keys st.(courses) /\
        List.length (Course.get_all st') = List.length (Course.get_all st) /\
        st'.(students) = st.(students) /\
        st'.(enrollments) = st.(enrollments) /\
        st'.(grades) = st.(grades) /\
        counters_le st st' /\ counters_le st' st
  end.
Proof.
  rewrite course_update_eq. unfold Course.get, Course.get_all.
  destruct (get course_id (courses st)) as [c|] eqn:Eg; [|reflexivity].
  cbv zeta. eexists. split; [reflexivity|]. simpl.
  pose proof (get_some_contains _ _ _ Eg) as Hc.
  split; [apply get_set_same|].
  split; [intros k Hne; now apply get_set_other|].
  split; [now apply keys_set_present|].
  split; [now apply values_set_present_length|].
  repeat (split; [reflexivity|]). split; counters_done.
Qed.

(** ** Creating the first record of a pair *)

(** X6. In a reachable store with no enrollment of the pair,
    [Enrollment.create] returns a new record that carries the current
    counter as id, appends it to the table and advances the counter by
    one; nothing else changes. *)
Theorem enrollment_create_new st student_id course_id now :
  reachable st ->
  ~ In (student_id, course_id) (map enrollment_pair (Enrollment.get_all st)) ->
  let r := Enrollment.create student_id course_id now st in
  fst r = mkEnrollment st.(next_enrollment_id) student_id course_id now /\
  (snd r).(enrollments)
    = st.(enrollments) ++ [(st.(next_enrollment_id), fst r)] /\
  Enrollment.get_all (snd r) = Enrollment.get_all st ++ [fst r] /\
  (snd r).(next_enrollment_id) = st.(next_enrollment_id) + 1 /\
  (snd r).(students) = st.(students) /\
  (snd r).(courses) = st.(courses) /\
  (snd r).(grades) = st.(grades) /\
  (snd r).(next_student_id) = st.(next_student_id) /\
  (snd r).(next_course_id) = st.(next_course_id) /\
  (snd r).(next_grade_id) = st.(next_grade_id).
Proof.
  intros Hreach Hnot. apply reachable_inv in Hreach.
  unfold Enrollment.create, Enrollment.get_all in *.
  destruct (find _ _) as [e|] eqn:Ef.
  - exfalso. apply find_some in Ef. destruct Ef as [Hin Hp]. apply Hnot.
    apply in_map_iff. exists e. split; [|exact Hin].
    unfold Enrollment.same_pair in Hp. apply andb_true_iff in Hp.
    destruct Hp as [H1 H2]. apply Z.eqb_eq in H1, H2.
    unfold enrollment_pair. congruence.
  - simpl. rewrite set_fresh by (eapply table_ok_fresh; apply Hreach).
    unfold values. rewrite map_app. simpl. repeat split.
Qed.

Lemma enrollment_create_new_witness :
  fst (Enrollment.create 2 2 "t9" two_students) = mkEnrollment 3 2 2 "t9".
Proof.
  refine (proj1 (enrollment_create_new two_students 2 2 "t9"
                   two_students_reachable _)).
  simpl. intros [H|[H|[]]]; discriminate H.
Defined.

(** X7. In a reachable store with no grade of the pair, [Grade.create] returns
    a new record that carries the current counter as id and the points
    [points or letter_to_points(letter_grade)], appends it to the table and
    advances the counter by one; nothing else changes. *)
Theorem grade_create_new st student_id course_id letter_grade points now1 now2 :
  reachable st ->
  ~ In (student_id, course_id) (map grade_pair (Grade.get_all st)) ->
  let r := Grade.create student_id course_id letter_grade points now1 now2 st in
  fst r = mkGrade st.(next_grade_id) student_id course_id letter_grade
                  (Grade.points_or points letter_grade) now1 now2 /\
  (snd r).(grades) = st.(grades) ++ [(st.(next_grade_id), fst r)] /\
  Grade.get_all (snd r) = Grade.get_all st ++ [fst r] /\
  (snd r).(next_grade_id) = st.(next_grade_id) + 1 /\
  (snd r).(students) = st.(students) /\
  (snd r).(courses) = st.(courses) /\
  (snd r).(enrollments) = st.(enrollments) /\
  (snd r).(next_student_id) = st.(next_student_id) /\
  (snd r).(next_course_id) = st.(next_course_id) /\
  (snd r).(next_enrollment_id) = st.(next_enrollment_id).
Proof.
  intros Hreach Hnot. apply reachable_inv in Hreach.
  unfold Grade.create, Grade.get_all, items in *.
  destruct (Grade.update_existing _ _ _ _ _ _) as [[g d]|] eqn:Eu.
  - exfalso. apply update_existing_some in Eu.
    destruct Eu as (d1 & k & g0 & d2 & Hd & _ & Hp & _ & _). apply Hnot.
    rewrite Hd. unfold values. rewrite !map_app. apply in_or_app. right.
    left. simpl. unfold Grade.same_pair in Hp. apply andb_true_iff in Hp.
    destruct Hp as [H1 H2]. apply Z.eqb_eq in H1, H2.
    unfold grade_pair. congruence.
  - simpl. rewrite set_fresh by (eapply table_ok_fresh; apply Hreach).
    unfold values. rewrite map_app. simpl. repeat split.
Qed.

Lemma grade_create_new_witness :
  fst (Grade.create 2 1 "B+" None "t8" "t9" two_students)
  = mkGrade 2 2 1 "B+" 3.3%float "t8" "t9".
Proof.
  refine (proj1 (grade_create_new two_students 2 1 "B+" None "t8" "t9"
                   two_students_reachable _)).
  simpl. intros [H|[]]. discriminate H.
Defined.

(** ** One enrollment per pair; listing and lookup agree *)

(** X8. In a reachable store two enrollments of the same student in the same
    course are one and the same record. *)
Theorem enrollment_pairs_unique st e1 e2 :
  reachable st ->
  In e1 (Enrollment.get_all st) ->
  In e2 (Enrollment.get_all st) ->
  e1.(e_student_id) = e2.(e_student_id) ->
  e1.(e_course_id) = e2.(e_course_id) ->
  e1 = e2.
Proof.
  intros Hreach H1 H2 Hs Hc. apply reachable_inv in Hreach.
  apply (nodup_map_inj enrollment_pair (values (enrollments st)));
    [apply Hreach | exact H1 | exact H2 |].
  unfold enrollment_pair. congruence.
Qed.

Lemma enrollment_pairs_unique_witness :
  mkEnrollment 1 1 1 "t" = mkEnrollment 1 1 1 "t".
Proof.
  apply (enrollment_pairs_unique two_students _ _ two_students_reachable).
  - simpl. left. reflexivity.
  - simpl. left. reflexivity.
  - reflexivity.
  - reflexivity.
Defined.

Lemma values_in_get {V : Type} (id : V -> Z) (d : dict V) (n : Z) (v : V) :
  table_ok id d n -> (In v (values d) <-> get (id v) d = Some v).
Proof.
  intros Hok. split; [now apply (table_ok_value_get id d n)|].
  intros H. apply get_in in H. exact (in_map snd _ _ H).
Qed.

(** X9. In a reachable store, for each kind, the records listed by [get_all]
    are exactly the records that [get] finds under their own id. *)
Theorem get_all_get st :
  reachable st ->
  (forall s, In s (Student.get_all st) <-> Student.get s.(s_id) st = Some s) /\
  (forall c, In c (Course.get_all st) <-> Course.get c.(c_id) st = Some c) /\
  (forall e, In e (Enrollment.get_all st)
             <-> Enrollment.get e.(e_id) st = Some e) /\
  (forall g, In g (Grade.get_all st) <-> Grade.get g.(g_id) st = Some g).
Proof.
  intros Hreach. apply reachable_inv in Hreach.
  split; [|split; [|split]]; intros v.
  - eapply values_in_get. apply Hreach.
  - eapply values_in_get. apply Hreach.
  - eapply values_in_get. apply Hreach.
  - eapply values_in_get. apply Hreach.
Qed.

Lemma get_all_get_witness :
  Grade.get 1 two_students = Some (mkGrade 1 1 1 "A" 4.0%float "t" "t").
Proof.
  apply (proj2 (proj2 (proj2 (get_all_get two_students two_students_reachable)))
           (mkGrade 1 1 1 "A" 4.0%float "t" "t")).
  simpl. left. reflexivity.
Defined.

(** ** Looking a grade up by its pair *)

Lemma find_unique {A B : Type} (key : A -> B) (p : A -> bool) (l : list A) (x : A) :
  NoDup (map key l) ->
  (forall y, p y = true -> key y = key x) ->
  In x l -> p x = true ->
  find p l = Some x.
Proof.
  intros Hnd Hkey Hin Hp. destruct (find p l) as [y|] eqn:Ef.
  - apply find_some in Ef. destruct Ef as [Hy Hpy].
    f_equal. apply (nodup_map_inj key l); auto.
  - apply (find_none _ _ Ef) in Hin. congruence.
Qed.

Lemma grade_same_pair_key student_id course_id g :
  Grade.same_pair student_id course_id g = true <->
  grade_pair g = (student_id, course_id).
Proof.
  unfold Grade.same_pair, grade_pair. rewrite andb_true_iff, !Z.eqb_eq.
  split; [intros [-> ->]; reflexivity | intros [= -> ->]; auto].
Qed.

(** X10. In a reachable store [Grade.get_by_student_course] finds the grade of
    the pair whenever there is one, and right after [Grade.create] it
    finds the record that [Grade.create] returned. *)
Theorem grade_lookup_by_pair st :
  reachable st ->
  (forall g, In g (Grade.get_all st) ->
     Grade.get_by_student_course g.(g_student_id) g.(g_course_id) st = Some g) /\
  (forall student_id course_id,
     Grade.get_by_student_course student_id course_id st = None <->
     ~ In (student_id, course_id) (map grade_pair (Grade.get_all st))) /\
  (forall student_id course_id letter_grade points now1 now2,
     let r := Grade.create student_id course_id letter_grade points now1 now2 st in
     Grade.get_by_student_course student_id course_id (snd r) = Some (fst r)).
Proof.
  intros Hreach.
  assert (Hfind : forall st0 g, store_inv st0 -> In g (Grade.get_all st0) ->
     Grade.get_by_student_course g.(g_student_id) g.(g_course_id) st0 = Some g).
  { intros st0 g Hinv Hin. unfold Grade.get_by_student_course.
    apply (find_unique grade_pair); [apply Hinv | | exact Hin |].
    - intros y Hy. apply grade_same_pair_key in Hy. exact Hy.
    - now apply grade_same_pair_key. }
  pose proof (reachable_inv _ Hreach) as Hinv.
  split; [intros g; now apply Hfind|]. split.
  - intros student_id course_id. unfold Grade.get_by_student_course, Grade.get_all.
    split.
    + intros Hn Hin. apply in_map_iff in Hin. destruct Hin as [g [Hg Hin]].
      apply (find_none _ _ Hn) in Hin.
      apply grade_same_pair_key in Hg. congruence.
    + intros Hnot. apply find_none_not_in. intros g Hin.
      destruct (Grade.same_pair student_id course_id g) eqn:E; [|reflexivity].
      exfalso. apply Hnot. apply grade_same_pair_key in E. rewrite <- E.
      now apply in_map.
  - intros student_id course_id letter_grade points now1 now2. cbv zeta.
    pose proof (grade_create_inv student_id course_id letter_grade points
                  now1 now2 st Hinv) as Hinv'.
    set (r := Grade.create student_id course_id letter_grade points now1 now2 st)
      in *.
    assert (Hpair : (fst r).(g_student_id) = student_id /\
                    (fst r).(g_course_id) = course_id /\
                    In (fst r) (Grade.get_all (snd r))).
    { unfold r, Grade.create, Grade.get_all, items.
      destruct (Grade.update_existing _ _ _ _ _ _) as [[g d]|] eqn:Eu; simpl.
      - apply update_existing_some in Eu.
        destruct Eu as (d1 & k & g0 & d2 & _ & _ & Hp & -> & ->). simpl.
        apply grade_same_pair_key in Hp. injection Hp as H1 H2.
        split; [exact H1|]. split; [exact H2|].
        unfold values. rewrite map_app. apply in_or_app. right. now left.
      - split; [reflexivity|]. split; [reflexivity|].
        rewrite set_fresh by (eapply table_ok_fresh; apply Hinv).
        unfold values. rewrite map_app. apply in_or_app. right. now left. }
    destruct Hpair as (H1 & H2 & Hin).
    rewrite <- H1 at 1. rewrite <- H2 at 1. now apply Hfind.
Qed.

Lemma grade_lookup_by_pair_witness :
  Grade.get_by_student_course 1 1 two_students
  = Some (mkGrade 1 1 1 "A" 4.0%float "t" "t").
Proof.
  apply (proj1 (grade_lookup_by_pair two_students two_students_reachable)
           (mkGrade 1 1 1 "A" 4.0%float "t" "t")).
  simpl. left. reflexivity.
Defined.

(** ** Deleting a grade *)

(** X11. In a reachable store that holds the grade, [Grade.delete] returns
    true and removes that entry of the grades table only: no other grade,
    no enrollment, student or course, and no counter changes. *)
Theorem grade_delete_frame st grade_id g :
  reachable st ->
  Grade.get grade_id st = Some g ->
  exists st',
    Grade.delete grade_id st = Ok (true, st') /\
    st'.(grades) = filter (fun kv => negb (fst kv =? grade_id)) st.(grades) /\
    Grade.get grade_id st' = None /\
    (forall k, k <> grade_id -> Grade.get k st' = Grade.get k st) /\
    (forall g', In g' (Grade.get_all st')
                <-> In g' (Grade.get_all st) /\ g' <> g) /\
    st'.(students) = st.(students) /\
    st'.(courses) = st.(courses) /\
    st'.(enrollments) = st.(enrollments) /\
    counters_le st st' /\ counters_le st' st.
Proof.
  intros Hreach Hget. pose proof (reachable_inv _ Hreach) as Hinv.
  unfold Grade.get in Hget. rewrite grade_delete_eq.
  rewrite (get_some_contains _ _ _ Hget).
  eexists. split; [reflexivity|]. unfold Grade.get, Grade.get_all. simpl.
  split; [reflexivity|].
  split; [rewrite get_filter_key; now rewrite Z.eqb_refl|].
  split.
  { intros k Hne. rewrite get_filter_key.
    destruct (k =? grade_id) eqn:E; [apply Z.eqb_eq in E; congruence | reflexivity]. }
  split.
  { intros g'. rewrite !(values_in_get g_id _ _ _ (inv_grades _ Hinv)).
    assert (Hok' : table_ok g_id
              (filter (fun kv => negb (fst kv =? grade_id)) (grades st))
              (next_grade_id st)) by (apply table_ok_filter; apply Hinv).
    rewrite (values_in_get g_id _ _ _ Hok'), get_filter_key.
    destruct (table_ok_get _ _ _ _ _ (inv_grades _ Hinv) Hget) as [Hid _].
    destruct (g_id g' =? grade_id) eqn:E.
    - apply Z.eqb_eq in E. split; [discriminate|]. intros [H Hne].
      rewrite E in H. congruence.
    - apply Z.eqb_neq in E. split; [|tauto]. intros H. split; [exact H|].
      intros ->. congruence. }
  repeat (split; [reflexivity|]). split; counters_done.
Qed.

Lemma grade_delete_frame_witness :
  exists st',
    Grade.delete 1 two_students = Ok (true, st') /\
    Grade.get_all st' = [] /\
    List.length (Enrollment.get_all st') = 2%nat.
Proof.
  destruct (grade_delete_frame two_students 1 (mkGrade 1 1 1 "A" 4.0%float "t" "t")
              two_students_reachable eq_refl)
    as (st' & Hd & Hg & _ & _ & _ & _ & _ & He & _).
  exists st'. split; [exact Hd|].
  unfold Grade.get_all, Enrollment.get_all. rewrite Hg, He. split; reflexivity.
Defined.

(** ** What the GPA of a student depends on *)

Lemma gpa_loop_courses st1 st2 gs acc :
  st1.(courses) = st2.(courses) ->
  Student.gpa_loop st1 gs acc = Student.gpa_loop st2 gs acc.
Proof.
  intros Hc. revert acc. induction gs as [|g gs IH]; intros acc; simpl;
    [reflexivity|].
  unfold Student.gpa_step, Course.get. rewrite Hc.
  destruct acc as [tp tc].
  destruct (get (g_course_id g) (courses st2)) as [c|]; simpl; [|apply IH].
  destruct (int_to_float (c_credits c)); simpl; [apply IH | reflexivity].
Qed.

(** The GPA reads the courses and the grades of the student, nothing
    else. *)
Lemma calculate_gpa_depends student_id st1 st2 :
  st1.(courses) = st2.(courses) ->
  Grade.get_by_student student_id st1 = Grade.get_by_student student_id st2 ->
  Student.calculate_gpa student_id st1 = Student.calculate_gpa student_id st2.
Proof.
  intros Hc Hg. unfold Student.calculate_gpa. rewrite Hg.
  destruct (Grade.get_by_student student_id st2); [reflexivity|].
  now rewrite (gpa_loop_courses st1 st2).
Qed.

Lemma filter_app_middle {A : Type} (f : A -> bool) (l1 l2 : list A) (x y : A) :
  f x = false -> f y = false ->
  filter f (l1 ++ x :: l2) = filter f (l1 ++ y :: l2).
Proof.
  intros Hx Hy. rewrite !filter_app. simpl. now rewrite Hx, Hy.
Qed.

(** X12. In a reachable store, recording a grade for one student leaves the
    grades listed for, and the GPA of, every other student as they
    were. *)
Theorem grade_create_other_student st student_id course_id letter_grade points
    now1 now2 other :
  reachable st ->
  other <> student_id ->
  let st' := snd (Grade.create student_id course_id letter_grade points
                               now1 now2 st) in
  Grade.get_by_student other st' = Grade.get_by_student other st /\
  Student.calculate_gpa other st' = Student.calculate_gpa other st.
Proof.
  intros Hreach Hne. apply reachable_inv in Hreach. cbv zeta.
  assert (Hg : Grade.get_by_student other
                 (snd (Grade.create student_id course_id letter_grade points
                                    now1 now2 st))
               = Grade.get_by_student other st).
  { unfold Grade.create, Grade.get_by_student, items.
    destruct (Grade.update_existing _ _ _ _ _ _) as [[g d]|] eqn:Eu; simpl.
    - apply update_existing_some in Eu.
      destruct Eu as (d1 & k & g0 & d2 & -> & _ & Hp & -> & ->).
      apply grade_same_pair_key in Hp. injection Hp as H1 H2.
      unfold values. rewrite !map_app. simpl.
      apply filter_app_middle; simpl; rewrite H1; apply Z.eqb_neq; congruence.
    - rewrite set_fresh by (eapply table_ok_fresh; apply Hreach).
      unfold values. rewrite map_app, filter_app. simpl.
      assert ((student_id =? other) = false) as -> by (apply Z.eqb_neq; congruence).
      apply app_nil_r. }
  split; [exact Hg|].
  apply calculate_gpa_depends; [|exact Hg].
  unfold Grade.create.
  destruct (Grade.update_existing _ _ _ _ _ _) as [[g d]|]; reflexivity.
Qed.

Lemma grade_create_other_student_witness :
  Student.calculate_gpa 1 (snd (Grade.create 2 1 "F" None "t" "t" two_students))
  = Student.calculate_gpa 1 two_students.
Proof.
  refine (proj2 (grade_create_other_student two_students 2 1 "F" None "t" "t" 1
                   two_students_reachable _)).
  discriminate.
Defined.

(** X13. In a reachable store, after [Student.delete] of a student that is
    there, the student has no enrollment and no grade left and the GPA
    0.0, while the grades listed for, and the GPA of, every other student
    are as before. *)
Theorem student_delete_gpa st student_id st' :
  reachable st ->
  Student.delete student_id st = Ok (true, st') ->
  Enrollment.get_by_student student_id st' = [] /\
  Grade.get_by_student student_id st' = [] /\
  Student.calculate_gpa student_id st' = Ok 0.0%float /\
  forall other, other <> student_id ->
    Grade.get_by_student other st' = Grade.get_by_student other st /\
    Student.calculate_gpa other st' = Student.calculate_gpa other st.
Proof.
  intros Hreach Hd. apply reachable_inv in Hreach.
  rewrite student_delete_eq in Hd by apply Hreach.
  destruct (contains student_id (students st)); [|discriminate Hd].
  injection Hd as <-.
  assert (Hnone : forall (l : list grade),
            filter (fun g => g_student_id g =? student_id)
                   (filter (fun g => negb (g_student_id g =? student_id)) l) = []).
  { intros l. apply filter_filter_false. intros g H1 H2. rewrite H2 in H1.
    discriminate. }
  set (st' := mkDataStore _ _ _ _ _ _ _ _).
  assert (Hown : Grade.get_by_student student_id st' = []).
  { unfold Grade.get_by_student, st'. simpl.
    rewrite (values_filter_snd (fun g => negb (g.(g_student_id) =? student_id))).
    apply Hnone. }
  split.
  { unfold Enrollment.get_by_student, st'. simpl.
    rewrite (values_filter_snd (fun e => negb (e.(e_student_id) =? student_id))).
    apply filter_filter_false. intros e H1 H2. rewrite H2 in H1. discriminate. }
  split; [exact Hown|]. split.
  { unfold Student.calculate_gpa. now rewrite Hown. }
  intros other Hne.
  assert (Hsame : Grade.get_by_student other st' = Grade.get_by_student other st).
  { unfold Grade.get_by_student, st'. simpl.
    rewrite (values_filter_snd (fun g => negb (g.(g_student_id) =? student_id))).
    rewrite filter_twice. apply filter_ext. intros g.
    destruct (g_student_id g =? other) eqn:E; [|apply andb_false_r].
    apply Z.eqb_eq in E. rewrite andb_true_r. apply negb_true_iff.
    apply Z.eqb_neq. congruence. }
  split; [exact Hsame|].
  apply calculate_gpa_depends; [reflexivity | exact Hsame].
Qed.

Lemma student_delete_gpa_witness :
  exists st',
    Student.delete 1 two_students = Ok (true, st') /\
    Student.calculate_gpa 1 st' = Ok 0.0%float.
Proof.
  eexists. split; [reflexivity|].
  refine (proj1 (proj2 (proj2 (student_delete_gpa two_students 1 _
                                 two_students_reachable _)))).
  reflexivity.
Defined.

(** ** More on searching *)

Lemma substring_refl (s : string) : substring s s.
Proof.
  exists "", "". simpl. induction s as [|c s IH]; simpl; [reflexivity|].
  now rewrite <- IH.
Qed.

Lemma string_app_assoc (a b c : string) :
  ((a ++ b) ++ c = a ++ (b ++ c))%string.
Proof.
  induction a as [|x a IH]; simpl; [reflexivity|]. now rewrite IH.
Qed.

Lemma substring_trans (a b c : string) :
  substring a b -> substring b c -> substring a c.
Proof.
  intros (p1 & q1 & ->) (p2 & q2 & ->).
  exists (p2 ++ p1)%string, (q1 ++ q2)%string.
  now rewrite !string_app_assoc.
Qed.

Lemma search_in (lower : string -> string) (query : string) st s :
  query <> "" ->
  (In s (Student.search lower query st)
   <-> In s (Student.get_all st) /\
       (str_in (lower query) (lower s.(s_name))
        || str_in (lower query) (lower s.(s_email))) = true).
Proof.
  intros Hq. unfold Student.search.
  destruct query as [|c q]; [congruence|].
  rewrite search_loop_filter. simpl. apply filter_In.
Qed.

(** X14. Whatever the lowercasing function, every result of [Student.search]
    is a student of the store; a student is found by a search for its
    whole name and by a search for its whole email; and a query that
    contains another one, once both are lowercased, finds no student that
    the contained one misses. *)
Theorem search_finds (lower : string -> string) st :
  (forall query s, In s (Student.search lower query st) ->
                   In s (Student.get_all st)) /\
  (forall s, In s (Student.get_all st) ->
             In s (Student.search lower s.(s_name) st) /\
             In s (Student.search lower s.(s_email) st)) /\
  (forall q1 q2 s,
     q1 <> "" -> q2 <> "" ->
     substring (lower q1) (lower q2) ->
     In s (Student.search lower q2 st) ->
     In s (Student.search lower q1 st)).
Proof.
  split; [|split].
  - intros query s. destruct query as [|c q]; [exact (fun H => H)|].
    intros H. apply search_in in H; [tauto | discriminate].
  - intros s Hin. split.
    + destruct (s_name s) as [|c n] eqn:En; [exact Hin|].
      apply search_in; [discriminate|]. split; [exact Hin|].
      rewrite En. apply orb_true_iff. left. apply str_in_iff, substring_refl.
    + destruct (s_email s) as [|c n] eqn:En; [exact Hin|].
      apply search_in; [discriminate|]. split; [exact Hin|].
      rewrite En. apply orb_true_iff. right. apply str_in_iff, substring_refl.
  - intros q1 q2 s H1 H2 Hsub Hin.
    apply search_in in Hin; [|exact H2]. apply search_in; [exact H1|].
    destruct Hin as [Hin Hm]. split; [exact Hin|].
    rewrite orb_true_iff, !str_in_iff in *.
    destruct Hm as [Hm|Hm]; [left | right]; eapply substring_trans; eauto.
Qed.

Lemma search_finds_witness :
  In john (Student.search ascii_lower "oh" search_example).
Proof.
  refine (proj2 (proj2 (search_finds ascii_lower search_example))
            "oh" "John" john _ _ _ _).
  - discriminate.
  - discriminate.
  - exists "j", "n". reflexivity.
  - simpl. left. reflexivity.
Defined.

Lemma lower_ascii_idem (c : ascii) : lower_ascii (lower_ascii c) = lower_ascii c.
Proof.
  destruct c as [[] [] [] [] [] [] [] []]; reflexivity.
Qed.

Lemma ascii_lower_idem (s : string) : ascii_lower (ascii_lower s) = ascii_lower s.
Proof.
  induction s as [|c s IH]; simpl; [reflexivity|].
  now rewrite lower_ascii_idem, IH.
Qed.

(** X15. When lowercasing twice is lowercasing once and the empty string is the
    only string that lowercases to the empty string, as for ASCII
    lowercasing, the case of the query does not matter: a query and its
    lowercased form give the same results. *)
Theorem search_query_case (lower : string -> string) (query : string) st :
  (forall s, lower (lower s) = lower s) ->
  (lower query = "" <-> query = "") ->
  Student.search lower (lower query) st = Student.search lower query st.
Proof.
  intros Hidem Hne. unfold Student.search.
  destruct (lower query) as [|c q] eqn:El.
  - now rewrite (proj1 Hne eq_refl).
  - destruct query as [|c' q']; [|now rewrite <- El, Hidem].
    destruct Hne as [_ Hne]. discriminate (Hne eq_refl).
Qed.

Lemma search_query_case_witness :
  Student.search ascii_lower (ascii_lower "JO") search_example
  = Student.search ascii_lower "JO" search_example.
Proof.
  apply (search_query_case ascii_lower "JO" search_example).
  - exact ascii_lower_idem.
  - split; discriminate.
Defined.

(** ** Range of the grade points *)

(** X16. Whatever the letter grade, [letter_to_points] is one of the values of
    the table or 0.0, hence between 0.0 and 4.0. *)
Theorem letter_to_points_range (letter_grade : string) :
  (In (Grade.letter_to_points letter_grade) (map snd Grade.GRADE_POINTS) \/
   Grade.letter_to_points letter_grade = 0.0%float) /\
  PrimFloat.leb 0.0%float (Grade.letter_to_points letter_grade) = true /\
  PrimFloat.leb (Grade.letter_to_points letter_grade) 4.0%float = true.
Proof.
  assert (H : In (Grade.letter_to_points letter_grade) (map snd Grade.GRADE_POINTS) \/
              Grade.letter_to_points letter_grade = 0.0%float).
  { unfold Grade.letter_to_points.
    destruct (find _ Grade.GRADE_POINTS) as [[l p]|] eqn:Ef; [left | now right].
    apply find_some in Ef. exact (in_map snd _ _ (proj1 Ef)). }
  split; [exact H|].
  assert (Hall : Forall (fun p => PrimFloat.leb 0.0%float p = true /\
                                  PrimFloat.leb p 4.0%float = true)
                        (map snd Grade.GRADE_POINTS)).
  { repeat (constructor; [split; reflexivity|]). constructor. }
  destruct H as [H|H].
  - rewrite Forall_forall in Hall. exact (Hall _ H).
  - rewrite H. split; reflexivity.
Qed.

Lemma operations_return_witness :
  exists r, Student.delete 1 two_students = Ok r.
Proof.
  exact (proj1 (proj2 (operations_return two_students two_students_reachable)) 1).
Defined.

(** * The POST handlers *)

(** ** More on dictionaries *)

Section DictMore.
Context {V : Type}.
Implicit Types (d : dict V) (k : Z) (v : V).

Lemma values_snoc d k v : values (d ++ [(k, v)]) = values d ++ [v].
Proof. unfold values. now rewrite map_app. Qed.

Lemma contains_snoc d k k' v :
  contains k d = true -> contains k (d ++ [(k', v)]) = true.
Proof.
  rewrite !contains_iff. unfold keys. rewrite map_app. intros H.
  apply in_or_app. now left.
Qed.

Lemma contains_set_present d k k' v :
  contains k' d = true -> contains k (set k' v d) = contains k d.
Proof.
  intros H. destruct (contains k d) eqn:E.
  - apply contains_iff. rewrite keys_set_present by exact H. now apply contains_iff.
  - apply contains_false_iff. rewrite keys_set_present by exact H.
    now apply contains_false_iff.
Qed.

Lemma contains_filter_other d k k0 :
  k <> k0 -> contains k (filter (fun kv => negb (fst kv =? k0)) d) = contains k d.
Proof.
  intros Hne. destruct (contains k d) eqn:E.
  - apply contains_get in E. destruct E as [v Hv].
    apply get_some_contains with (v := v). rewrite get_filter_key.
    destruct (k =? k0) eqn:E0; [apply Z.eqb_eq in E0; congruence | exact Hv].
  - apply get_none_iff. rewrite get_filter_key.
    destruct (k =? k0); [reflexivity | now apply get_none_iff].
Qed.

Lemma values_filter_in (f : Z * V -> bool) d v :
  In v (values (filter f d)) -> In v (values d).
Proof.
  unfold values. rewrite !in_map_iff. intros [kv [Hv Hin]].
  exists kv. split; [exact Hv|]. apply filter_In in Hin. tauto.
Qed.

Lemma values_set_in d k v v' :
  In v (values (set k v' d)) -> v = v' \/ In v (values d).
Proof.
  induction d as [|[k0 v0] tl IH]; simpl.
  - intros [<-|[]]. now left.
  - destruct (k0 =? k); simpl.
    + intros [<-|H]; [now left | right; now right].
    + intros [<-|H]; [right; now left|]. destruct (IH H); auto.
Qed.

(** Overwriting a present key replaces one value, in place; the values
    around it belong to other keys. *)
Lemma values_set_split d k v' :
  NoDup (keys d) -> contains k d = true ->
  exists l1 v0 l2,
    values d = l1 ++ v0 :: l2 /\
    values (set k v' d) = l1 ++ v' :: l2 /\
    get k d = Some v0 /\
    forall v, In v (l1 ++ l2) -> exists k', k' <> k /\ In (k', v) d.
Proof.
  induction d as [|[k0 v0] tl IH]; simpl; [discriminate|].
  intros Hnd Hc. inversion Hnd as [|? ? Hnot Hnd']; subst.
  destruct (k0 =? k) eqn:E; simpl in *.
  - apply Z.eqb_eq in E. subst k0. exists [], v0, (values tl). simpl.
    repeat split; try reflexivity.
    intros v Hin. unfold values in Hin. apply in_map_iff in Hin.
    destruct Hin as [[k' v1] [Hv Hin]]. simpl in Hv. subst v1.
    exists k'. split; [|now right]. intros ->. apply Hnot.
    exact (in_map fst _ _ Hin).
  - destruct (IH Hnd' Hc) as (l1 & v1 & l2 & H1 & H2 & H3 & H4).
    exists (v0 :: l1), v1, l2. simpl. rewrite H1, H2.
    repeat split; try reflexivity; [exact H3|].
    intros v [<-|Hin].
    + exists k0. split; [apply Z.eqb_neq in E; exact E | now left].
    + destruct (H4 v Hin) as (k' & Hk & Hin'). exists k'. split; [exact Hk | now right].
Qed.

Lemma values_filter_nodup {B : Type} (g : V -> B) (f : Z * V -> bool) d :
  NoDup (map g (values d)) -> NoDup (map g (values (filter f d))).
Proof.
  unfold values. rewrite !map_map. apply nodup_map_filter.
Qed.

Lemma nodup_map_replace {B : Type} (g : V -> B) (l1 l2 : list V) (v v' : V) :
  NoDup (map g (l1 ++ v :: l2)) ->
  (forall x, In x (l1 ++ l2) -> g x <> g v') ->
  NoDup (map g (l1 ++ v' :: l2)).
Proof.
  rewrite !map_app. simpl. intros Hnd Hfresh.
  apply NoDup_remove_1 in Hnd as Hnd'.
  assert (Hnot : ~ In (g v') (map g l1 ++ map g l2)).
  { rewrite <- map_app. intros Hin. apply in_map_iff in Hin.
    destruct Hin as [x [Hx Hin]]. exact (Hfresh x Hin Hx). }
  clear Hnd Hfresh. revert Hnd' Hnot.
  induction (map g l1) as [|b bs IH]; simpl; intros Hnd Hnot.
  - constructor; assumption.
  - inversion Hnd as [|? ? Hb Hnd']; subst. constructor.
    + intros Hin. apply in_app_or in Hin. destruct Hin as [Hin|[Hin|Hin]].
      * apply Hb. apply in_or_app. now left.
      * apply Hnot. now left.
      * apply Hb. apply in_or_app. now right.
    + apply IH; [exact Hnd' | tauto].
Qed.

End DictMore.

(** ** What each store operation needs to keep the invariant of the
    application *)

Section AppInvariant.
Variable lower : string -> string.

Ltac app_unfold :=
  unfold Student.get_all, Course.get_all, Enrollment.get_all, Grade.get_all in *;
  cbn [students courses enrollments grades next_student_id next_course_id
       next_enrollment_id next_grade_id with_students with_courses
       with_enrollments with_grades snd fst] in *.

Lemma init_app_inv : Routes.app_inv lower init.
Proof.
  constructor; try exact init_inv; app_unfold; constructor.
Qed.

Lemma app_student_create name email phone address now1 now2 st :
  Routes.app_inv lower st ->
  name <> "" -> email <> "" -> phone <> "" -> address <> "" ->
  (forall s, In s (Student.get_all st) -> lower s.(s_email) <> lower email) ->
  Routes.app_inv lower (snd (Student.create name email phone address now1 now2 st)).
Proof.
  intros [Hs Hr Hg Hc Hp Hcd He Hsf Hcf] Hn1 Hn2 Hn3 Hn4 Hfresh.
  pose proof (table_ok_fresh _ _ _ (inv_students _ Hs)) as Hk.
  unfold Student.create. constructor; app_unfold; try assumption.
  - now apply student_create_inv.
  - eapply Forall_impl; [|exact Hr]. intros e [H1 H2]. split; [|exact H2].
    rewrite set_fresh by exact Hk. now apply contains_snoc.
  - rewrite set_fresh by exact Hk. rewrite values_snoc, map_app. simpl.
    apply nodup_snoc; [exact He|]. intros Hin. apply in_map_iff in Hin.
    destruct Hin as [s [Heq Hin]]. exact (Hfresh s Hin Heq).
  - rewrite set_fresh by exact Hk. rewrite values_snoc. apply Forall_app.
    split; [exact Hsf|]. constructor; [simpl; auto | constructor].
Qed.

Lemma app_course_create code name description credits now1 now2 st :
  Routes.app_inv lower st ->
  code <> "" -> name <> "" -> description <> "" -> 0 < credits ->
  (forall c, In c (Course.get_all st) -> c.(c_code) <> code) ->
  Routes.app_inv lower (snd (Course.create code name description credits now1 now2 st)).
Proof.
  intros [Hs Hr Hg Hc Hp Hcd He Hsf Hcf] Hn1 Hn2 Hn3 Hpos Hfresh.
  pose proof (table_ok_fresh _ _ _ (inv_courses _ Hs)) as Hk.
  unfold Course.create. constructor; app_unfold; try assumption.
  - now apply course_create_inv.
  - eapply Forall_impl; [|exact Hr]. intros e [H1 H2]. split; [exact H1|].
    rewrite set_fresh by exact Hk. now apply contains_snoc.
  - rewrite set_fresh by exact Hk. rewrite values_snoc. apply Forall_app.
    split; [exact Hc|]. constructor; [exact Hpos | constructor].
  - rewrite set_fresh by exact Hk. rewrite values_snoc, map_app. simpl.
    apply nodup_snoc; [exact Hcd|]. intros Hin. apply in_map_iff in Hin.
    destruct Hin as [c [Heq Hin]]. exact (Hfresh c Hin Heq).
  - rewrite set_fresh by exact Hk. rewrite values_snoc. apply Forall_app.
    split; [exact Hcf|]. constructor; [simpl; auto | constructor].
Qed.

Lemma app_student_update student_id name email phone address now st s :
  Routes.app_inv lower st ->
  Student.get student_id st = Some s ->
  name <> "" -> email <> "" -> phone <> "" -> address <> "" ->
  (forall s0, In s0 (Student.get_all st) -> s0.(s_id) <> student_id ->
              lower s0.(s_email) <> lower email) ->
  Routes.app_inv lower (with_students st
             (set student_id
                  (mkStudent s.(s_id) name email phone address s.(s_created_at) now)
                  st.(students))
             st.(next_student_id)).
Proof.
  intros Hinv Hget Hn1 Hn2 Hn3 Hn4 Hfresh.
  unfold Student.get in Hget.
  assert (Hstore : store_inv
            (with_students st
               (set student_id
                    (mkStudent s.(s_id) name email phone address s.(s_created_at) now)
                    st.(students))
               st.(next_student_id))).
  { eapply (student_update_inv student_id name email phone address now st);
      [apply Hinv|]. rewrite student_update_eq, Hget. reflexivity. }
  destruct Hinv as [Hs Hr Hg Hc Hp Hcd He Hsf Hcf].
  pose proof (get_some_contains _ _ _ Hget) as Hk.
  constructor; app_unfold; try assumption.
  - eapply Forall_impl; [|exact Hr]. intros e [H1 H2]. split; [|exact H2].
    now rewrite contains_set_present.
  - destruct (values_set_split (students st) student_id
                (mkStudent (s_id s) name email phone address (s_created_at s) now)
                (proj1 (inv_students _ Hs)) Hk)
      as (l1 & v0 & l2 & H1 & H2 & _ & H4).
    rewrite H2. rewrite H1 in He. eapply nodup_map_replace; [exact He|].
    intros x Hx. simpl. destruct (H4 x Hx) as (k' & Hk' & Hin).
    apply Hfresh; [exact (in_map snd _ _ Hin)|].
    destruct (table_ok_in _ _ _ _ _ (inv_students _ Hs) Hin) as [-> _]. exact Hk'.
  - apply Forall_forall. intros x Hx. apply values_set_in in Hx.
    destruct Hx as [->|Hx]; [simpl; auto|].
    rewrite Forall_forall in Hsf. now apply Hsf.
Qed.

Lemma app_course_update course_id code name description credits now st c :
  Routes.app_inv lower st ->
  Course.get course_id st = Some c ->
  code <> "" -> name <> "" -> description <> "" -> 0 < credits ->
  (forall c0, In c0 (Course.get_all st) -> c0.(c_id) <> course_id ->
              c0.(c_code) <> code) ->
  Routes.app_inv lower (with_courses st
             (set course_id
                  (mkCourse c.(c_id) code name description credits
                            c.(c_created_at) now)
                  st.(courses))
             st.(next_course_id)).
Proof.
  intros Hinv Hget Hn1 Hn2 Hn3 Hpos Hfresh.
  unfold Course.get in Hget.
  assert (Hstore : store_inv
            (with_courses st
               (set course_id
                    (mkCourse c.(c_id) code name description credits
                              c.(c_created_at) now)
                    st.(courses))
               st.(next_course_id))).
  { eapply (course_update_inv course_id code name description credits now st);
      [apply Hinv|]. rewrite course_update_eq, Hget. reflexivity. }
  destruct Hinv as [Hs Hr Hg Hc Hp Hcd He Hsf Hcf].
  pose proof (get_some_contains _ _ _ Hget) as Hk.
  constructor; app_unfold; try assumption.
  - eapply Forall_impl; [|exact Hr]. intros e [H1 H2]. split; [exact H1|].
    now rewrite contains_set_present.
  - apply Forall_forall. intros x Hx. apply values_set_in in Hx.
    destruct Hx as [->|Hx]; [exact Hpos|].
    rewrite Forall_forall in Hc. now apply Hc.
  - destruct (values_set_split (courses st) course_id
                (mkCourse (c_id c) code name description credits (c_created_at c) now)
                (proj1 (inv_courses _ Hs)) Hk)
      as (l1 & v0 & l2 & H1 & H2 & _ & H4).
    rewrite H2. rewrite H1 in Hcd. eapply nodup_map_replace; [exact Hcd|].
    intros x Hx. simpl. destruct (H4 x Hx) as (k' & Hk' & Hin).
    apply Hfresh; [exact (in_map snd _ _ Hin)|].
    destruct (table_ok_in _ _ _ _ _ (inv_courses _ Hs) Hin) as [-> _]. exact Hk'.
  - apply Forall_forall. intros x Hx. apply values_set_in in Hx.
    destruct Hx as [->|Hx]; [simpl; auto|].
    rewrite Forall_forall in Hcf. now apply Hcf.
Qed.

Lemma forall_values_filter {V : Type} (P : V -> Prop) (f : Z * V -> bool)
    (d : dict V) :
  Forall P (values d) -> Forall P (values (filter f d)).
Proof.
  rewrite !Forall_forall. intros H v Hin. apply H.
  eapply values_filter_in; eauto.
Qed.

Lemma enrollment_same_pair_key student_id course_id e :
  Enrollment.same_pair student_id course_id e = true <->
  enrollment_pair e = (student_id, course_id).
Proof.
  unfold Enrollment.same_pair, enrollment_pair. rewrite andb_true_iff, !Z.eqb_eq.
  split; [intros [-> ->]; reflexivity | intros [= -> ->]; auto].
Qed.

Lemma app_student_delete student_id st :
  Routes.app_inv lower st ->
  contains student_id st.(students) = true ->
  Routes.app_inv lower
    (mkDataStore
       (filter (fun kv => negb (fst kv =? student_id)) st.(students))
       st.(courses)
       (filter (fun kv => negb ((snd kv).(e_student_id) =? student_id))
               st.(enrollments))
       (filter (fun kv => negb ((snd kv).(g_student_id) =? student_id))
               st.(grades))
       st.(next_student_id) st.(next_course_id)
       st.(next_enrollment_id) st.(next_grade_id)).
Proof.
  intros Hinv Hk.
  assert (Hstore : store_inv
            (mkDataStore
               (filter (fun kv => negb (fst kv =? student_id)) st.(students))
               st.(courses)
               (filter (fun kv => negb ((snd kv).(e_student_id) =? student_id))
                       st.(enrollments))
               (filter (fun kv => negb ((snd kv).(g_student_id) =? student_id))
                       st.(grades))
               st.(next_student_id) st.(next_course_id)
               st.(next_enrollment_id) st.(next_grade_id))).
  { eapply (student_delete_inv student_id st true); [apply Hinv|].
    rewrite student_delete_eq by (apply Hinv). now rewrite Hk. }
  destruct Hinv as [Hs Hr Hg Hc Hp Hcd He Hsf Hcf].
  constructor; app_unfold; try assumption.
  - apply Forall_forall. intros e Hin.
    apply (in_values_filter (fun e => negb (e.(e_student_id) =? student_id))) in Hin.
    destruct Hin as [Hin Hne]. rewrite negb_true_iff, Z.eqb_neq in Hne.
    rewrite Forall_forall in Hr. destruct (Hr e Hin) as [H1 H2].
    split; [|exact H2]. now rewrite contains_filter_other.
  - apply Forall_forall. intros g Hin.
    apply (in_values_filter (fun g => negb (g.(g_student_id) =? student_id))) in Hin.
    destruct Hin as [Hin Hne]. rewrite negb_true_iff, Z.eqb_neq in Hne.
    rewrite Forall_forall in Hg. specialize (Hg g Hin).
    apply in_map_iff in Hg. destruct Hg as [e [Hpair He']].
    apply in_map_iff. exists e. split; [exact Hpair|].
    apply (in_values_filter (fun e => negb (e.(e_student_id) =? student_id))).
    split; [exact He'|]. rewrite negb_true_iff, Z.eqb_neq.
    unfold enrollment_pair, grade_pair in Hpair. congruence.
  - now apply forall_values_filter.
  - now apply values_filter_nodup.
  - now apply forall_values_filter.
Qed.

Lemma app_course_delete course_id st :
  Routes.app_inv lower st ->
  contains course_id st.(courses) = true ->
  Routes.app_inv lower
    (mkDataStore
       st.(students)
       (filter (fun kv => negb (fst kv =? course_id)) st.(courses))
       (filter (fun kv => negb ((snd kv).(e_course_id) =? course_id))
               st.(enrollments))
       (filter (fun kv => negb ((snd kv).(g_course_id) =? course_id))
               st.(grades))
       st.(next_student_id) st.(next_course_id)
       st.(next_enrollment_id) st.(next_grade_id)).
Proof.
  intros Hinv Hk.
  assert (Hstore : store_inv
            (mkDataStore
               st.(students)
               (filter (fun kv => negb (fst kv =? course_id)) st.(courses))
               (filter (fun kv => negb ((snd kv).(e_course_id) =? course_id))
                       st.(enrollments))
               (filter (fun kv => negb ((snd kv).(g_course_id) =? course_id))
                       st.(grades))
               st.(next_student_id) st.(next_course_id)
               st.(next_enrollment_id) st.(next_grade_id))).
  { eapply (course_delete_inv course_id st true); [apply Hinv|].
    rewrite course_delete_eq by (apply Hinv). now rewrite Hk. }
  destruct Hinv as [Hs Hr Hg Hc Hp Hcd He Hsf Hcf].
  constructor; app_unfold; try assumption.
  - apply Forall_forall. intros e Hin.
    apply (in_values_filter (fun e => negb (e.(e_course_id) =? course_id))) in Hin.
    destruct Hin as [Hin Hne]. rewrite negb_true_iff, Z.eqb_neq in Hne.
    rewrite Forall_forall in Hr. destruct (Hr e Hin) as [H1 H2].
    split; [exact H1|]. now rewrite contains_filter_other.
  - apply Forall_forall. intros g Hin.
    apply (in_values_filter (fun g => negb (g.(g_course_id) =? course_id))) in Hin.
    destruct Hin as [Hin Hne]. rewrite negb_true_iff, Z.eqb_neq in Hne.
    rewrite Forall_forall in Hg. specialize (Hg g Hin).
    apply in_map_iff in Hg. destruct Hg as [e [Hpair He']].
    apply in_map_iff. exists e. split; [exact Hpair|].
    apply (in_values_filter (fun e => negb (e.(e_course_id) =? course_id))).
    split; [exact He'|]. rewrite negb_true_iff, Z.eqb_neq.
    unfold enrollment_pair, grade_pair in Hpair. congruence.
  - now apply forall_values_filter.
  - now apply forall_values_filter.
  - now apply values_filter_nodup.
  - now apply forall_values_filter.
Qed.

Lemma app_enrollment_create student_id course_id now st :
  Routes.app_inv lower st ->
  contains student_id st.(students) = true ->
  contains course_id st.(courses) = true ->
  Routes.app_inv lower (snd (Enrollment.create student_id course_id now st)).
Proof.
  intros Hinv H1 H2.
  pose proof (enrollment_create_inv student_id course_id now st
                (Routes.app_store _ _ Hinv)) as Hstore.
  unfold Enrollment.create in *.
  destruct (find _ _) as [e|]; [exact Hinv|].
  destruct Hinv as [Hs Hr Hg Hc Hp Hcd He Hsf Hcf].
  pose proof (table_ok_fresh _ _ _ (inv_enrollments _ Hs)) as Hk.
  constructor; app_unfold; try assumption.
  - rewrite set_fresh by exact Hk. rewrite values_snoc. apply Forall_app.
    split; [exact Hr|]. constructor; [simpl; auto | constructor].
  - eapply Forall_impl; [|exact Hg]. intros g Hin.
    rewrite set_fresh by exact Hk. rewrite values_snoc, map_app.
    apply in_or_app. now left.
Qed.

Lemma app_enrollment_delete enrollment_id e st :
  Routes.app_inv lower st ->
  get enrollment_id st.(enrollments) = Some e ->
  Routes.app_inv lower
    (mkDataStore st.(students) st.(courses)
       (filter (fun kv => negb (fst kv =? enrollment_id)) st.(enrollments))
       (filter (fun kv => negb (Grade.same_pair e.(e_student_id)
                                  e.(e_course_id) (snd kv)))
               st.(grades))
       st.(next_student_id) st.(next_course_id)
       st.(next_enrollment_id) st.(next_grade_id)).
Proof.
  intros Hinv Hget.
  assert (Hstore : store_inv
            (mkDataStore st.(students) st.(courses)
               (filter (fun kv => negb (fst kv =? enrollment_id)) st.(enrollments))
               (filter (fun kv => negb (Grade.same_pair e.(e_student_id)
                                          e.(e_course_id) (snd kv)))
                       st.(grades))
               st.(next_student_id) st.(next_course_id)
               st.(next_enrollment_id) st.(next_grade_id))).
  { eapply (enrollment_delete_inv enrollment_id st true); [apply Hinv|].
    rewrite enrollment_delete_eq by (apply Hinv). now rewrite Hget. }
  destruct Hinv as [Hs Hr Hg Hc Hp Hcd He Hsf Hcf].
  constructor; app_unfold; try assumption.
  - now apply forall_values_filter.
  - apply Forall_forall. intros g Hin.
    apply (in_values_filter
             (fun g => negb (Grade.same_pair e.(e_student_id) e.(e_course_id) g)))
      in Hin.
    destruct Hin as [Hin Hne]. rewrite negb_true_iff in Hne.
    rewrite Forall_forall in Hg. specialize (Hg g Hin).
    apply in_map_iff in Hg. destruct Hg as [e' [Hpair He']].
    apply in_map_iff. exists e'. split; [exact Hpair|].
    unfold values in He'. apply in_map_iff in He'.
    destruct He' as [[k' e''] [Heq Hin']]. simpl in Heq. subst e''.
    unfold values. apply in_map_iff. exists (k', e'). split; [reflexivity|].
    apply filter_In. split; [exact Hin'|]. simpl.
    rewrite negb_true_iff, Z.eqb_neq. intros ->.
    apply in_get in Hin'; [|apply (inv_enrollments _ Hs)].
    assert (e' = e) by congruence. subst e'.
    assert (Grade.same_pair (e_student_id e) (e_course_id e) g = true).
    { apply grade_same_pair_key. rewrite <- Hpair. reflexivity. }
    congruence.
  - now apply forall_values_filter.
Qed.

Lemma app_grade_create student_id course_id letter_grade now1 now2 st :
  Routes.app_inv lower st ->
  In letter_grade (map fst Grade.GRADE_POINTS) ->
  In (student_id, course_id) (map enrollment_pair (Enrollment.get_all st)) ->
  Routes.app_inv lower
    (snd (Grade.create student_id course_id letter_grade None now1 now2 st)).
Proof.
  intros Hinv Hletter Henr.
  pose proof (grade_create_inv student_id course_id letter_grade None now1 now2 st
                (Routes.app_store _ _ Hinv)) as Hstore.
  unfold Grade.create, items in *.
  destruct Hinv as [Hs Hr Hg Hc Hp Hcd He Hsf Hcf].
  destruct (Grade.update_existing _ _ _ _ _ _) as [[g d]|] eqn:Eu.
  - apply update_existing_some in Eu.
    destruct Eu as (d1 & k & g0 & d2 & Hd & _ & Hpair & -> & ->).
    constructor; app_unfold; try assumption.
    + rewrite Hd in Hg. unfold values in *. rewrite map_app in *. simpl in *.
      apply Forall_app in Hg. destruct Hg as [Hg1 Hg2]. inversion Hg2; subst.
      apply Forall_app. split; [exact Hg1|]. constructor; assumption.
    + rewrite Hd in Hp. unfold values in *. rewrite map_app in *. simpl in *.
      apply Forall_app in Hp. destruct Hp as [Hp1 Hp2]. inversion Hp2; subst.
      apply Forall_app. split; [exact Hp1|]. constructor; [|assumption].
      simpl. auto.
  - pose proof (table_ok_fresh _ _ _ (inv_grades _ Hs)) as Hk.
    constructor; app_unfold; try assumption.
    + rewrite set_fresh by exact Hk. rewrite values_snoc. apply Forall_app.
      split; [exact Hg|]. constructor; [exact Henr | constructor].
    + rewrite set_fresh by exact Hk. rewrite values_snoc. apply Forall_app.
      split; [exact Hp|]. constructor; [simpl; auto | constructor].
Qed.

Lemma app_grade_delete grade_id st :
  Routes.app_inv lower st ->
  contains grade_id st.(grades) = true ->
  Routes.app_inv lower
    (with_grades st (filter (fun kv => negb (fst kv =? grade_id)) st.(grades))
                 st.(next_grade_id)).
Proof.
  intros Hinv Hk.
  assert (Hstore : store_inv
            (with_grades st
               (filter (fun kv => negb (fst kv =? grade_id)) st.(grades))
               st.(next_grade_id))).
  { eapply (grade_delete_inv grade_id st true); [apply Hinv|].
    rewrite grade_delete_eq. now rewrite Hk. }
  destruct Hinv as [Hs Hr Hg Hc Hp Hcd He Hsf Hcf].
  constructor; app_unfold; try assumption.
  - now apply forall_values_filter.
  - now apply forall_values_filter.
Qed.

End AppInvariant.

(** ** What the guards of the handlers establish *)

Lemma all_nonempty_forall (l : list string) :
  Routes.all_nonempty l = true -> Forall (fun s => s <> "") l.
Proof.
  unfold Routes.all_nonempty. rewrite forallb_forall, Forall_forall.
  intros H s Hin. specialize (H s Hin). rewrite negb_true_iff in H.
  now apply String.eqb_neq.
Qed.

Lemma valid_letter_in (letter_grade : string) :
  Routes.valid_letter letter_grade = true ->
  In letter_grade (map fst Grade.GRADE_POINTS).
Proof.
  unfold Routes.valid_letter. rewrite existsb_exists.
  intros [l [Hin Heq]]. apply String.eqb_eq in Heq. now subst.
Qed.

Lemma enrolled_in (student_id course_id : Z) st :
  existsb (Z.eqb course_id)
          (map e_course_id (Enrollment.get_by_student student_id st)) = true ->
  In (student_id, course_id) (map enrollment_pair (Enrollment.get_all st)).
Proof.
  rewrite existsb_exists. intros [c [Hin Heq]]. apply Z.eqb_eq in Heq. subst c.
  apply in_map_iff in Hin. destruct Hin as [e [Hc Hin]].
  unfold Enrollment.get_by_student in Hin. apply filter_In in Hin.
  destruct Hin as [Hin Hs]. apply Z.eqb_eq in Hs.
  apply in_map_iff. exists e. split; [|exact Hin].
  unfold enrollment_pair. congruence.
Qed.

Lemma existsb_false {A : Type} (f : A -> bool) (l : list A) :
  existsb f l = false -> forall x, In x l -> f x = false.
Proof.
  intros H x Hin. destruct (f x) eqn:E; [|reflexivity].
  assert (existsb f l = true) by (apply existsb_exists; eauto). congruence.
Qed.

Section Requests.
Variable lower : string -> string.

(** A request keeps the invariant of the application. *)
Lemma request_app_inv st resp st' :
  Routes.app_inv lower st -> Routes.request lower st resp st' ->
  Routes.app_inv lower st'.
Proof.
  intros Hinv Hreq.
  destruct Hreq as
    [ name email phone address now1 now2 resp st' H
    | student_id name email phone address now resp st' H
    | student_id resp st' H
    | code name description credits now1 now2 resp st' H
    | course_id code name description credits now resp st' H
    | course_id resp st' H
    | student_id course_id now resp st' H
    | enrollment_id resp st' H
    | student_id course_id letter_grade now1 now2 resp st' H
    | grade_id letter_grade now1 now2 resp st' H
    | grade_id resp st' H ].
  - unfold Routes.create_student in H.
    destruct (Routes.all_nonempty _) eqn:Ea; simpl in H;
      [|injection H as <- <-; exact Hinv].
    destruct (existsb _ _) eqn:Ee; [injection H as <- <-; exact Hinv|].
    injection H as <- <-.
    apply all_nonempty_forall in Ea. inversion Ea as [|? ? H1 Ea1]; subst.
    inversion Ea1 as [|? ? H2 Ea2]; subst. inversion Ea2 as [|? ? H3 Ea3]; subst.
    inversion Ea3 as [|? ? H4 _]; subst.
    apply app_student_create; auto.
    intros s Hin. apply (existsb_false _ _ Ee) in Hin. now apply String.eqb_neq.
  - unfold Routes.update_student in H.
    destruct (Routes.all_nonempty _) eqn:Ea; simpl in H;
      [|injection H as <- <-; exact Hinv].
    destruct (existsb _ _) eqn:Ee; [injection H as <- <-; exact Hinv|].
    rewrite student_update_eq in H. simpl in H.
    destruct (get student_id (students st)) as [s|] eqn:Eg;
      injection H as <- <-; [|exact Hinv].
    apply all_nonempty_forall in Ea. inversion Ea as [|? ? H1 Ea1]; subst.
    inversion Ea1 as [|? ? H2 Ea2]; subst. inversion Ea2 as [|? ? H3 Ea3]; subst.
    inversion Ea3 as [|? ? H4 _]; subst.
    apply app_student_update; auto.
    intros s0 Hin Hne. apply (existsb_false _ _ Ee) in Hin.
    apply andb_false_iff in Hin. destruct Hin as [Hin|Hin].
    + rewrite negb_false_iff, Z.eqb_eq in Hin. contradiction.
    + now apply String.eqb_neq.
  - unfold Routes.delete_student, Student.get in H.
    destruct (get student_id (students st)) as [s|] eqn:Eg;
      [|injection H as <- <-; exact Hinv].
    rewrite student_delete_eq in H by (apply Hinv).
    rewrite (get_some_contains _ _ _ Eg) in H. simpl in H.
    injection H as <- <-. apply app_student_delete; [exact Hinv|].
    eapply get_some_contains; eauto.
  - unfold Routes.create_course in H.
    destruct (Routes.all_nonempty _) eqn:Ea; simpl in H;
      [|injection H as <- <-; exact Hinv].
    destruct (credits <=? 0) eqn:Ec; [injection H as <- <-; exact Hinv|].
    destruct (existsb _ _) eqn:Ee; [injection H as <- <-; exact Hinv|].
    injection H as <- <-.
    apply all_nonempty_forall in Ea. inversion Ea as [|? ? H1 Ea1]; subst.
    inversion Ea1 as [|? ? H2 Ea2]; subst. inversion Ea2 as [|? ? H3 _]; subst.
    apply Z.leb_gt in Ec.
    apply app_course_create; auto.
    intros c Hin. apply (existsb_false _ _ Ee) in Hin. now apply String.eqb_neq.
  - unfold Routes.update_course in H.
    destruct (Routes.all_nonempty _) eqn:Ea; simpl in H;
      [|injection H as <- <-; exact Hinv].
    destruct (credits <=? 0) eqn:Ec; [injection H as <- <-; exact Hinv|].
    destruct (existsb _ _) eqn:Ee; [injection H as <- <-; exact Hinv|].
    rewrite course_update_eq in H. simpl in H.
    destruct (get course_id (courses st)) as [c|] eqn:Eg;
      injection H as <- <-; [|exact Hinv].
    apply all_nonempty_forall in Ea. inversion Ea as [|? ? H1 Ea1]; subst.
    inversion Ea1 as [|? ? H2 Ea2]; subst. inversion Ea2 as [|? ? H3 _]; subst.
    apply Z.leb_gt in Ec.
    apply app_course_update; auto.
    intros c0 Hin Hne. apply (existsb_false _ _ Ee) in Hin.
    apply andb_false_iff in Hin. destruct Hin as [Hin|Hin].
    + rewrite negb_false_iff, Z.eqb_eq in Hin. contradiction.
    + now apply String.eqb_neq.
  - unfold Routes.delete_course, Course.get in H.
    destruct (get course_id (courses st)) as [c|] eqn:Eg;
      [|injection H as <- <-; exact Hinv].
    rewrite course_delete_eq in H by (apply Hinv).
    rewrite (get_some_contains _ _ _ Eg) in H. simpl in H.
    injection H as <- <-. apply app_course_delete; [exact Hinv|].
    eapply get_some_contains; eauto.
  - unfold Routes.create_enrollment, Student.get, Course.get in H. cbv zeta in H.
    destruct (get student_id (students st)) as [s|] eqn:Es;
      [|injection H as <- <-; exact Hinv].
    destruct (get course_id (courses st)) as [c|] eqn:Ec;
      [|injection H as <- <-; exact Hinv].
    pose proof (app_enrollment_create lower student_id course_id now st Hinv
                  (get_some_contains _ _ _ Es) (get_some_contains _ _ _ Ec)) as H'.
    destruct (Enrollment.create student_id course_id now st) as [e st1].
    injection H as <- <-. exact H'.
  - unfold Routes.delete_enrollment, Enrollment.get in H.
    destruct (get enrollment_id (enrollments st)) as [e|] eqn:Eg;
      [|injection H as <- <-; exact Hinv].
    rewrite enrollment_delete_eq in H by (apply Hinv).
    rewrite Eg in H. simpl in H.
    injection H as <- <-. now apply app_enrollment_delete.
  - unfold Routes.create_grade in H.
    destruct (Routes.valid_letter letter_grade) eqn:Ev; simpl in H;
      [|injection H as <- <-; exact Hinv].
    destruct (existsb _ _) eqn:Ee; simpl in H;
      [|injection H as <- <-; exact Hinv].
    pose proof (app_grade_create lower student_id course_id letter_grade now1 now2
                  st Hinv (valid_letter_in _ Ev) (enrolled_in _ _ _ Ee)) as H'.
    destruct (Grade.create student_id course_id letter_grade None now1 now2 st)
      as [g st1].
    simpl in H'.
    destruct (Student.get student_id st1), (Course.get course_id st1);
      injection H as <- <-; exact H'.
  - unfold Routes.update_grade, Grade.get in H.
    destruct (Routes.valid_letter letter_grade) eqn:Ev; simpl in H;
      [|injection H as <- <-; exact Hinv].
    destruct (get grade_id (grades st)) as [g|] eqn:Eg;
      [|injection H as <- <-; exact Hinv].
    assert (Henr : In (g_student_id g, g_course_id g)
                      (map enrollment_pair (Enrollment.get_all st))).
    { pose proof (Routes.app_grade_enrolled _ _ Hinv) as Hg.
      rewrite Forall_forall in Hg. apply (Hg g).
      apply get_in in Eg. exact (in_map snd _ _ Eg). }
    pose proof (app_grade_create lower (g_student_id g) (g_course_id g)
                  letter_grade now1 now2 st Hinv (valid_letter_in _ Ev) Henr) as H'.
    destruct (Grade.create (g_student_id g) (g_course_id g) letter_grade None
                           now1 now2 st) as [g' st1].
    simpl in H'.
    destruct (Student.get (g_student_id g) st1), (Course.get (g_course_id g) st1);
      injection H as <- <-; exact H'.
  - unfold Routes.delete_grade, Grade.get in H.
    destruct (get grade_id (grades st)) as [g|] eqn:Eg;
      [|injection H as <- <-; exact Hinv].
    rewrite grade_delete_eq in H.
    rewrite (get_some_contains _ _ _ Eg) in H. simpl in H.
    injection H as <- <-. apply app_grade_delete; [exact Hinv|].
    eapply get_some_contains; eauto.
Qed.

Lemma served_app_inv st : Routes.served lower st -> Routes.app_inv lower st.
Proof.
  induction 1 as [|st resp st' _ IH Hreq]; [apply init_app_inv|].
  eapply request_app_inv; eauto.
Qed.

End Requests.

(** ** Requests as steps of the store *)

Section RequestSteps.
Variable lower : string -> string.

(** A request either flashes danger and leaves the store as it is, or
    flashes success after one operation of the store. *)
Lemma request_cases st resp st' :
  store_inv st -> Routes.request lower st resp st' ->
  (resp.(Routes.flash_category) = "danger" /\ st' = st) \/
  (resp.(Routes.flash_category) = "success" /\ step st st').
Proof.
  intros Hinv Hreq.
  destruct Hreq as
    [ name email phone address now1 now2 resp st' H
    | student_id name email phone address now resp st' H
    | student_id resp st' H
    | code name description credits now1 now2 resp st' H
    | course_id code name description credits now resp st' H
    | course_id resp st' H
    | student_id course_id now resp st' H
    | enrollment_id resp st' H
    | student_id course_id letter_grade now1 now2 resp st' H
    | grade_id letter_grade now1 now2 resp st' H
    | grade_id resp st' H ].
  - unfold Routes.create_student in H.
    destruct (Routes.all_nonempty _); simpl in H;
      [|injection H as <- <-; left; split; reflexivity].
    destruct (existsb _ _); injection H as <- <-;
      [left; split; reflexivity|].
    right. split; [reflexivity|].
    exact (step_student_create st name email phone address now1 now2).
  - unfold Routes.update_student in H.
    destruct (Routes.all_nonempty _); simpl in H;
      [|injection H as <- <-; left; split; reflexivity].
    destruct (existsb _ _); [injection H as <- <-; left; split; reflexivity|].
    destruct (Student.update _ _ _ _ _ _ _) as [[o st1]|e] eqn:Eu; simpl in H;
      [|discriminate H].
    destruct o as [s'|]; injection H as <- <-.
    + right. split; [reflexivity|]. eapply step_student_update; exact Eu.
    + left. split; [reflexivity|]. rewrite student_update_eq in Eu.
      destruct (get _ _); injection Eu; congruence.
  - unfold Routes.delete_student, Student.get in H.
    destruct (get student_id (students st)) as [s|] eqn:Eg;
      [|injection H as <- <-; left; split; reflexivity].
    destruct (Student.delete student_id st) as [[b st1]|e] eqn:Ed; simpl in H;
      [|discriminate H].
    pose proof Ed as Ed'. rewrite student_delete_eq in Ed' by apply Hinv.
    rewrite (get_some_contains _ _ _ Eg) in Ed'. injection Ed' as <- _.
    injection H as <- <-. right. split; [reflexivity|].
    eapply step_student_delete; exact Ed.
  - unfold Routes.create_course in H.
    destruct (negb _ || _); simpl in H;
      [injection H as <- <-; left; split; reflexivity|].
    destruct (existsb _ _); injection H as <- <-;
      [left; split; reflexivity|].
    right. split; [reflexivity|].
    exact (step_course_create st code name description credits now1 now2).
  - unfold Routes.update_course in H.
    destruct (negb _ || _); simpl in H;
      [injection H as <- <-; left; split; reflexivity|].
    destruct (existsb _ _); [injection H as <- <-; left; split; reflexivity|].
    destruct (Course.update _ _ _ _ _ _ _) as [[o st1]|e] eqn:Eu; simpl in H;
      [|discriminate H].
    destruct o as [c'|]; injection H as <- <-.
    + right. split; [reflexivity|]. eapply step_course_update; exact Eu.
    + left. split; [reflexivity|]. rewrite course_update_eq in Eu.
      destruct (get _ _); injection Eu; congruence.
  - unfold Routes.delete_course, Course.get in H.
    destruct (get course_id (courses st)) as [c|] eqn:Eg;
      [|injection H as <- <-; left; split; reflexivity].
    destruct (Course.delete course_id st) as [[b st1]|e] eqn:Ed; simpl in H;
      [|discriminate H].
    pose proof Ed as Ed'. rewrite course_delete_eq in Ed' by apply Hinv.
    rewrite (get_some_contains _ _ _ Eg) in Ed'. injection Ed' as <- _.
    injection H as <- <-. right. split; [reflexivity|].
    eapply step_course_delete; exact Ed.
  - unfold Routes.create_enrollment in H. cbv zeta in H.
    destruct (Student.get student_id st);
      [|injection H as <- <-; left; split; reflexivity].
    destruct (Course.get course_id st);
      [|injection H as <- <-; left; split; reflexivity].
    pose proof (step_enrollment_create st student_id course_id now) as Hstep.
    destruct (Enrollment.create student_id course_id now st) as [e st1].
    injection H as <- <-. right. split; [reflexivity | exact Hstep].
  - unfold Routes.delete_enrollment, Enrollment.get in H.
    destruct (get enrollment_id (enrollments st)) as [e|] eqn:Eg;
      [|injection H as <- <-; left; split; reflexivity].
    destruct (Enrollment.delete enrollment_id st) as [[b st1]|ex] eqn:Ed;
      simpl in H; [|discriminate H].
    pose proof Ed as Ed'. rewrite enrollment_delete_eq in Ed' by apply Hinv.
    rewrite Eg in Ed'. injection Ed' as <- _.
    injection H as <- <-. right. split; [reflexivity|].
    eapply step_enrollment_delete; exact Ed.
  - unfold Routes.create_grade in H.
    destruct (Routes.valid_letter letter_grade); simpl in H;
      [|injection H as <- <-; left; split; reflexivity].
    destruct (existsb _ _); simpl in H;
      [|injection H as <- <-; left; split; reflexivity].
    pose proof (step_grade_create st student_id course_id letter_grade None
                  now1 now2) as Hstep.
    destruct (Grade.create student_id course_id letter_grade None now1 now2 st)
      as [g st1].
    destruct (Student.get student_id st1), (Course.get course_id st1);
      injection H as <- <-; right; (split; [reflexivity | exact Hstep]).
  - unfold Routes.update_grade, Grade.get in H.
    destruct (Routes.valid_letter letter_grade); simpl in H;
      [|injection H as <- <-; left; split; reflexivity].
    destruct (get grade_id (grades st)) as [g|];
      [|injection H as <- <-; left; split; reflexivity].
    pose proof (step_grade_create st (g_student_id g) (g_course_id g)
                  letter_grade None now1 now2) as Hstep.
    destruct (Grade.create (g_student_id g) (g_course_id g) letter_grade None
                           now1 now2 st) as [g' st1].
    destruct (Student.get (g_student_id g) st1), (Course.get (g_course_id g) st1);
      injection H as <- <-; right; (split; [reflexivity | exact Hstep]).
  - unfold Routes.delete_grade, Grade.get in H.
    destruct (get grade_id (grades st)) as [g|] eqn:Eg;
      [|injection H as <- <-; left; split; reflexivity].
    destruct (Grade.delete grade_id st) as [[b st1]|ex] eqn:Ed;
      simpl in H; [|discriminate H].
    pose proof Ed as Ed'. rewrite grade_delete_eq in Ed'.
    rewrite (get_some_contains _ _ _ Eg) in Ed'. injection Ed' as <- _.
    injection H as <- <-. right. split; [reflexivity|].
    eapply step_grade_delete; exact Ed.
Qed.

End RequestSteps.

(** [two_students] is what six requests make of the empty store. *)
Lemma two_students_served : Routes.served ascii_lower two_students.
Proof.
  pose proof (Routes.served_init ascii_lower) as H.
  eapply Routes.served_request in H;
    [|eapply (Routes.req_create_student ascii_lower _ "Ann" "ann@example.com"
                "1" "a" "t" "t"); reflexivity].
  eapply Routes.served_request in H;
    [|eapply (Routes.req_create_student ascii_lower _ "Bob" "bob@example.com"
                "2" "b" "t" "t"); reflexivity].
  eapply Routes.served_request in H;
    [|eapply (Routes.req_create_course ascii_lower _ "CS1" "Intro" "d" 3 "t" "t");
      reflexivity].
  eapply Routes.served_request in H;
    [|eapply (Routes.req_create_enrollment ascii_lower _ 1 1 "t"); reflexivity].
  eapply Routes.served_request in H;
    [|eapply (Routes.req_create_enrollment ascii_lower _ 2 1 "t"); reflexivity].
  eapply Routes.served_request in H;
    [|eapply (Routes.req_create_grade ascii_lower _ 1 1 "A" "t" "t"); reflexivity].
  exact H.
Qed.

(** ** What holds of every store the application can be in *)

(** X17. Every store the handlers can produce is a store that the operations
    of [models.py] can produce: a request performs at most one operation
    of the store. *)
Theorem served_reachable (lower : string -> string) st :
  Routes.served lower st -> reachable st.
Proof.
  induction 1 as [|st resp st' _ IH Hreq]; [exact reachable_init|].
  destruct (request_cases lower st resp st' (reachable_inv _ IH) Hreq)
    as [[_ ->]|[_ Hstep]]; [exact IH|].
  eapply reachable_step; eauto.
Qed.

Lemma served_reachable_witness : reachable two_students.
Proof.
  exact (served_reachable ascii_lower two_students two_students_served).
Defined.

(** X18. A request flashes either danger or success, and a request that
    flashes danger leaves the store exactly as it was. *)
Theorem rejected_request_unchanged (lower : string -> string) st resp st' :
  Routes.served lower st ->
  Routes.request lower st resp st' ->
  (resp.(Routes.flash_category) = "danger" \/
   resp.(Routes.flash_category) = "success") /\
  (resp.(Routes.flash_category) = "danger" -> st' = st).
Proof.
  intros Hs Hreq.
  pose proof (Routes.app_store _ _ (served_app_inv lower st Hs)) as Hinv.
  destruct (request_cases lower st resp st' Hinv Hreq) as [[Hc ->]|[Hc Hstep]].
  - split; [now left | reflexivity].
  - split; [now right|]. rewrite Hc. discriminate.
Qed.

Lemma rejected_request_unchanged_witness :
  snd (Routes.flash "A student with this email already exists." "danger"
                    Routes.url_new_student, two_students) = two_students.
Proof.
  refine (proj2 (rejected_request_unchanged ascii_lower two_students
                   (Routes.flash "A student with this email already exists."
                                 "danger" Routes.url_new_student)
                   two_students two_students_served _) _).
  - eapply (Routes.req_create_student ascii_lower _ "Ann B" "ANN@Example.com"
              "3" "c" "t" "t").
    reflexivity.
  - reflexivity.
Defined.

(** X19. In a store the application can be in, every enrollment refers to a
    student and a course that exist, and every grade belongs to an
    enrollment of the same student in the same course, hence to an
    existing student and course as well. *)
Theorem served_references (lower : string -> string) st :
  Routes.served lower st ->
  (forall e, In e (Enrollment.get_all st) ->
     (exists s, Student.get e.(e_student_id) st = Some s) /\
     (exists c, Course.get e.(e_course_id) st = Some c)) /\
  (forall g, In g (Grade.get_all st) ->
     (exists e, In e (Enrollment.get_all st) /\
                e.(e_student_id) = g.(g_student_id) /\
                e.(e_course_id) = g.(g_course_id)) /\
     (exists s, Student.get g.(g_student_id) st = Some s) /\
     (exists c, Course.get g.(g_course_id) st = Some c)).
Proof.
  intros Hs. apply served_app_inv in Hs.
  destruct Hs as [_ Hr Hg _ _ _ _ _ _].
  rewrite Forall_forall in Hr, Hg.
  assert (He : forall e, In e (Enrollment.get_all st) ->
     (exists s, Student.get e.(e_student_id) st = Some s) /\
     (exists c, Course.get e.(e_course_id) st = Some c)).
  { intros e Hin. destruct (Hr e Hin) as [H1 H2].
    split; now apply contains_get. }
  split; [exact He|]. intros g Hin. specialize (Hg g Hin).
  apply in_map_iff in Hg. destruct Hg as [e [Hpair Hine]].
  unfold enrollment_pair, grade_pair in Hpair. injection Hpair as H1 H2.
  split; [exists e; auto|].
  destruct (He e Hine) as [Hst Hc]. rewrite H1 in Hst. rewrite H2 in Hc. auto.
Qed.

Lemma served_references_witness :
  exists c, Course.get 1 two_students = Some c.
Proof.
  exact (proj2 (proj2 (proj2 (served_references ascii_lower two_students
                                two_students_served)
                         (mkGrade 1 1 1 "A" 4.0%float "t" "t")
                         (or_introl eq_refl)))).
Defined.

Lemma graded_courses_all st gs :
  (forall g, In g gs -> exists c, Course.get g.(g_course_id) st = Some c) ->
  map fst (flat_map (fun g => match Course.get g.(g_course_id) st with
                              | Some c => [(g, c)]
                              | None => []
                              end) gs) = gs.
Proof.
  induction gs as [|g gs IH]; simpl; intros H; [reflexivity|].
  destruct (H g (or_introl eq_refl)) as [c ->]. simpl. f_equal.
  apply IH. intros g' Hin. apply H. now right.
Qed.

(** X20. In a store the application can be in, the GPA of a student counts
    every grade of the student (no grade is skipped for want of its
    course), every credit weight is positive, and the credit sum is zero
    only for a student without grades. *)
Theorem served_gpa_counts_all (lower : string -> string) st student_id :
  Routes.served lower st ->
  map fst (graded_courses student_id st) = Grade.get_by_student student_id st /\
  Forall (fun gc => 0 < (snd gc).(c_credits)) (graded_courses student_id st) /\
  (credit_sum (graded_courses student_id st) = 0 <->
   Grade.get_by_student student_id st = []).
Proof.
  intros Hs. pose proof (served_app_inv lower st Hs) as Hinv.
  destruct Hinv as [_ Hr Hg Hc _ _ _ _ _].
  rewrite Forall_forall in Hr, Hg, Hc.
  assert (Hall : map fst (graded_courses student_id st)
                 = Grade.get_by_student student_id st).
  { unfold graded_courses. apply graded_courses_all. intros g Hin.
    unfold Grade.get_by_student in Hin. apply filter_In in Hin.
    destruct Hin as [Hin _]. specialize (Hg g Hin).
    apply in_map_iff in Hg. destruct Hg as [e [Hpair Hine]].
    unfold enrollment_pair, grade_pair in Hpair. injection Hpair as _ H2.
    destruct (Hr e Hine) as [_ H]. rewrite H2 in H. now apply contains_get. }
  assert (Hpos : Forall (fun gc => 0 < (snd gc).(c_credits))
                        (graded_courses student_id st)).
  { apply Forall_forall. intros [g c] Hin. simpl.
    unfold graded_courses in Hin. apply in_flat_map in Hin.
    destruct Hin as [g' [_ Hin]].
    destruct (Course.get (g_course_id g') st) as [c'|] eqn:Eg; [|contradiction].
    destruct Hin as [[= <- <-]|[]]. apply Hc.
    unfold Course.get in Eg. apply get_in in Eg. exact (in_map snd _ _ Eg). }
  split; [exact Hall|]. split; [exact Hpos|]. split.
  - intros H0. rewrite <- Hall. now rewrite (credit_sum_positive _ Hpos H0).
  - intros H0. rewrite H0 in Hall.
    destruct (graded_courses student_id st); [reflexivity | discriminate].
Qed.

Lemma served_gpa_counts_all_witness :
  map fst (graded_courses 1 two_students) = Grade.get_by_student 1 two_students.
Proof.
  exact (proj1 (served_gpa_counts_all ascii_lower two_students 1
                  two_students_served)).
Defined.

(** X21. In a store the application can be in, every grade carries one of the
    13 letters of the table and the points that the table gives to that
    letter: the handlers never pass a points override. *)
Theorem served_points_from_table (lower : string -> string) st g :
  Routes.served lower st ->
  In g (Grade.get_all st) ->
  In g.(g_letter_grade) (map fst Grade.GRADE_POINTS) /\
  g.(g_points) = Grade.letter_to_points g.(g_letter_grade).
Proof.
  intros Hs Hin. apply served_app_inv in Hs.
  destruct Hs as [_ _ _ _ Hp _ _ _ _]. rewrite Forall_forall in Hp.
  exact (Hp g Hin).
Qed.

Lemma served_points_from_table_witness :
  4.0%float = Grade.letter_to_points "A".
Proof.
  exact (proj2 (served_points_from_table ascii_lower two_students
                  (mkGrade 1 1 1 "A" 4.0%float "t" "t")
                  two_students_served (or_introl eq_refl))).
Defined.

(** X22. In a store the application can be in, no two students have e-mail
    addresses that agree once lowercased, and no two courses have the same
    code. *)
Theorem served_unique (lower : string -> string) st :
  Routes.served lower st ->
  (forall s1 s2, In s1 (Student.get_all st) -> In s2 (Student.get_all st) ->
                 lower s1.(s_email) = lower s2.(s_email) -> s1 = s2) /\
  (forall c1 c2, In c1 (Course.get_all st) -> In c2 (Course.get_all st) ->
                 c1.(c_code) = c2.(c_code) -> c1 = c2).
Proof.
  intros Hs. apply served_app_inv in Hs.
  destruct Hs as [_ _ _ _ _ Hcd He _ _]. split.
  - intros s1 s2 H1 H2 Heq.
    exact (nodup_map_inj (fun s => lower (s_email s)) _ _ _ He H1 H2 Heq).
  - intros c1 c2 H1 H2 Heq.
    exact (nodup_map_inj c_code _ _ _ Hcd H1 H2 Heq).
Qed.

Lemma served_unique_witness :
  mkCourse 1 "CS1" "Intro" "d" 3 "t" "t" = mkCourse 1 "CS1" "Intro" "d" 3 "t" "t".
Proof.
  exact (proj2 (served_unique ascii_lower two_students two_students_served)
           _ _ (or_introl eq_refl) (or_introl eq_refl) eq_refl).
Defined.

(** X23. In a store the application can be in, every student has a non-empty
    name, email, phone and address, and every course a non-empty code, name
    and description and a positive number of credits. *)
Theorem served_fields_valid (lower : string -> string) st :
  Routes.served lower st ->
  (forall s, In s (Student.get_all st) ->
     s.(s_name) <> "" /\ s.(s_email) <> "" /\
     s.(s_phone) <> "" /\ s.(s_address) <> "") /\
  (forall c, In c (Course.get_all st) ->
     c.(c_code) <> "" /\ c.(c_name) <> "" /\ c.(c_description) <> "" /\
     0 < c.(c_credits)).
Proof.
  intros Hs. apply served_app_inv in Hs.
  destruct Hs as [_ _ _ Hc _ _ _ Hsf Hcf].
  rewrite Forall_forall in Hc, Hsf, Hcf. split.
  - exact Hsf.
  - intros c Hin. destruct (Hcf c Hin) as (H1 & H2 & H3).
    repeat split; auto.
Qed.

Lemma served_fields_valid_witness :
  0 < (mkCourse 1 "CS1" "Intro" "d" 3 "t" "t").(c_credits).
Proof.
  exact (proj2 (proj2 (proj2 (proj2 (served_fields_valid ascii_lower two_students
                                       two_students_served)
                                _ (or_introl eq_refl))))).
Defined.

(** X24. In a store the application can be in, no handler reaches its
    [except] branch through an exception of the store: each of the eleven
    handlers returns a response whatever the request. *)
Theorem served_no_exception (lower : string -> string) st :
  Routes.served lower st ->
  (forall name email phone address now1 now2,
     exists r, Routes.create_student lower name email phone address now1 now2 st
               = Ok r) /\
  (forall student_id name email phone address now,
     exists r, Routes.update_student lower student_id name email phone address
                                     now st = Ok r) /\
  (forall student_id, exists r, Routes.delete_student student_id st = Ok r) /\
  (forall code name description credits now1 now2,
     exists r, Routes.create_course code name description credits now1 now2 st
               = Ok r) /\
  (forall course_id code name description credits now,
     exists r, Routes.update_course course_id code name description credits
                                    now st = Ok r) /\
  (forall course_id, exists r, Routes.delete_course course_id st = Ok r) /\
  (forall student_id course_id now,
     exists r, Routes.create_enrollment student_id course_id now st = Ok r) /\
  (forall enrollment_id,
     exists r, Routes.delete_enrollment enrollment_id st = Ok r) /\
  (forall student_id course_id letter_grade now1 now2,
     exists r, Routes.create_grade student_id course_id letter_grade now1 now2 st
               = Ok r) /\
  (forall grade_id letter_grade now1 now2,
     exists r, Routes.update_grade grade_id letter_grade now1 now2 st = Ok r) /\
  (forall grade_id, exists r, Routes.delete_grade grade_id st = Ok r).
Proof.
  intros Hs. pose proof (Routes.app_store _ _ (served_app_inv lower st Hs)) as Hinv.
  destruct Hinv as [_ _ [He _] [Hg _] _ _ _].
  repeat split; intros.
  - unfold Routes.create_student.
    destruct (negb _); [eexists; reflexivity|]. destruct (existsb _ _); eexists; reflexivity.
  - unfold Routes.update_student.
    destruct (negb _); [eexists; reflexivity|]. destruct (existsb _ _); [eexists; reflexivity|].
    rewrite student_update_eq. simpl. destruct (get _ _); eexists; reflexivity.
  - unfold Routes.delete_student. destruct (Student.get _ _); [|eexists; reflexivity].
    rewrite student_delete_eq by assumption. simpl.
    destruct (contains _ _); eexists; reflexivity.
  - unfold Routes.create_course.
    destruct (negb _ || _); [eexists; reflexivity|]. destruct (existsb _ _); eexists; reflexivity.
  - unfold Routes.update_course.
    destruct (negb _ || _); [eexists; reflexivity|]. destruct (existsb _ _); [eexists; reflexivity|].
    rewrite course_update_eq. simpl. destruct (get _ _); eexists; reflexivity.
  - unfold Routes.delete_course. destruct (Course.get _ _); [|eexists; reflexivity].
    rewrite course_delete_eq by assumption. simpl.
    destruct (contains _ _); eexists; reflexivity.
  - unfold Routes.create_enrollment. cbv zeta.
    destruct (Student.get _ _); [|eexists; reflexivity]. destruct (Course.get _ _); [|eexists; reflexivity].
    destruct (Enrollment.create _ _ _ _). eexists; reflexivity.
  - unfold Routes.delete_enrollment. destruct (Enrollment.get _ _); [|eexists; reflexivity].
    rewrite enrollment_delete_eq by assumption. simpl.
    destruct (get _ _); eexists; reflexivity.
  - unfold Routes.create_grade.
    destruct (negb _); [eexists; reflexivity|]. cbv zeta. destruct (negb _); [eexists; reflexivity|].
    destruct (Grade.create _ _ _ _ _ _ _) as [g st1].
    destruct (Student.get student_id st1), (Course.get course_id st1);
      eexists; reflexivity.
  - unfold Routes.update_grade.
    destruct (negb _); [eexists; reflexivity|]. destruct (Grade.get _ _) as [g|]; [|eexists; reflexivity].
    destruct (Grade.create _ _ _ _ _ _ _) as [g' st1].
    destruct (Student.get (g_student_id g) st1), (Course.get (g_course_id g) st1);
      eexists; reflexivity.
  - unfold Routes.delete_grade. destruct (Grade.get _ _); [|eexists; reflexivity].
    rewrite grade_delete_eq. simpl. destruct (contains _ _); eexists; reflexivity.
Qed.

Lemma served_no_exception_witness :
  exists r, Routes.delete_student 1 two_students = Ok r.
Proof.
  exact (proj1 (proj2 (proj2 (served_no_exception ascii_lower two_students
                                two_students_served))) 1).
Defined.

(** ** Creating a student or a course *)

(** X25. In a reachable store [Student.create] and [Course.create] always add
    a record: it carries the current counter as id, goes last in the
    table, and the counter advances by one. *)
Theorem create_appends st :
  reachable st ->
  (forall name email phone address now1 now2,
     let r := Student.create name email phone address now1 now2 st in
     fst r = mkStudent st.(next_student_id) name email phone address now1 now2 /\
     Student.get_all (snd r) = Student.get_all st ++ [fst r] /\
     (snd r).(next_student_id) = st.(next_student_id) + 1) /\
  (forall code name description credits now1 now2,
     let r := Course.create code name description credits now1 now2 st in
     fst r = mkCourse st.(next_course_id) code name description credits now1 now2 /\
     Course.get_all (snd r) = Course.get_all st ++ [fst r] /\
     (snd r).(next_course_id) = st.(next_course_id) + 1).
Proof.
  intros Hreach. apply reachable_inv in Hreach. split; intros; cbv zeta.
  - unfold Student.create, Student.get_all. simpl.
    rewrite set_fresh by (eapply table_ok_fresh; apply Hreach).
    rewrite values_snoc. auto.
  - unfold Course.create, Course.get_all. simpl.
    rewrite set_fresh by (eapply table_ok_fresh; apply Hreach).
    rewrite values_snoc. auto.
Qed.

Lemma create_appends_witness :
  (fst (Student.create "Cy" "cy@example.com" "3" "c" "t" "t" two_students)).(s_id)
  = 3.
Proof.
  exact (f_equal s_id
           (proj1 (proj1 (create_appends two_students two_students_reachable)
                     "Cy" "cy@example.com" "3" "c" "t" "t"))).
Defined.

(** ** When the GPA is defined *)

Lemma int_to_float_raise z e : int_to_float z = Raise e -> e = OverflowError.
Proof.
  unfold int_to_float.
  destruct (binary_normalize prec emax z 0 false); congruence.
Qed.

Lemma point_sum_from_result acc l :
  (exists n, point_sum_from acc l = Ok n) \/
  point_sum_from acc l = Raise OverflowError.
Proof.
  revert acc. induction l as [|[g c] l IH]; intros acc; simpl; [eauto|].
  destruct (int_to_float (c_credits c)) as [fc|e] eqn:E; simpl; [apply IH|].
  right. now rewrite (int_to_float_raise _ _ E).
Qed.

Lemma point_sum_from_ok acc l :
  (exists n, point_sum_from acc l = Ok n) <->
  Forall (fun gc => int_to_float (snd gc).(c_credits) <> Raise OverflowError) l.
Proof.
  revert acc. induction l as [|[g c] l IH]; intros acc; simpl.
  - split; [constructor | eauto].
  - destruct (int_to_float (c_credits c)) as [fc|e] eqn:E; simpl.
    + rewrite IH. split.
      * intros H. constructor; [simpl; congruence | exact H].
      * intros H. now inversion H.
    + pose proof (int_to_float_raise _ _ E) as ->. split.
      * intros [n Hn]. discriminate Hn.
      * intros H. inversion H as [|? ? Hc _]; subst. simpl in Hc. contradiction.
Qed.

(** [overflow_example] is what three more requests make of
    [two_students]. *)
Lemma overflow_example_served : Routes.served ascii_lower overflow_example.
Proof.
  pose proof two_students_served as H.
  eapply Routes.served_request in H;
    [|eapply (Routes.req_create_course ascii_lower _ "BIG" "Big" "d" (2 ^ 1024)
                "t" "t"); reflexivity].
  eapply Routes.served_request in H;
    [|eapply (Routes.req_create_enrollment ascii_lower _ 1 2 "t"); reflexivity].
  eapply Routes.served_request in H;
    [|eapply (Routes.req_create_grade ascii_lower _ 1 2 "A" "t" "t"); reflexivity].
  exact H.
Qed.

(** X26. [Student.calculate_gpa] either returns a float or raises
    [OverflowError]; it returns a float exactly when the credits of every
    graded course of the student, and their sum unless it is zero, are in
    the range of a float. A course of 2^1024 credits, which the handlers
    accept, makes it raise for the students graded in it. *)
Theorem calculate_gpa_defined student_id st :
  ((exists x, Student.calculate_gpa student_id st = Ok x) \/
   Student.calculate_gpa student_id st = Raise OverflowError) /\
  ((exists x, Student.calculate_gpa student_id st = Ok x) <->
   Forall (fun gc => int_to_float (snd gc).(c_credits) <> Raise OverflowError)
          (graded_courses student_id st) /\
   (credit_sum (graded_courses student_id st) = 0 \/
    int_to_float (credit_sum (graded_courses student_id st))
      <> Raise OverflowError)) /\
  Routes.served ascii_lower overflow_example /\
  Student.calculate_gpa 1 overflow_example = Raise OverflowError /\
  Student.calculate_gpa 2 overflow_example = Ok 0.0%float.
Proof.
  rewrite calculate_gpa_eq_spec. unfold gpa_spec, point_sum.
  set (l := graded_courses student_id st).
  pose proof (point_sum_from_ok 0.0%float l) as Hok.
  destruct (point_sum_from_result 0.0%float l) as [[n Hn]|Hr].
  - rewrite Hn. simpl.
    assert (Hall : Forall (fun gc => int_to_float (snd gc).(c_credits)
                                     <> Raise OverflowError) l)
      by (apply Hok; eauto).
    destruct (credit_sum l =? 0) eqn:Ez.
    + apply Z.eqb_eq in Ez. split; [left; eauto|]. split; [|split; [exact overflow_example_served | split; reflexivity]].
      split; [intros _; auto | intros _; eauto].
    + destruct (int_to_float (credit_sum l)) as [d|e] eqn:Ed; simpl.
      * split; [left; eauto|]. split; [|split; [exact overflow_example_served | split; reflexivity]].
        split; [intros _; split; [exact Hall | right; congruence] | intros _; eauto].
      * pose proof (int_to_float_raise _ _ Ed) as ->.
        split; [now right|]. split; [|split; [exact overflow_example_served | split; reflexivity]].
        split; [intros [x Hx]; discriminate Hx|].
        intros [_ [H0|H0]]; [apply Z.eqb_neq in Ez; contradiction | contradiction].
  - rewrite Hr. simpl. split; [now right|]. split; [|split; [exact overflow_example_served | split; reflexivity]].
    split; [intros [x Hx]; discriminate Hx|].
    intros [Hall _]. apply Hok in Hall. destruct Hall as [n Hn]. congruence.
Qed.

(** ** The course statistics of the reports page *)

Lemma list_sum_indicator (ids : list Z) (k : Z) :
  NoDup ids -> In k ids ->
  list_sum (map (fun i => if k =? i then 1%nat else 0%nat) ids) = 1%nat.
Proof.
  induction ids as [|i ids IH]; simpl; intros Hnd Hin; [contradiction|].
  inversion Hnd as [|? ? Hnot Hnd']; subst.
  destruct (k =? i) eqn:E.
  - apply Z.eqb_eq in E. subst i. f_equal.
    clear IH Hin Hnd Hnd'. induction ids as [|j ids IH]; simpl; [reflexivity|].
    destruct (k =? j) eqn:Ej.
    + apply Z.eqb_eq in Ej. subst j. exfalso. apply Hnot. now left.
    + apply IH. intros H. apply Hnot. now right.
  - destruct Hin as [->|Hin]; [rewrite Z.eqb_refl in E; discriminate|].
    now apply IH.
Qed.

(** Counting the elements of a list per key, over distinct keys that cover
    the list, counts each element once. *)
Lemma count_per_key {A : Type} (key : A -> Z) (ids : list Z) (l : list A) :
  NoDup ids ->
  (forall x, In x l -> In (key x) ids) ->
  list_sum (map (fun i => List.length (filter (fun x => key x =? i) l)) ids)
  = List.length l.
Proof.
  intros Hnd. induction l as [|x l IH]; intros Hin; simpl.
  - induction ids as [|i ids IHi]; simpl; [reflexivity|].
    inversion Hnd; subst. now apply IHi.
  - assert (Hsplit :
      list_sum (map (fun i => List.length
                                (if key x =? i
                                 then x :: filter (fun y => key y =? i) l
                                 else filter (fun y => key y =? i) l)) ids)
      = Nat.add
          (list_sum (map (fun i => if key x =? i then 1%nat else 0%nat) ids))
          (list_sum (map (fun i => List.length (filter (fun y => key y =? i) l))
                         ids))).
    { clear IH Hin Hnd. induction ids as [|i ids IHi]; simpl; [reflexivity|].
      rewrite IHi. destruct (key x =? i); simpl; lia. }
    rewrite Hsplit.
    rewrite (list_sum_indicator ids (key x) Hnd (Hin x (or_introl eq_refl))).
    rewrite IH by (intros y Hy; apply Hin; now right). reflexivity.
Qed.

Lemma ids_are_keys {V : Type} (id : V -> Z) (d : dict V) (n : Z) :
  table_ok id d n -> map id (values d) = keys d.
Proof.
  intros [_ Hall]. unfold values, keys. rewrite map_map.
  apply map_ext_in. intros kv Hin. rewrite Forall_forall in Hall.
  now apply Hall.
Qed.

Lemma gpa_list_result st l :
  (exists gpas, gpa_list st l = Ok gpas) \/ gpa_list st l = Raise OverflowError.
Proof.
  induction l as [|s l IH]; simpl; [eauto|].
  rewrite calculate_gpa_eq_spec. unfold gpa_spec, point_sum.
  destruct (point_sum_from_result 0.0%float (graded_courses (s_id s) st))
    as [[n ->]| ->]; simpl; [|now right].
  destruct (credit_sum _ =? 0); simpl.
  - destruct IH as [[gpas ->]| ->]; simpl; eauto.
  - destruct (int_to_float _) as [d|e] eqn:Ed; simpl.
    + destruct IH as [[gpas ->]| ->]; simpl; eauto.
    + right. now rewrite (int_to_float_raise _ _ Ed).
Qed.

Lemma gpa_list_ok st l :
  (exists gpas, gpa_list st l = Ok gpas) <->
  Forall (fun s => exists x, Student.calculate_gpa s.(s_id) st = Ok x) l.
Proof.
  induction l as [|s l IH]; simpl.
  - split; [constructor | eauto].
  - destruct (Student.calculate_gpa (s_id s) st) as [x|e] eqn:Ec; simpl.
    + destruct (gpa_list st l) as [gpas|e] eqn:El; simpl.
      * split; [|eauto]. intros _. constructor; [eauto|]. apply IH. eauto.
      * split; [intros [g Hg]; discriminate Hg|].
        intros H. inversion H as [|? ? _ Hl]; subst.
        apply IH in Hl. destruct Hl as [g Hg]. discriminate Hg.
    + split; [intros [g Hg]; discriminate Hg|].
      intros H. inversion H as [|? ? [x Hx] _]; subst. congruence.
Qed.

(** X27. The reports page either fails with [OverflowError], when the GPA
    of some student cannot be computed, or hands [course_stats] to its
    template; in a store the application can be in, [course_stats] then
    has one row per course and its per-course numbers add up to the
    totals: every enrollment and every grade is counted for exactly one
    course. On [overflow_example] the page fails. *)
Theorem course_stats_totals (lower : string -> string) st :
  Routes.served lower st ->
  ((exists rows, reports_course_stats st = Ok rows) \/
   reports_course_stats st = Raise OverflowError) /\
  ((exists rows, reports_course_stats st = Ok rows) <->
   Forall (fun s => exists x, Student.calculate_gpa s.(s_id) st = Ok x)
          (Student.get_all st)) /\
  (forall rows, reports_course_stats st = Ok rows ->
     List.length rows = List.length (Course.get_all st) /\
     list_sum (map (fun row => snd (fst row)) rows)
       = List.length (Enrollment.get_all st) /\
     list_sum (map snd rows) = List.length (Grade.get_all st)) /\
  reports_course_stats overflow_example = Raise OverflowError.
Proof.
  intros Hs. pose proof (served_app_inv lower st Hs) as Hinv.
  destruct Hinv as [Hst Hr Hg _ _ _ _ _ _].
  rewrite Forall_forall in Hr, Hg.
  pose proof (table_ok_ids_nodup _ _ _ (inv_courses _ Hst)) as Hnd.
  assert (He : forall e, In e (Enrollment.get_all st) ->
                 In e.(e_course_id) (map c_id (Course.get_all st))).
  { intros e Hin. destruct (Hr e Hin) as [_ H]. apply contains_iff in H.
    unfold Course.get_all. now rewrite (ids_are_keys _ _ _ (inv_courses _ Hst)). }
  assert (Hshape : reports_course_stats st
            = (_ <- gpa_list st (Student.get_all st) ;;
               Ok (map (fun course =>
                          (course,
                           List.length (Enrollment.get_by_course course.(c_id) st),
                           List.length (Grade.get_by_course course.(c_id) st)))
                       (Course.get_all st)))).
  { unfold reports_course_stats. cbv zeta.
    destruct (Student.get_all st) as [|s l]; [reflexivity|].
    destruct (gpa_list st (s :: l)); reflexivity. }
  rewrite Hshape. pose proof (gpa_list_ok st (Student.get_all st)) as Hok.
  split; [|split; [|split; [|reflexivity]]].
  - destruct (gpa_list_result st (Student.get_all st)) as [[gpas ->]| ->]; simpl;
      eauto.
  - rewrite <- Hok. destruct (gpa_list st (Student.get_all st)); simpl.
    + split; eauto.
    + split; intros [x Hx]; discriminate Hx.
  - intros rows Hrows.
    destruct (gpa_list st (Student.get_all st)); [|discriminate Hrows].
    simpl in Hrows. injection Hrows as <-.
    split; [apply length_map|]. rewrite !map_map. simpl. split.
    + rewrite <- (count_per_key e_course_id (map c_id (Course.get_all st))
                    (Enrollment.get_all st) Hnd He).
      now rewrite map_map.
    + rewrite <- (count_per_key g_course_id (map c_id (Course.get_all st))
                    (Grade.get_all st) Hnd).
      * now rewrite map_map.
      * intros g Hin. specialize (Hg g Hin). apply in_map_iff in Hg.
        destruct Hg as [e [Hpair Hine]].
        unfold enrollment_pair, grade_pair in Hpair. injection Hpair as _ H2.
        rewrite <- H2. now apply He.
Qed.

Lemma course_stats_totals_witness :
  list_sum (map (fun row => snd (fst row))
                [(mkCourse 1 "CS1" "Intro" "d" 3 "t" "t", 2%nat, 1%nat)]) = 2%nat.
Proof.
  exact (proj1 (proj2 (proj1 (proj2 (proj2 (course_stats_totals ascii_lower
                                              two_students two_students_served)))
                         _ eq_refl))).
Defined.

(** * The GPA as a value *)

(** C1, counterexample. On [overflow_example], a store the handlers can
    produce, the first student has grades in courses of 3 and 2^1024
    credits: D is not zero, and [Student.calculate_gpa] raises
    [OverflowError] instead of returning a value. *)
Lemma calculate_gpa_overflow_counterexample :
  Routes.served ascii_lower overflow_example /\
  credit_sum (graded_courses 1 overflow_example) = 3 + 2 ^ 1024 /\
  Student.calculate_gpa 1 overflow_example = Raise OverflowError /\
  ~ (exists x, Student.calculate_gpa 1 overflow_example = Ok x).
Proof.
  split; [exact overflow_example_served|].
  split; [reflexivity|]. split; [reflexivity|].
  intros [x Hx]. discriminate Hx.
Qed.

(** C1. Let N and D be the point sum and the credit sum over the grades of
    the student whose course exists. When the credits of each of these
    courses and, unless it is zero, D are in the range of a float,
    [Student.calculate_gpa] returns a value: 0.0 when D is zero, and
    [round(N / D, 2)] otherwise. When one of them is out of that range it
    raises [OverflowError]. It returns 0.0 when the student has no grade
    with an existing course. A student with an A in a 3-credit course and
    a B in a 4-credit course has 3.43, also when a further grade refers to
    a course that does not exist. *)
Theorem calculate_gpa_spec student_id st :
  (Forall (fun gc => int_to_float (snd gc).(c_credits) <> Raise OverflowError)
          (graded_courses student_id st) ->
   credit_sum (graded_courses student_id st) = 0 \/
   int_to_float (credit_sum (graded_courses student_id st))
     <> Raise OverflowError ->
   exists n,
     point_sum (graded_courses student_id st) = Ok n /\
     ((credit_sum (graded_courses student_id st) = 0 /\
       Student.calculate_gpa student_id st = Ok 0.0%float) \/
      (credit_sum (graded_courses student_id st) <> 0 /\
       exists d,
         int_to_float (credit_sum (graded_courses student_id st)) = Ok d /\
         Student.calculate_gpa student_id st = Ok (round2 (n / d)%float)))) /\
  (~ (Forall (fun gc => int_to_float (snd gc).(c_credits) <> Raise OverflowError)
             (graded_courses student_id st) /\
      (credit_sum (graded_courses student_id st) = 0 \/
       int_to_float (credit_sum (graded_courses student_id st))
         <> Raise OverflowError)) ->
   Student.calculate_gpa student_id st = Raise OverflowError) /\
  (graded_courses student_id st = [] ->
   Student.calculate_gpa student_id st = Ok 0.0%float) /\
  (Forall (fun gc => 0 < (snd gc).(c_credits)) (graded_courses student_id st) ->
   credit_sum (graded_courses student_id st) = 0 ->
   Student.calculate_gpa student_id st = Ok 0.0%float) /\
  Student.calculate_gpa student_id st = gpa_spec student_id st /\
  Student.calculate_gpa 1 gpa_example = Ok 3.43%float /\
  Student.calculate_gpa 1 (snd (Grade.create 1 7 "A" None "t" "t" gpa_example))
    = Ok 3.43%float /\
  Student.calculate_gpa 2 gpa_example = Ok 0.0%float.
Proof.
  rewrite calculate_gpa_eq_spec. unfold gpa_spec, point_sum.
  set (l := graded_courses student_id st).
  pose proof (point_sum_from_ok 0.0%float l) as Hok.
  split; [|split; [|split; [|split; [|split]]]].
  - intros Hall Hd. apply Hok in Hall. destruct Hall as [n Hn].
    exists n. split; [exact Hn|]. rewrite Hn. simpl.
    destruct (credit_sum l =? 0) eqn:Ez.
    + left. apply Z.eqb_eq in Ez. auto.
    + right. apply Z.eqb_neq in Ez. split; [exact Ez|].
      destruct Hd as [Hd|Hd]; [contradiction|].
      destruct (int_to_float (credit_sum l)) as [d|e] eqn:Ed.
      * exists d. auto.
      * pose proof (int_to_float_raise _ _ Ed) as ->. contradiction.
  - intros Hnot.
    destruct (point_sum_from_result 0.0%float l) as [[n Hn]|Hr];
      [|now rewrite Hr].
    rewrite Hn. simpl.
    assert (Hall : Forall (fun gc => int_to_float (snd gc).(c_credits)
                                     <> Raise OverflowError) l)
      by (apply Hok; eauto).
    destruct (credit_sum l =? 0) eqn:Ez.
    + exfalso. apply Hnot. apply Z.eqb_eq in Ez. auto.
    + destruct (int_to_float (credit_sum l)) as [d|e] eqn:Ed; simpl.
      * exfalso. apply Hnot. split; [exact Hall|]. right. congruence.
      * now rewrite (int_to_float_raise _ _ Ed).
  - intros ->. reflexivity.
  - intros Hpos Hd. rewrite (credit_sum_positive _ Hpos Hd). reflexivity.
  - reflexivity.
  - repeat split; reflexivity.
Qed.

Lemma calculate_gpa_spec_witness :
  Student.calculate_gpa 1 gpa_example = Ok (round2 (24.0 / 7.0)%float).
Proof.
  assert (H1 : Forall (fun gc => int_to_float (snd gc).(c_credits)
                                 <> Raise OverflowError)
                      (graded_courses 1 gpa_example)).
  { repeat (constructor; [discriminate|]). constructor. }
  assert (H2 : credit_sum (graded_courses 1 gpa_example) = 0 \/
               int_to_float (credit_sum (graded_courses 1 gpa_example))
                 <> Raise OverflowError).
  { right. discriminate. }
  destruct (proj1 (calculate_gpa_spec 1 gpa_example) H1 H2)
    as (n & Hn & [[Hz _]|(_ & d & Hd & Hv)]).
  - discriminate Hz.
  - injection Hn as <-. injection Hd as <-. exact Hv.
Defined.
